(** * libdns-autodns: zone reconciliation and record codec

    A shallow embedding of the AutoDNS provider for libdns
    (models.go, client.go, provider.go) and the properties of its
    record codec and of the get / append / set / delete operations.

    Conventions of the embedding:
    - a Go [string] is a Rocq [string] (a sequence of bytes);
    - Go integers are [Z], conversions and wrap-around written out;
    - a Go [error] is [option string]: [None] is [nil], [Some msg] carries
      the text of [err.Error()];
    - a Go function returning [(T, error)] returns a pair, so that the
      value returned next to a non-nil error is visible;
    - methods on [*Provider] thread the provider and the list of requests
      handed to the transport explicitly;
    - the mutex around the zone cache and the [context.Context] argument
      have no counterpart: calls are modelled one at a time, cancellation
      is one of the ways the transport may fail. *)

From Stdlib Require Import ZArith String Ascii List Bool Lia.
From Stdlib Require Import Numbers.DecimalString Numbers.HexadecimalString.
From stdpp Require Import base gmap strings list.

Local Open Scope string_scope.
Local Open Scope Z_scope.

(** ** Go standard library: [unicode/utf8], [unicode], [strings], [strconv], [fmt] *)

Module utf8.

Definition RuneError : Z := 65533.
Definition RuneSelf : Z := 128.

(** A byte of a string, as a number. *)
Definition byte (c : ascii) : Z := Z.of_nat (nat_of_ascii c).

(** The table [first] on the bytes from [RuneSelf] on: the size of the
    sequence a byte starts and the range its second byte must lie in
    ([acceptRanges]); [None] for a byte that starts none ([xx]). *)
Definition first (b : Z) : option (nat * Z * Z) :=
  if (194 <=? b) && (b <=? 223) then Some (2%nat, 128, 191)
  else if b =? 224 then Some (3%nat, 160, 191)
  else if (225 <=? b) && (b <=? 236) then Some (3%nat, 128, 191)
  else if b =? 237 then Some (3%nat, 128, 159)
  else if (238 <=? b) && (b <=? 239) then Some (3%nat, 128, 191)
  else if b =? 240 then Some (4%nat, 144, 191)
  else if (241 <=? b) && (b <=? 243) then Some (4%nat, 128, 191)
  else if b =? 244 then Some (4%nat, 128, 143)
  else None.

(** [s[i]], for [i] below the length. *)
Definition at_ (s : string) (i : nat) : Z :=
  match String.get i s with
  | Some c => byte c
  | None => 0
  end.

(** [utf8.DecodeRuneInString], which is also what [range] over a
    string reads at each step: the rune at the head of [s] and its width
    in bytes, [RuneError] and width 1 for a byte sequence that is no
    encoding. *)
Definition DecodeRuneInString (s : string) : Z * nat :=
  match s with
  | EmptyString => (RuneError, 0%nat)
  | String c0 _ =>
      let s0 := byte c0 in
      if s0 <? RuneSelf then (s0, 1%nat)
      else
        match first s0 with
        | None => (RuneError, 1%nat)
        | Some (sz, lo, hi) =>
            if (String.length s <? sz)%nat then (RuneError, 1%nat)
            else
              let s1 := at_ s 1 in
              if (s1 <? lo) || (hi <? s1) then (RuneError, 1%nat)
              else if (sz <=? 2)%nat then
                (Z.lor (Z.shiftl (Z.land s0 31) 6) (Z.land s1 63), 2%nat)
              else
                let s2 := at_ s 2 in
                if (s2 <? 128) || (191 <? s2) then (RuneError, 1%nat)
                else if (sz <=? 3)%nat then
                  (Z.lor (Z.lor (Z.shiftl (Z.land s0 15) 12)
                                (Z.shiftl (Z.land s1 63) 6))
                         (Z.land s2 63), 3%nat)
                else
                  let s3 := at_ s 3 in
                  if (s3 <? 128) || (191 <? s3) then (RuneError, 1%nat)
                  else
                    (Z.lor (Z.lor (Z.lor (Z.shiftl (Z.land s0 7) 18)
                                         (Z.shiftl (Z.land s1 63) 12))
                                  (Z.shiftl (Z.land s2 63) 6))
                           (Z.land s3 63), 4%nat)
        end
  end.

End utf8.

Module unicode.

Definition MaxLatin1 : Z := 255.

(** [unicode.IsSpace]: the Latin-1 white space, and outside Latin-1 the
    code points of the table [White_Space]. *)
Definition IsSpace (r : Z) : bool :=
  if (0 <=? r) && (r <=? MaxLatin1) then
    (r =? 9) || (r =? 10) || (r =? 11) || (r =? 12) || (r =? 13) || (r =? 32)
    || (r =? 133) || (r =? 160)
  else
    (r =? 5760) || ((8192 <=? r) && (r <=? 8202)) || (r =? 8232) || (r =? 8233)
    || (r =? 8239) || (r =? 8287) || (r =? 12288).

End unicode.

Module strings.

Definition len (s : string) : nat := String.length s.

(** [s[i:j]] for [i <= j <= len s]. *)
Definition slice (s : string) (i j : nat) : string :=
  String.substring i (j - i) s.

Definition HasPrefix (s prefix : string) : bool :=
  (len prefix <=? len s)%nat && String.eqb (slice s 0 (len prefix)) prefix.

Definition HasSuffix (s suffix : string) : bool :=
  (len suffix <=? len s)%nat
  && String.eqb (slice s (len s - len suffix) (len s)) suffix.

Definition TrimPrefix (s prefix : string) : string :=
  if HasPrefix s prefix then slice s (len prefix) (len s) else s.

Definition TrimSuffix (s suffix : string) : string :=
  if HasSuffix s suffix then slice s 0 (len s - len suffix) else s.

(** [strings.Trim(s, cutset)] for a cutset of one byte. *)
Fixpoint TrimLeft1 (s : string) (c : ascii) : string :=
  match s with
  | String a t => if Ascii.eqb a c then TrimLeft1 t c else s
  | EmptyString => EmptyString
  end.

Fixpoint TrimRight1 (s : string) (c : ascii) : string :=
  match s with
  | String a t =>
      match TrimRight1 t c with
      | EmptyString => if Ascii.eqb a c then EmptyString else String a EmptyString
      | t' => String a t'
      end
  | EmptyString => EmptyString
  end.

Definition Trim1 (s : string) (c : ascii) : string :=
  TrimRight1 (TrimLeft1 s c) c.

(** The table [asciiSpace]: tab, newline, vertical tab, form feed,
    carriage return and space. *)
Definition asciiSpace (c : ascii) : bool :=
  let n := nat_of_ascii c in
  ((9 <=? n) && (n <=? 13))%nat || (n =? 32)%nat.

(** The first loop of [strings.Fields]: the bits set in some byte. *)
Fixpoint setBits (s : string) : Z :=
  match s with
  | EmptyString => 0
  | String c t => Z.lor (utf8.byte c) (setBits t)
  end.

(** The ASCII path of [strings.Fields]: the maximal runs of bytes that
    are no ASCII white space, in order. [cur] is the field being read. *)
Fixpoint fieldsFrom (s cur : string) : list string :=
  match s with
  | EmptyString => match cur with EmptyString => [] | _ => [cur] end
  | String c t =>
      if asciiSpace c
      then match cur with
           | EmptyString => fieldsFrom t EmptyString
           | _ => cur :: fieldsFrom t EmptyString
           end
      else fieldsFrom t (cur ++ String c EmptyString)
  end.

(** The loop of [strings.FieldsFunc] over the runes of the string.
    [skip] counts the bytes left of the rune being read; [cur] is the
    field being read, [None] between fields ([start < 0]). *)
Fixpoint fieldsFuncFrom (f : Z -> bool) (s : string) (skip : nat)
  (cur : option string) : list string :=
  match s with
  | EmptyString => match cur with Some field => [field] | None => [] end
  | String c t =>
      match skip with
      | S skip' =>
          fieldsFuncFrom f t skip'
            (option_map (fun field => field ++ String c EmptyString) cur)
      | O =>
          let '(rune, width) := utf8.DecodeRuneInString s in
          if f rune then
            match cur with
            | Some field => field :: fieldsFuncFrom f t (width - 1) None
            | None => fieldsFuncFrom f t (width - 1) None
            end
          else
            fieldsFuncFrom f t (width - 1)
              (Some (default EmptyString cur ++ String c EmptyString))
      end
  end.

(** [strings.FieldsFunc] *)
Definition FieldsFunc (s : string) (f : Z -> bool) : list string :=
  fieldsFuncFrom f s 0 None.

(** [strings.Fields]: the fields between white space; a string with a
    byte from [utf8.RuneSelf] on is cut at Unicode white space. *)
Definition Fields (s : string) : list string :=
  if utf8.RuneSelf <=? setBits s then FieldsFunc s unicode.IsSpace
  else fieldsFrom s EmptyString.

(** [strings.Index]: position of the first occurrence of [sep]. *)
Definition Index (s sep : string) : option nat := String.index 0 sep s.

(** The loop of [genSplit]: at most [k] more cuts, then the rest. *)
Fixpoint splitLoop (k : nat) (s sep : string) : list string :=
  match k with
  | O => [s]
  | S k' =>
      match Index s sep with
      | None => [s]
      | Some m =>
          slice s 0 m :: splitLoop k' (slice s (m + len sep) (len s)) sep
      end
  end.

(** [strings.SplitN(s, sep, n)] for a non-empty [sep] and [n >= 0]. *)
Definition SplitN (s sep : string) (n : nat) : list string :=
  match n with
  | O => []
  | S k => splitLoop k s sep
  end.

End strings.

Module strconv.

Definition digit (c : ascii) : option Z :=
  let n := nat_of_ascii c in
  if ((48 <=? n) && (n <=? 57))%nat then Some (Z.of_nat n - 48) else None.

Fixpoint digits (s : string) (acc : Z) : option Z :=
  match s with
  | EmptyString => Some acc
  | String c t =>
      match digit c with
      | Some d => digits t (10 * acc + d)
      | None => None
      end
  end.

Inductive NumError := ErrSyntax | ErrRange.

Definition maxUint64 : Z := 2 ^ 64 - 1.

(** The smallest number such that [cutoff * 10 > maxUint64]. *)
Definition cutoff : Z := maxUint64 / 10 + 1.

(** The loop of [strconv.ParseUint] in base 10: a byte that is no digit
    is a syntax error, a value beyond [maxVal] a range error, whichever
    is met first. [n] is a [uint64]. *)
Fixpoint parseLoop (s : string) (n maxVal : Z) : Z + NumError :=
  match s with
  | EmptyString => inl n
  | String c t =>
      match digit c with
      | None => inr ErrSyntax
      | Some d =>
          if cutoff <=? n then inr ErrRange
          else
            let n := n * 10 in
            let n1 := (n + d) mod 2 ^ 64 in
            if (n1 <? n) || (maxVal <? n1) then inr ErrRange
            else parseLoop t n1 maxVal
      end
  end.

(** [strconv.ParseUint(s, 10, bitSize)] for [bitSize] from 1 to 64: the
    value, or the kind of error. *)
Definition ParseUint10 (s : string) (bitSize : Z) : Z + NumError :=
  match s with
  | EmptyString => inr ErrSyntax
  | _ => parseLoop s 0 (2 ^ bitSize - 1)
  end.

(** [%d] of an integer. *)
Definition Itoa (z : Z) : string :=
  DecimalString.NilEmpty.string_of_int (Z.to_int z).

End strconv.

Definition error : Type := option string.

(** The double quote, for the messages and formats that contain one. *)
Definition dquote : string := String (ascii_of_nat 34) EmptyString.

(** ** [net/netip]: addresses and their text form *)

Module netip.

(** [netip.Addr]: the zero value, an IPv4 address of four bytes, or an
    IPv6 address of eight 16-bit groups with its zone. *)
Inductive Addr :=
| AddrZero
| Addr4 (a b c d : Z)
| Addr6 (g0 g1 g2 g3 g4 g5 g6 g7 : Z) (zone : string).

Definition Is4 (ip : Addr) : bool :=
  match ip with Addr4 _ _ _ _ => true | _ => false end.

Definition Is6 (ip : Addr) : bool :=
  match ip with Addr6 _ _ _ _ _ _ _ _ _ => true | _ => false end.

Definition groups (ip : Addr) : list Z :=
  match ip with
  | Addr6 g0 g1 g2 g3 g4 g5 g6 g7 _ => [g0; g1; g2; g3; g4; g5; g6; g7]
  | _ => []
  end.

Definition Is4In6 (ip : Addr) : bool :=
  match ip with
  | Addr6 0 0 0 0 0 65535 _ _ _ => true
  | _ => false
  end.

Definition string4 (a b c d : Z) : string :=
  strconv.Itoa a ++ "." ++ strconv.Itoa b ++ "." ++ strconv.Itoa c ++ "."
  ++ strconv.Itoa d.

(** [appendHex]: lower-case hexadecimal without leading zeros. *)
Definition appendHex (x : Z) : string :=
  match x with
  | 0 => "0"
  | _ => HexadecimalString.NilEmpty.string_of_uint (N.to_hex_uint (Z.to_N x))
  end.

Fixpoint zeroRun (l : list Z) : nat :=
  match l with
  | 0 :: t => S (zeroRun t)
  | _ => O
  end.

(** First loop of [appendTo6]: the first longest run of at least two
    zero groups, as [(zeroStart, zeroEnd)], scanning from group [i]. *)
Fixpoint longestZeros (l : list Z) (i : nat) (best : nat * nat) : nat * nat :=
  match l with
  | [] => best
  | _ :: t =>
      let j := (i + zeroRun l)%nat in
      let best' :=
        if ((2 <=? j - i) && (snd best - fst best <? j - i))%nat
        then (i, j) else best in
      longestZeros t (S i) best'
  end.

(** Second loop of [appendTo6], from group [i]. *)
Fixpoint writeGroups (fuel i : nat) (g : list Z) (zs ze : nat) : string :=
  match fuel with
  | O => EmptyString
  | S fuel' =>
      if (8 <=? i)%nat then EmptyString
      else if (i =? zs)%nat
      then "::" ++ (if (8 <=? ze)%nat then EmptyString
                    else appendHex (nth ze g 0)
                         ++ writeGroups fuel' (S ze) g zs ze)
      else (if (0 <? i)%nat then ":" else EmptyString)
           ++ appendHex (nth i g 0) ++ writeGroups fuel' (S i) g zs ze
  end.

Definition withZone (zone : string) : string :=
  match zone with
  | EmptyString => EmptyString
  | _ => "%" ++ zone
  end.

Definition string6 (ip : Addr) : string :=
  let g := groups ip in
  let '(zs, ze) := longestZeros g 0 (255, 255)%nat in
  writeGroups 9 0 g zs ze.

(** [Addr.String]: the canonical text form. *)
Definition String (ip : Addr) : string :=
  match ip with
  | AddrZero => "invalid IP"
  | Addr4 a b c d => string4 a b c d
  | Addr6 _ _ _ _ _ _ g6 g7 zone =>
      if Is4In6 ip
      then "::ffff:" ++ string4 (g6 / 256) (g6 mod 256) (g7 / 256) (g7 mod 256)
           ++ withZone zone
      else string6 ip ++ withZone zone
  end.

End netip.

(** ** [github.com/libdns/libdns]: the generic records *)

Module libdns.

(** [libdns.SvcParams]: a map from key to values. *)
Definition SvcParams : Type := gmap string (list string).

(** The record variants of libdns. [TTL] is a [time.Duration], a number
    of nanoseconds; the 8- and 16-bit fields hold their value as [Z].
    [ProviderData], which the provider neither reads nor writes, is
    left out. The last constructor stands for the values of the
    interface [libdns.Record] that are none of these structs. *)
Inductive RecordT :=
| Address (Name : string) (TTL : Z) (IP : netip.Addr)
| CAA (Name : string) (TTL : Z) (Flags : Z) (Tag Value : string)
| CNAME (Name : string) (TTL : Z) (Target : string)
| MX (Name : string) (TTL : Z) (Preference : Z) (Target : string)
| NS (Name : string) (TTL : Z) (Target : string)
| SRV (Service Transport Name : string) (TTL : Z)
      (Priority Weight Port : Z) (Target : string)
| ServiceBinding (Name : string) (TTL : Z) (Scheme : string)
      (URLSchemePort Priority : Z) (Target : string) (Params : SvcParams)
| TXT (Name : string) (TTL : Z) (Text : string)
| RR (Name : string) (TTL : Z) (Type_ : string) (Data : string)
(** a value of any other type that implements [libdns.Record] (a
    pointer to one of the structs above, a type of the caller), given
    by what its [RR()] method returns *)
| Foreign (Name : string) (TTL : Z) (Type_ : string) (Data : string).

(** The name a record carries. *)
Definition Name (r : RecordT) : string :=
  match r with
  | Address n _ _ | CAA n _ _ _ _ | CNAME n _ _ | MX n _ _ _ | NS n _ _
  | SRV _ _ n _ _ _ _ _ | ServiceBinding n _ _ _ _ _ _ | TXT n _ _
  | RR n _ _ _ | Foreign n _ _ _ => n
  end.

End libdns.

(** ** What the provider calls and does not own

    The functions of libdns, [netip] and [strconv] that the codec calls
    and whose code is not part of the provider are taken as parameters. *)

Class Library := {
  (** [libdns.AbsoluteName(name, zone)] *)
  AbsoluteName : string -> string -> string;
  (** [libdns.RelativeName(fqdn, zone)] *)
  RelativeName : string -> string -> string;
  (** [libdns.RR.Parse] on [RR{Name, TTL, Type, Data}] *)
  RR_Parse : string -> Z -> string -> string -> libdns.RecordT * error;
  (** [netip.ParseAddr] *)
  ParseAddr : string -> netip.Addr * error;
  (** [strconv.Quote], also the [%q] verb of [fmt] *)
  Quote : string -> string
}.

(** ** models.go: the provider's documents *)

(** [AutoDNSTime]: an instant, [0] for the zero [time.Time]. *)
Definition AutoDNSTime : Type := Z.

Record SOA := {
  soa_Refresh : Z;
  soa_Retry : Z;
  soa_Expire : Z;
  soa_TTL : Z;
  soa_Email : string
}.

Record NameServer := {
  ns_Name : string;
  ns_TTL : Z;
  ns_IPAddresses : list string
}.

(** [ResourceRecord]: one row of a zone document. *)
Record ResourceRecord := {
  rr_Name : string;
  rr_TTL : Z;
  rr_Type : string;
  rr_Value : string;
  rr_Pref : Z;
  rr_Raw : string
}.

(** [Zone]: the zone document. [zone_SOA] is a pointer in the source. *)
Record Zone := {
  zone_Created : AutoDNSTime;
  zone_Updated : AutoDNSTime;
  zone_Origin : string;
  zone_SOA : option SOA;
  zone_NameServers : list NameServer;
  zone_WWWInclude : bool;
  zone_VirtualNameServer : string;
  zone_Action : string;
  zone_ResourceRecords : list ResourceRecord;
  zone_ROID : Z
}.

(** [Zone{}] *)
Definition Zone_zero : Zone := {|
  zone_Created := 0; zone_Updated := 0; zone_Origin := EmptyString;
  zone_SOA := None; zone_NameServers := []; zone_WWWInclude := false;
  zone_VirtualNameServer := EmptyString; zone_Action := EmptyString;
  zone_ResourceRecords := []; zone_ROID := 0
|}.

(** [zoneData.ResourceRecords = rrs] on the local copy of a document. *)
Definition set_ResourceRecords (zoneData : Zone) (rrs : list ResourceRecord) : Zone := {|
  zone_Created := zone_Created zoneData;
  zone_Updated := zone_Updated zoneData;
  zone_Origin := zone_Origin zoneData;
  zone_SOA := zone_SOA zoneData;
  zone_NameServers := zone_NameServers zoneData;
  zone_WWWInclude := zone_WWWInclude zoneData;
  zone_VirtualNameServer := zone_VirtualNameServer zoneData;
  zone_Action := zone_Action zoneData;
  zone_ResourceRecords := rrs;
  zone_ROID := zone_ROID zoneData
|}.

(** ** Integer conversions and durations *)

Definition int64 (z : Z) : Z := (z + 2 ^ 63) mod 2 ^ 64 - 2 ^ 63.
Definition uint16 (z : Z) : Z := z mod 2 ^ 16.
Definition uint8 (z : Z) : Z := z mod 2 ^ 8.

(** [time.Second], in nanoseconds. *)
Definition Second : Z := 1000000000.

(** [ParseUint]'s error text, as [%v] prints it. *)
Definition NumError_Error {lib : Library} (fn s : string) (e : strconv.NumError) : string :=
  "strconv." ++ fn ++ ": parsing " ++ Quote s ++ ": "
  ++ match e with
     | strconv.ErrSyntax => "invalid syntax"
     | strconv.ErrRange => "value out of range"
     end.

(** ** models.go: the record codec *)

Section Codec.
Context {lib : Library}.

(** [func (r ResourceRecord) libdnsRecord(zone string) (libdns.Record, error)] *)
Definition libdnsRecord (r : ResourceRecord) (zone : string)
  : libdns.RecordT * error :=
  let name := RelativeName (rr_Name r) zone in
  let ttl := int64 (rr_TTL r * Second) in
  let ty := rr_Type r in
  if String.eqb ty "A" || String.eqb ty "AAAA" then
    match ParseAddr (rr_Value r) with
    | (_, Some err) =>
        (libdns.Address EmptyString 0 netip.AddrZero,
         Some ("invalid IP address " ++ Quote (rr_Value r) ++ ": " ++ err))
    | (addr, None) => (libdns.Address name ttl addr, None)
    end
  else if String.eqb ty "CAA" then
    let fields := strings.Fields (rr_Value r) in
    if negb (length fields =? 3)%nat then
      (libdns.CAA EmptyString 0 0 EmptyString EmptyString,
       Some ("malformed CAA value; expected 3 fields in the form 'flags tag "
             ++ dquote ++ "value" ++ dquote ++ "'"))
    else
      match strconv.ParseUint10 (nth 0 fields EmptyString) 8 with
      | inr err =>
          (libdns.CAA EmptyString 0 0 EmptyString EmptyString,
           Some ("invalid flags " ++ nth 0 fields EmptyString ++ ": "
                 ++ NumError_Error "ParseUint" (nth 0 fields EmptyString) err))
      | inl flags =>
          let tag := nth 1 fields EmptyString in
          let value := strings.Trim1 (nth 2 fields EmptyString) (ascii_of_nat 34) in
          (libdns.CAA name ttl (uint8 flags) tag value, None)
      end
  else if String.eqb ty "CNAME" then
    (libdns.CNAME name ttl (rr_Value r), None)
  else if String.eqb ty "MX" then
    (libdns.MX name ttl (uint16 (rr_Pref r)) (rr_Value r), None)
  else if String.eqb ty "NS" then
    (libdns.NS name ttl (rr_Value r), None)
  else if String.eqb ty "SRV" then
    let zero :=
      libdns.SRV EmptyString EmptyString EmptyString 0 0 0 0 EmptyString in
    let fields := strings.Fields (rr_Value r) in
    if negb (length fields =? 3)%nat then
      (zero, Some "malformed SRV value; expected 3 fields in the form 'priority weight port target'")
    else
      match strconv.ParseUint10 (nth 0 fields EmptyString) 16 with
      | inr err =>
          (zero, Some ("invalid weight " ++ nth 0 fields EmptyString ++ ": "
                       ++ NumError_Error "ParseUint" (nth 0 fields EmptyString) err))
      | inl weight =>
          match strconv.ParseUint10 (nth 1 fields EmptyString) 16 with
          | inr err =>
              (zero, Some ("invalid port " ++ nth 1 fields EmptyString ++ ": "
                           ++ NumError_Error "ParseUint" (nth 1 fields EmptyString) err))
          | inl port =>
              let target := nth 2 fields EmptyString in
              let parts := strings.SplitN (rr_Name r) "." 3 in
              if (length parts <? 2)%nat then
                (zero, Some ("name " ++ rr_Name r
                   ++ " does not contain enough fields; expected format: '_service._proto.name' or '_service._proto'"))
              else
                let name := if (length parts =? 3)%nat
                            then nth 2 parts EmptyString else "@" in
                (libdns.SRV (strings.TrimPrefix (nth 0 parts EmptyString) "_")
                            (strings.TrimPrefix (nth 1 parts EmptyString) "_")
                            name
                            (int64 (rr_TTL r * Second))
                            (uint16 (rr_Pref r))
                            (uint16 weight)
                            (uint16 port)
                            target, None)
          end
      end
  else if String.eqb ty "TXT" then
    (libdns.TXT name ttl (rr_Value r), None)
  else
    RR_Parse name ttl ty (rr_Value r).

(** [int64(r.TTL / time.Second)]: Go's division truncates toward zero. *)
Definition seconds (ttl : Z) : Z := Z.quot ttl Second.

(** [func libdnsRecordToResourceRecord(record libdns.Record, zone string) ResourceRecord] *)
Definition libdnsRecordToResourceRecord (record : libdns.RecordT) (zone : string)
  : ResourceRecord :=
  match record with
  | libdns.Address Name TTL IP =>
      {| rr_Name := AbsoluteName Name zone; rr_TTL := seconds TTL;
         rr_Type := "A"; rr_Value := netip.String IP;
         rr_Pref := 0; rr_Raw := EmptyString |}
  | libdns.CAA Name TTL Flags Tag Value =>
      {| rr_Name := AbsoluteName Name zone; rr_TTL := seconds TTL;
         rr_Type := "CAA";
         rr_Value := strconv.Itoa Flags ++ " " ++ Tag ++ " "
                     ++ dquote ++ Value ++ dquote;
         rr_Pref := 0; rr_Raw := EmptyString |}
  | libdns.CNAME Name TTL Target =>
      {| rr_Name := AbsoluteName Name zone; rr_TTL := seconds TTL;
         rr_Type := "CNAME"; rr_Value := Target;
         rr_Pref := 0; rr_Raw := EmptyString |}
  | libdns.MX Name TTL Preference Target =>
      {| rr_Name := AbsoluteName Name zone; rr_TTL := seconds TTL;
         rr_Type := "MX"; rr_Value := Target;
         rr_Pref := Preference; rr_Raw := EmptyString |}
  | libdns.NS Name TTL Target =>
      {| rr_Name := AbsoluteName Name zone; rr_TTL := seconds TTL;
         rr_Type := "NS"; rr_Value := Target;
         rr_Pref := 0; rr_Raw := EmptyString |}
  | libdns.SRV Service Transport Name TTL Priority Weight Port Target =>
      {| rr_Name := "_" ++ Service ++ "._" ++ Transport ++ "."
                    ++ AbsoluteName Name zone;
         rr_TTL := seconds TTL;
         rr_Type := "SRV";
         rr_Value := strconv.Itoa Weight ++ " " ++ strconv.Itoa Port ++ " "
                     ++ Target;
         rr_Pref := Priority; rr_Raw := EmptyString |}
  | libdns.TXT Name TTL Text =>
      {| rr_Name := AbsoluteName Name zone; rr_TTL := seconds TTL;
         rr_Type := "TXT"; rr_Value := Text;
         rr_Pref := 0; rr_Raw := EmptyString |}
  | _ =>
      (* Fallback for unknown record types *)
      {| rr_Name := "unknown"; rr_TTL := 0; rr_Type := "UNKNOWN";
         rr_Value := "unknown"; rr_Pref := 0; rr_Raw := EmptyString |}
  end.

End Codec.

(** ** provider.go: the provider *)

(** [Provider]. A nil [zones] map and an empty one read alike and are
    both the empty map here. *)
Record Provider := {
  p_Username : string;
  p_Password : string;
  p_Context : string;
  p_Endpoint : string;
  p_zones : gmap string Zone;
  p_initialized : bool
}.

Definition defaultEndpoint : string := "https://api.autodns.com/v1".
Definition defaultContext : string := "4".

Definition set_Endpoint (p : Provider) (v : string) : Provider := {|
  p_Username := p_Username p; p_Password := p_Password p;
  p_Context := p_Context p; p_Endpoint := v;
  p_zones := p_zones p; p_initialized := p_initialized p
|}.

Definition set_Context (p : Provider) (v : string) : Provider := {|
  p_Username := p_Username p; p_Password := p_Password p;
  p_Context := v; p_Endpoint := p_Endpoint p;
  p_zones := p_zones p; p_initialized := p_initialized p
|}.

Definition set_initialized (p : Provider) (v : bool) : Provider := {|
  p_Username := p_Username p; p_Password := p_Password p;
  p_Context := p_Context p; p_Endpoint := p_Endpoint p;
  p_zones := p_zones p; p_initialized := v
|}.

Definition set_zones (p : Provider) (v : gmap string Zone) : Provider := {|
  p_Username := p_Username p; p_Password := p_Password p;
  p_Context := p_Context p; p_Endpoint := p_Endpoint p;
  p_zones := v; p_initialized := p_initialized p
|}.

(** [func (p *Provider) ensureInitialized() error] *)
Definition ensureInitialized (p : Provider) : error * Provider :=
  if p_initialized p then (None, p)
  else
    let p := if String.eqb (p_Endpoint p) EmptyString
             then set_Endpoint p defaultEndpoint else p in
    let p := if String.eqb (p_Context p) EmptyString
             then set_Context p defaultContext else p in
    if String.eqb (p_Username p) EmptyString then
      (Some "username is required", p)
    else if String.eqb (p_Password p) EmptyString then
      (Some "password is required", p)
    else (None, set_initialized p true).

(** ** client.go: the transport *)

(** An [*http.Request] as the provider builds it: method, URL and, for a
    write, the document that [json.Marshal] serialises. Marshalling the
    cleaned document cannot fail (strings, integers and zero times only),
    so the body is the document itself. *)
Record Request := {
  req_Method : string;
  req_URL : string;
  req_Body : option Zone
}.

(** The network side. [roundTrip] stands for the HTTP exchange and the
    decoding of the answer inside [sendAPIRequest]: given the requests
    sent so far, the credentials the headers are built from and the
    request, it yields the decoded [[]Zone] data and the error. *)
Class Transport := {
  (** [http.NewRequestWithContext(ctx, method, url, body)]: its error *)
  NewRequestWithContext : string -> string -> option Zone -> error;
  roundTrip : list Request -> string * string * string -> Request
              -> list Zone * error
}.

(** The provider together with the requests handed to the transport. *)
Record State := {
  prov : Provider;
  net : list Request
}.

Section Client.
Context {lib : Library} {tr : Transport}.

(** [func (p *Provider) sendAPIRequest(req *http.Request, data any) (JsonResponse, error)] *)
Definition sendAPIRequest (req : Request) (st : State)
  : (list Zone * error) * State :=
  let p := prov st in
  (roundTrip (net st) (p_Username p, p_Password p, p_Context p) req,
   {| prov := p; net := (net st ++ [req])%list |}).

(** [func (p *Provider) getZone(ctx, zoneName string) (Zone, error)] *)
Definition getZone (zoneName : string) (st : State) : (Zone * error) * State :=
  let p := prov st in
  (* Check cache first *)
  match p_zones p !! zoneName with
  | Some zone => ((zone, None), st)
  | None =>
      let reqURL := p_Endpoint p ++ "/zone/" ++ zoneName in
      match NewRequestWithContext "GET" reqURL None with
      | Some err => ((Zone_zero, Some ("failed to create request: " ++ err)), st)
      | None =>
          let req := {| req_Method := "GET"; req_URL := reqURL; req_Body := None |} in
          let '((zones, err), st) := sendAPIRequest req st in
          match err with
          | Some err =>
              ((Zone_zero, Some ("failed to get zone " ++ zoneName ++ ": " ++ err)), st)
          | None =>
              match zones with
              | zone :: _ =>
                  (* Cache the zone *)
                  ((zone, None),
                   {| prov := set_zones (prov st) (<[zoneName := zone]> (p_zones (prov st)));
                      net := net st |})
              | [] => ((Zone_zero, Some ("no zones found for " ++ zoneName)), st)
              end
          end
      end
  end.

(** The document [setZone] sends: the timestamps are left zero. *)
Definition cleanZone (zoneData : Zone) : Zone := {|
  zone_Created := 0;
  zone_Updated := 0;
  zone_Origin := zone_Origin zoneData;
  zone_SOA := zone_SOA zoneData;
  zone_NameServers := zone_NameServers zoneData;
  zone_WWWInclude := zone_WWWInclude zoneData;
  zone_VirtualNameServer := zone_VirtualNameServer zoneData;
  zone_Action := zone_Action zoneData;
  zone_ResourceRecords := zone_ResourceRecords zoneData;
  zone_ROID := zone_ROID zoneData
|}.

(** [func (p *Provider) setZone(ctx, zoneName string, zoneData Zone) error] *)
Definition setZone (zoneName : string) (zoneData : Zone) (st : State)
  : error * State :=
  let reqURL := p_Endpoint (prov st) ++ "/zone/" ++ zoneName in
  let requestBody := cleanZone zoneData in
  match NewRequestWithContext "PUT" reqURL (Some requestBody) with
  | Some err => (Some ("failed to create request: " ++ err), st)
  | None =>
      let req := {| req_Method := "PUT"; req_URL := reqURL;
                    req_Body := Some requestBody |} in
      let '((_, err), st) := sendAPIRequest req st in
      match err with
      | Some err => (Some ("failed to update zone " ++ zoneName ++ ": " ++ err), st)
      | None =>
          (* Clear cache after update to ensure fresh data *)
          (None, {| prov := set_zones (prov st) (delete zoneName (p_zones (prov st)));
                    net := net st |})
      end
  end.

(** The conversion loop of [addRecords] and [setRecords]:
    [newRecords = append(newRecords, rr)] for each caller record. *)
Definition convertRecords (records : list libdns.RecordT) (zoneName : string)
  : list ResourceRecord :=
  fold_left
    (fun newRecords record =>
       (newRecords ++ [libdnsRecordToResourceRecord record zoneName])%list)
    records [].

(** [func (p *Provider) addRecords(ctx, zoneName string, records []libdns.Record) error] *)
Definition addRecords (zoneName : string) (records : list libdns.RecordT)
  (st : State) : error * State :=
  let '((zoneData, err), st) := getZone zoneName st in
  match err with
  | Some err => (Some ("failed to get zone " ++ zoneName ++ ": " ++ err), st)
  | None =>
      let newRecords := convertRecords records zoneName in
      (* Add new records to existing ones (preserve existing records) *)
      let zoneData :=
        set_ResourceRecords zoneData
          (zone_ResourceRecords zoneData ++ newRecords)%list in
      setZone zoneName zoneData st
  end.

(** A [map[string]bool] read at a key: [false] when absent. *)
Definition lookupBool (m : gmap string bool) (key : string) : bool :=
  default false (m !! key).

(** [fmt.Sprintf("%s:%s", rr.Type, rr.Name)] *)
Definition key2 (ty name : string) : string := ty ++ ":" ++ name.

(** [fmt.Sprintf("%s:%s:%s", rr.Type, rr.Name, rr.Value)] *)
Definition key3 (ty name value : string) : string :=
  ty ++ ":" ++ name ++ ":" ++ value.

(** The set of type/name combinations to replace. *)
Definition recordsToReplace (newRecords : list ResourceRecord) (zoneName : string)
  : gmap string bool :=
  fold_left
    (fun m rr =>
       (* Use full domain name *)
       let key := key2 (rr_Type rr) (rr_Name rr) in
       let m := <[key := true]> m in
       (* Also use subdomain name (without zone suffix) *)
       let shortName := strings.TrimSuffix (rr_Name rr) ("." ++ zoneName) in
       let shortKey := key2 (rr_Type rr) shortName in
       <[shortKey := true]> m)
    newRecords ∅.

(** [func (p *Provider) setRecords(ctx, zoneName string, records []libdns.Record) error] *)
Definition setRecords (zoneName : string) (records : list libdns.RecordT)
  (st : State) : error * State :=
  let '((zoneData, err), st) := getZone zoneName st in
  match err with
  | Some err => (Some ("failed to get zone " ++ zoneName ++ ": " ++ err), st)
  | None =>
      let newRecords := convertRecords records zoneName in
      let toReplace := recordsToReplace newRecords zoneName in
      (* Filter out existing records that match the type/name of records we want to set *)
      let preservedRecords :=
        fold_left
          (fun preserved rr =>
             let key := key2 (rr_Type rr) (rr_Name rr) in
             if negb (lookupBool toReplace key) then (preserved ++ [rr])%list
             else preserved)
          (zone_ResourceRecords zoneData) [] in
      (* Combine preserved records with new records *)
      let zoneData := set_ResourceRecords zoneData (preservedRecords ++ newRecords)%list in
      setZone zoneName zoneData st
  end.

(** The two loops of [deleteRecords] that fill [recordsToDelete]. *)
Definition recordsToDelete (records : list libdns.RecordT) (zoneName : string)
  : gmap string bool :=
  let m :=
    fold_left
      (fun m record =>
         let rr := libdnsRecordToResourceRecord record zoneName in
         <[key3 (rr_Type rr) (rr_Name rr) (rr_Value rr) := true]> m)
      records ∅ in
  fold_left
    (fun m record =>
       let rr := libdnsRecordToResourceRecord record zoneName in
       let shortName := strings.TrimSuffix (rr_Name rr) ("." ++ zoneName) in
       <[key3 (rr_Type rr) shortName (rr_Value rr) := true]> m)
    records m.

(** [func (p *Provider) deleteRecords(ctx, zoneName string, records []libdns.Record) error] *)
Definition deleteRecords (zoneName : string) (records : list libdns.RecordT)
  (st : State) : error * State :=
  let '((zoneData, err), st) := getZone zoneName st in
  match err with
  | Some err => (Some ("failed to get zone " ++ zoneName ++ ": " ++ err), st)
  | None =>
      let toDelete := recordsToDelete records zoneName in
      (* Filter out records to delete *)
      let remainingRecords :=
        fold_left
          (fun remaining rr =>
             let key := key3 (rr_Type rr) (rr_Name rr) (rr_Value rr) in
             if negb (lookupBool toDelete key) then (remaining ++ [rr])%list
             else remaining)
          (zone_ResourceRecords zoneData) [] in
      let zoneData := set_ResourceRecords zoneData remainingRecords in
      setZone zoneName zoneData st
  end.

(** ** provider.go: the four operations *)

(** The loop of [GetRecords]: [records] holds the records decoded so
    far; the first row that fails ends the call with [nil] and the
    wrapped error. *)
Fixpoint convertRows (rows : list ResourceRecord) (zone : string)
  (records : list libdns.RecordT) : list libdns.RecordT * error :=
  match rows with
  | [] => (records, None)
  | rr :: rows =>
      match libdnsRecord rr zone with
      | (_, Some err) =>
          ([], Some ("failed to convert resource record " ++ rr_Name rr
                     ++ ": " ++ err))
      | (record, None) => convertRows rows zone (records ++ [record])%list
      end
  end.

Definition withProvider (st : State) (p : Provider) : State :=
  {| prov := p; net := net st |}.

(** [func (p *Provider) GetRecords(ctx, zone string) ([]libdns.Record, error)] *)
Definition GetRecords (zone : string) (st : State)
  : (list libdns.RecordT * error) * State :=
  let '(err, p) := ensureInitialized (prov st) in
  let st := withProvider st p in
  match err with
  | Some err => (([], Some err), st)
  | None =>
      if String.eqb zone EmptyString then
        (([], Some "zone name is required"), st)
      else
        let '((zoneData, err), st) := getZone zone st in
        match err with
        | Some err =>
            (([], Some ("failed to get zone " ++ zone ++ ": " ++ err)), st)
        | None => (convertRows (zone_ResourceRecords zoneData) zone [], st)
        end
  end.

(** [func (p *Provider) AppendRecords(ctx, zone string, records []libdns.Record) ([]libdns.Record, error)] *)
Definition AppendRecords (zone : string) (records : list libdns.RecordT) (st : State)
  : (list libdns.RecordT * error) * State :=
  let '(err, p) := ensureInitialized (prov st) in
  let st := withProvider st p in
  match err with
  | Some err => (([], Some err), st)
  | None =>
      if String.eqb zone EmptyString then
        (([], Some "zone name is required"), st)
      else if (length records =? 0)%nat then
        (([], Some "at least one record is required"), st)
      else
        let '(err, st) := addRecords zone records st in
        match err with
        | Some err =>
            (([], Some ("failed to add records to zone " ++ zone ++ ": " ++ err)), st)
        | None => ((records, None), st)
        end
  end.

(** [func (p *Provider) SetRecords(ctx, zone string, records []libdns.Record) ([]libdns.Record, error)] *)
Definition SetRecords (zone : string) (records : list libdns.RecordT) (st : State)
  : (list libdns.RecordT * error) * State :=
  let '(err, p) := ensureInitialized (prov st) in
  let st := withProvider st p in
  match err with
  | Some err => (([], Some err), st)
  | None =>
      if String.eqb zone EmptyString then
        (([], Some "zone name is required"), st)
      else if (length records =? 0)%nat then
        (([], Some "at least one record is required"), st)
      else
        let '(err, st) := setRecords zone records st in
        match err with
        | Some err =>
            (([], Some ("failed to set records in zone " ++ zone ++ ": " ++ err)), st)
        | None => ((records, None), st)
        end
  end.

(** [func (p *Provider) DeleteRecords(ctx, zone string, records []libdns.Record) ([]libdns.Record, error)] *)
Definition DeleteRecords (zone : string) (records : list libdns.RecordT) (st : State)
  : (list libdns.RecordT * error) * State :=
  let '(err, p) := ensureInitialized (prov st) in
  let st := withProvider st p in
  match err with
  | Some err => (([], Some err), st)
  | None =>
      if String.eqb zone EmptyString then
        (([], Some "zone name is required"), st)
      else if (length records =? 0)%nat then
        (([], Some "at least one record is required"), st)
      else
        let '(err, st) := deleteRecords zone records st in
        match err with
        | Some err =>
            (([], Some ("failed to delete records from zone " ++ zone ++ ": " ++ err)), st)
        | None => ((records, None), st)
        end
  end.

End Client.

(** ** Reading the outcome of an operation *)

(** The documents written: the bodies of the [PUT] requests, in order. *)
Definition writes (reqs : list Request) : list Zone :=
  omap (fun req => if String.eqb (req_Method req) "PUT" then req_Body req else None)
       reqs.

(** The errors raised by validation, before anything else is done. *)
Definition ValidationError (msg : string) : Prop :=
  In msg ["username is required"; "password is required";
          "zone name is required"; "at least one record is required"].

(** ** The keys of Set and Delete, as pairs and triples *)

(** The second name [setRecords] and [deleteRecords] register for an
    encoded name: the name less the suffix [.zoneName]. A name that is
    [zoneName] itself has no such suffix and is left as it is. *)
Definition shortName (name zoneName : string) : string :=
  strings.TrimSuffix name ("." ++ zoneName).

(** Set: the (Type, Name) pair of the row is that of some new row,
    under its name or under its [shortName]. *)
Definition replacedBy (zoneName : string) (newRecords : list ResourceRecord)
  (rr : ResourceRecord) : bool :=
  existsb
    (fun new =>
       String.eqb (rr_Type rr) (rr_Type new)
       && (String.eqb (rr_Name rr) (rr_Name new)
           || String.eqb (rr_Name rr) (shortName (rr_Name new) zoneName)))
    newRecords.

(** Delete: the (Type, Name, Value) triple of the row is that of some
    caller row, under its name or under its [shortName]. *)
Definition deletedBy (zoneName : string) (callerRows : list ResourceRecord)
  (rr : ResourceRecord) : bool :=
  existsb
    (fun del =>
       String.eqb (rr_Type rr) (rr_Type del)
       && (String.eqb (rr_Name rr) (rr_Name del)
           || String.eqb (rr_Name rr) (shortName (rr_Name del) zoneName))
       && String.eqb (rr_Value rr) (rr_Value del))
    callerRows.

(** No byte of [s] is the separator of the keys, [":"]. *)
Fixpoint noColon (s : string) : bool :=
  match s with
  | EmptyString => true
  | String c t => negb (Ascii.eqb c ":") && noColon t
  end.

(** ** A concrete setting for the examples

    One library and one remote service to run the operations on: the
    two name functions after libdns 1.x, stand-ins for the parsers, and
    a service that keeps one document per URL and answers a read with the
    last document written. *)

Module Sample.

(** [libdns.AbsoluteName]: a name that ends in a dot is taken as
    absolute already. *)
Definition AbsoluteName (name zone : string) : string :=
  if String.eqb zone EmptyString then strings.Trim1 name "."
  else if String.eqb name EmptyString || String.eqb name "@" then zone
  else if strings.HasSuffix name "." then name
  else name ++ "." ++ zone.

(** [libdns.RelativeName]: [@] when the name is the zone and neither
    is empty. *)
Definition RelativeName (fqdn zone : string) : string :=
  let rel :=
    strings.TrimSuffix
      (strings.TrimSuffix (strings.TrimSuffix fqdn ".")
                          (strings.TrimSuffix zone "."))
      "." in
  if String.eqb rel EmptyString && negb (String.eqb fqdn EmptyString)
     && negb (String.eqb zone EmptyString)
  then "@" else rel.

(** Enough of [strconv.Quote] for text without quotes, backslashes
    and control bytes. *)
Definition Quote (s : string) : string := dquote ++ s ++ dquote.

(** One field of a dotted quad: one to three digits, no leading zero,
    at most 255. *)
Definition octet (s : string) : option Z :=
  match s with
  | EmptyString => None
  | String c t =>
      if (3 <? String.length s)%nat then None
      else if Ascii.eqb c "0" && negb (String.eqb t EmptyString) then None
      else match strconv.digits s 0 with
           | Some v => if v <=? 255 then Some v else None
           | None => None
           end
  end.

(** A stand-in for [netip.ParseAddr] that reads dotted quads only.
    The examples parse no other text; every other text, an IPv6 address
    included, is answered with one error. *)
Definition ParseAddr (s : string) : netip.Addr * error :=
  match map octet (strings.SplitN s "." 5) with
  | [Some a; Some b; Some c; Some d] => (netip.Addr4 a b c d, None)
  | _ => (netip.AddrZero, Some ("ParseAddr(" ++ Quote s ++ "): unable to parse IP"))
  end.

(** A stand-in for [RR.Parse] that keeps every row as a plain [RR], as
    libdns does for the types it has no struct for. The examples give it
    no HTTPS or SVCB row, which libdns reads as a [ServiceBinding]. *)
Definition RR_Parse (name : string) (ttl : Z) (ty data : string)
  : libdns.RecordT * error :=
  (libdns.RR name ttl ty data, None).

Definition library : Library :=
  Build_Library AbsoluteName RelativeName RR_Parse ParseAddr Quote.

(** The document the service holds for [url] after the requests
    [history]: the body of the last write to [url], else [initial]. *)
Fixpoint stored (history : list Request) (url : string) (initial : option Zone)
  : option Zone :=
  match history with
  | [] => initial
  | req :: rest =>
      stored rest url
        (if String.eqb (req_Method req) "PUT" && String.eqb (req_URL req) url
         then req_Body req else initial)
  end.

(** A service holding [initial] under [url]. Writes are accepted
    unless [rejectWrites]; a read of a URL without document fails. *)
Definition service (url : string) (initial : Zone) (rejectWrites : bool)
  : Transport := {|
  NewRequestWithContext := fun _ _ _ => None;
  roundTrip := fun history _ req =>
    if String.eqb (req_Method req) "PUT" then
      if rejectWrites then ([], Some "HTTP 400: E0205 - Zone could not be updated")
      else ([], None)
    else
      match stored history (req_URL req)
              (if String.eqb (req_URL req) url then Some initial else None) with
      | Some zone => ([zone], None)
      | None => ([], Some "HTTP 404: E0205 - Zone does not exist")
      end
|}.

Definition row (name ty value : string) : ResourceRecord := {|
  rr_Name := name; rr_TTL := 300; rr_Type := ty; rr_Value := value;
  rr_Pref := 0; rr_Raw := EmptyString
|}.

(** The zone [example.com] holding [rows]. *)
Definition exampleZone (rows : list ResourceRecord) : Zone := {|
  zone_Created := 1702909518; zone_Updated := 1702909518;
  zone_Origin := "example.com"; zone_SOA := None; zone_NameServers := [];
  zone_WWWInclude := false; zone_VirtualNameServer := EmptyString;
  zone_Action := EmptyString; zone_ResourceRecords := rows; zone_ROID := 7
|}.

Definition exampleURL : string := "https://api.autodns.com/v1/zone/example.com".

(** A provider with credentials, before its first call. *)
Definition fresh : State := {|
  prov := {| p_Username := "user"; p_Password := "secret";
             p_Context := EmptyString; p_Endpoint := EmptyString;
             p_zones := ∅; p_initialized := false |};
  net := []
|}.

(** A provider without credentials. *)
Definition anonymous : State := {|
  prov := {| p_Username := EmptyString; p_Password := EmptyString;
             p_Context := EmptyString; p_Endpoint := EmptyString;
             p_zones := ∅; p_initialized := false |};
  net := []
|}.

(** [fresh] after initialisation. *)
Definition ready : Provider := {|
  p_Username := "user"; p_Password := "secret";
  p_Context := defaultContext; p_Endpoint := defaultEndpoint;
  p_zones := ∅; p_initialized := true
|}.

(** An initialised provider whose cache holds [zone] for [example.com]. *)
Definition cached (zone : Zone) : State := {|
  prov := {| p_Username := "user"; p_Password := "secret";
             p_Context := defaultContext; p_Endpoint := defaultEndpoint;
             p_zones := {["example.com" := zone]}; p_initialized := true |};
  net := []
|}.

End Sample.

(** ** Vocabulary of the statements *)

Section Vocabulary.
Context {lib : Library} {tr : Transport}.

Definition encode (zone : string) (records : list libdns.RecordT)
  : list ResourceRecord :=
  map (fun r => libdnsRecordToResourceRecord r zone) records.

Definition putRequest (st : State) (zoneName : string) (zoneData : Zone) : Request :=
  {| req_Method := "PUT";
     req_URL := p_Endpoint (prov st) ++ "/zone/" ++ zoneName;
     req_Body := Some (cleanZone zoneData) |}.

(** The transport lets the write to [zoneName] be built. *)
Definition canPut (st : State) (zoneName : string) : Prop :=
  forall body,
    NewRequestWithContext "PUT" (p_Endpoint (prov st) ++ "/zone/" ++ zoneName) body
    = None.

(** The shape shared by [addRecords], [setRecords] and
    [deleteRecords]: fetch, compute the new document, write. *)
Definition fetchThenWrite (change : string -> list libdns.RecordT -> Zone -> Zone)
  (zoneName : string) (records : list libdns.RecordT) (st : State)
  : error * State :=
  match getZone zoneName st with
  | ((_, Some err), st) =>
      (Some ("failed to get zone " ++ zoneName ++ ": " ++ err), st)
  | ((zoneData, None), st) => setZone zoneName (change zoneName records zoneData) st
  end.

Definition isFetchThenWrite
  (core : string -> list libdns.RecordT -> State -> error * State) : Prop :=
  exists change, forall zoneName records st,
    core zoneName records st = fetchThenWrite change zoneName records st.

(** The text [AppendRecords], [SetRecords] and [DeleteRecords] have in
    common: [core] is [addRecords], [setRecords] or [deleteRecords] and
    [what] the head of the wrapping error. *)
Definition mutating (core : string -> list libdns.RecordT -> State -> error * State)
  (what : string) (zone : string) (records : list libdns.RecordT) (st : State)
  : (list libdns.RecordT * error) * State :=
  let '(err, p) := ensureInitialized (prov st) in
  let st := withProvider st p in
  match err with
  | Some err => (([], Some err), st)
  | None =>
      if String.eqb zone EmptyString then
        (([], Some "zone name is required"), st)
      else if (length records =? 0)%nat then
        (([], Some "at least one record is required"), st)
      else
        let '(err, st) := core zone records st in
        match err with
        | Some err => (([], Some (what ++ zone ++ ": " ++ err)), st)
        | None => ((records, None), st)
        end
  end.

(** The three mutating operations, each with the text of its error. *)
Definition mutatingOperations
  : list (string * (string -> list libdns.RecordT -> State
                    -> (list libdns.RecordT * error) * State)) :=
  [("failed to add records to zone ", AppendRecords);
   ("failed to set records in zone ", SetRecords);
   ("failed to delete records from zone ", DeleteRecords)].

(** The error an unusable provider answers with, else [msg]. *)
Definition expectedError (st : State) (msg : string) : string :=
  match fst (ensureInitialized (prov st)) with
  | Some err => err
  | None => msg
  end.

End Vocabulary.

(** An operation refused by validation: nothing is returned but the
    error [msg], no request was handed to the transport and the cache is
    as before. *)
Definition rejects (out : (list libdns.RecordT * error) * State) (st : State)
  (msg : string) : Prop :=
  fst out = ([], Some msg)
  /\ ValidationError msg
  /\ net (snd out) = net st
  /\ p_zones (prov (snd out)) = p_zones (prov st).

(** ** client.go: inside [sendAPIRequest]

    The body of [sendAPIRequest], with the HTTP client and the JSON
    decoder as parameters. The transport it defines is an instance of
    the one above. *)

(** The headers [sendAPIRequest] sets. *)
Record Header := {
  h_Authorization : string;
  h_DomainrobotContext : string;
  h_ContentType : string;
  h_UserAgent : string
}.

(** What [client.Do] and [io.ReadAll] give: the status code, the body
    and the error of reading it. *)
Record Response := {
  resp_StatusCode : Z;
  resp_Body : string;
  resp_ReadError : error
}.

Record ResponseStatus := {
  status_Code : string;
  status_Text : string;
  status_Type : string
}.

(** [JsonResponse]; [json_Data] is the raw JSON of the data. *)
Record JsonResponse := {
  json_Status : ResponseStatus;
  json_STID : string;
  json_Data : string
}.

(** [JsonResponse{}] *)
Definition JsonResponse_zero : JsonResponse := {|
  json_Status := {| status_Code := EmptyString; status_Text := EmptyString;
                    status_Type := EmptyString |};
  json_STID := EmptyString;
  json_Data := EmptyString
|}.

Class HTTPClient := {
  (** [base64.StdEncoding.EncodeToString] *)
  EncodeToString : string -> string;
  (** [http.NewRequestWithContext]: its error *)
  newRequest : string -> string -> option Zone -> error;
  (** [client.Do(req)] after the requests sent so far *)
  Do : list Request -> Header -> Request -> Response * error;
  (** [json.Unmarshal(body, &respData)] *)
  unmarshalJsonResponse : string -> JsonResponse * error;
  (** [json.Unmarshal(raw, &zones)] *)
  unmarshalZones : string -> list Zone * error
}.

Section Exchange.
Context {http : HTTPClient}.

(** The header a fresh request gets, with the content type its caller
    set, if any. *)
Definition setHeaders (p : Provider) (contentType : string) : Header := {|
  h_Authorization :=
    "Basic " ++ EncodeToString (p_Username p ++ ":" ++ p_Password p);
  h_DomainrobotContext := p_Context p;
  h_ContentType :=
    if String.eqb contentType EmptyString then "application/json" else contentType;
  h_UserAgent := "libdns-autodns/1.0"
|}.

(** [func (p *Provider) sendAPIRequest(req, data)] on a request without
    headers but the content type given; [wantData] tells whether [data]
    is [&zones] (as in [getZone]) or [nil] (as in [setZone]). The zones
    decoded into [data] are returned beside the response and the error. *)
Definition sendAPIRequestHTTP (p : Provider) (history : list Request)
  (req : Request) (contentType : string) (wantData : bool)
  : JsonResponse * list Zone * error :=
  let header := setHeaders p contentType in
  (* Make the request *)
  match Do history header req with
  | (_, Some err) => (JsonResponse_zero, [], Some ("request failed: " ++ err))
  | (resp, None) =>
      (* Read the response body *)
      match resp_ReadError resp with
      | Some err =>
          (JsonResponse_zero, [], Some ("failed to read response body: " ++ err))
      | None =>
          let body := resp_Body resp in
          (* Try to parse as JsonResponse first *)
          match unmarshalJsonResponse body with
          | (respData, None) =>
              (* Check for HTTP errors *)
              if 400 <=? resp_StatusCode resp then
                (JsonResponse_zero, [],
                 Some ("HTTP " ++ strconv.Itoa (resp_StatusCode resp) ++ ": "
                       ++ status_Code (json_Status respData) ++ " - "
                       ++ status_Text (json_Status respData)))
              (* Check for API errors *)
              else if String.eqb (status_Type (json_Status respData)) "ERROR" then
                (JsonResponse_zero, [],
                 Some ("API error: " ++ status_Code (json_Status respData) ++ " - "
                       ++ status_Text (json_Status respData)))
              (* Decode data if requested *)
              else if (0 <? String.length (json_Data respData))%nat && wantData then
                match unmarshalZones (json_Data respData) with
                | (_, Some err) =>
                    (JsonResponse_zero, [],
                     Some ("failed to decode response data: " ++ err))
                | (zones, None) => (respData, zones, None)
                end
              else (respData, [], None)
          | (_, Some _) =>
              (* If not a JsonResponse, try to parse directly as the expected data type *)
              if wantData then
                match unmarshalZones body with
                | (_, Some err) =>
                    (JsonResponse_zero, [],
                     Some ("failed to decode response as *[]autodns.Zone: " ++ err))
                | (zones, None) => (JsonResponse_zero, zones, None)
                end
              else (JsonResponse_zero, [], None)
          end
      end
  end.

(** The transport this gives: [getZone] sends a request without body
    and content type and asks for the zones, [setZone] sends a body with
    the content type [application/json] and asks for nothing. *)
Definition httpTransport : Transport := {|
  NewRequestWithContext := newRequest;
  roundTrip := fun history credentials req =>
    let '(username, password, context) := credentials in
    let p := {| p_Username := username; p_Password := password;
                p_Context := context; p_Endpoint := EmptyString;
                p_zones := ∅; p_initialized := true |} in
    let '(_, zones, err) :=
      match req_Body req with
      | None => sendAPIRequestHTTP p history req EmptyString true
      | Some _ => sendAPIRequestHTTP p history req "application/json" false
      end in
    (zones, err)
|}.

(** The client answers [req] with [resp], whose body can be read. *)
Definition answered (p : Provider) (history : list Request) (req : Request)
  (resp : Response) : Prop :=
  Do history (setHeaders p "application/json") req = (resp, None)
  /\ resp_ReadError resp = None.

End Exchange.

(** A client for the examples: it answers a read with [getReply] and a
    write with [putReply], and decodes the few bodies the examples use. *)
Module Wire.

Definition alphabet : string :=
  "ABCDEFGHIJKLMNOPQRSTUVWXYZabcdefghijklmnopqrstuvwxyz0123456789+/".

Definition sextet (n : N) : ascii :=
  match String.get (N.to_nat (n mod 64)) alphabet with
  | Some c => c
  | None => "="%char
  end.

Fixpoint encodeBytes (bytes : list N) : string :=
  match bytes with
  | [] => EmptyString
  | [a] =>
      let n := (a * 65536)%N in
      String (sextet (n / 262144)) (String (sextet (n / 4096)) "==")
  | [a; b] =>
      let n := (a * 65536 + b * 256)%N in
      String (sextet (n / 262144)) (String (sextet (n / 4096))
        (String (sextet (n / 64)) "="))
  | a :: b :: c :: rest =>
      let n := (a * 65536 + b * 256 + c)%N in
      String (sextet (n / 262144)) (String (sextet (n / 4096))
        (String (sextet (n / 64)) (String (sextet n) (encodeBytes rest))))
  end.

(** [base64.StdEncoding.EncodeToString] *)
Definition base64 (s : string) : string :=
  encodeBytes (map N_of_ascii (list_ascii_of_string s)).

Definition notJSON : string :=
  "invalid character '<' looking for beginning of value".

Definition client (document : Zone) (getReply putReply : Response) : HTTPClient := {|
  EncodeToString := base64;
  newRequest := fun _ _ _ => None;
  Do := fun _ _ req =>
    if String.eqb (req_Method req) "PUT" then (putReply, None)
    else (getReply, None);
  unmarshalJsonResponse := fun body =>
    if String.eqb body "{}" then (JsonResponse_zero, None)
    else if String.eqb body "{data}" then
      ({| json_Status := {| status_Code := "S0205";
                            status_Text := "Zone was inquired successfully";
                            status_Type := "SUCCESS" |};
          json_STID := "20240101-app1-1";
          json_Data := "[zone]" |}, None)
    else if String.eqb body "{error}" then
      ({| json_Status := {| status_Code := "E0205";
                            status_Text := "Zone could not be updated";
                            status_Type := "ERROR" |};
          json_STID := "20240101-app1-2";
          json_Data := EmptyString |}, None)
    else (JsonResponse_zero, Some notJSON);
  unmarshalZones := fun raw =>
    if String.eqb raw "[zone]" then ([document], None)
    else ([], Some "unexpected end of JSON input")
|}.

(** The reply to a read that carries the document. *)
Definition zoneReply : Response :=
  {| resp_StatusCode := 200; resp_Body := "{data}"; resp_ReadError := None |}.

(** The reply to a read that carries no data. *)
Definition emptyReply : Response :=
  {| resp_StatusCode := 200; resp_Body := "{}"; resp_ReadError := None |}.

(** The error page of a gateway. *)
Definition gatewayReply : Response :=
  {| resp_StatusCode := 502; resp_Body := "<html>Bad Gateway</html>";
     resp_ReadError := None |}.

(** The refusal of the service. *)
Definition refusal : Response :=
  {| resp_StatusCode := 400; resp_Body := "{error}"; resp_ReadError := None |}.

End Wire.

(** ** Vocabulary of the further properties *)

Section Further.
Context {lib : Library} {tr : Transport}.

(** The types the encoder writes, one per case of its switch. *)
Definition encodedTypes : list string :=
  ["A"; "CAA"; "CNAME"; "MX"; "NS"; "SRV"; "TXT"; "UNKNOWN"].

(** The test of the filter loop of [setRecords] on an existing row. *)
Definition keptBySet (zoneName : string) (records : list libdns.RecordT)
  (rr : ResourceRecord) : bool :=
  negb (lookupBool (recordsToReplace (convertRecords records zoneName) zoneName)
                   (key2 (rr_Type rr) (rr_Name rr))).

(** The test of the filter loop of [deleteRecords] on an existing row. *)
Definition keptByDelete (zoneName : string) (records : list libdns.RecordT)
  (rr : ResourceRecord) : bool :=
  negb (lookupBool (recordsToDelete records zoneName)
                   (key3 (rr_Type rr) (rr_Name rr) (rr_Value rr))).

(** An operation on [zone] started in [st] gets past initialisation,
    fetches [zoneData], which leaves the state [st1], and can build its
    write. *)
Definition fetched (zone : string) (st : State) (zoneData : Zone) (st1 : State)
  : Prop :=
  exists p0,
    ensureInitialized (prov st) = (None, p0)
    /\ getZone zone (withProvider st p0) = ((zoneData, None), st1)
    /\ canPut st1 zone.

(** The URL of the zone document. *)
Definition zoneURL (p : Provider) (zoneName : string) : string :=
  p_Endpoint p ++ "/zone/" ++ zoneName.

(** A duration cut to whole seconds, toward zero. *)
Definition wholeSeconds (ttl : Z) : Z := Z.quot ttl Second * Second.

(** No byte of [s] is ASCII white space. *)
Fixpoint noSpace (s : string) : bool :=
  match s with
  | EmptyString => true
  | String c t => negb (strings.asciiSpace c) && noSpace t
  end.

(** A field as [strings.Fields] cuts them: not empty, no white space. *)
Definition isWord (s : string) : bool :=
  negb (String.eqb s EmptyString) && noSpace s.

(** Every byte of [s] is below [utf8.RuneSelf]. *)
Fixpoint isASCII (s : string) : bool :=
  match s with
  | EmptyString => true
  | String c t => (utf8.byte c <? utf8.RuneSelf) && isASCII t
  end.

(** [f] holds of the [n] integers from [z] on. *)
Fixpoint holdsFrom (f : Z -> bool) (n : nat) (z : Z) : bool :=
  match n with
  | O => true
  | S m => f z && holdsFrom f m (z + 1)
  end.

(** No byte of [s] is a dot. *)
Fixpoint noDot (s : string) : bool :=
  match s with
  | EmptyString => true
  | String c t => negb (Ascii.eqb c ".") && noDot t
  end.

(** Everything in a provider but its cache. *)
Definition settings (p : Provider) : string * string * string * string * bool :=
  (p_Username p, p_Password p, p_Context p, p_Endpoint p, p_initialized p).

(** The read of [zoneName] as [getZone] builds it. *)
Definition getRequest (p : Provider) (zoneName : string) : Request :=
  {| req_Method := "GET"; req_URL := zoneURL p zoneName; req_Body := None |}.

End Further.

(** * Properties *)

(** ** The library models on the inputs of the codec *)

Example Fields_of_an_SRV_value :
  strings.Fields " 10  5060 sip.example.com " = ["10"; "5060"; "sip.example.com"].
Proof. reflexivity. Qed.

(** Text with a byte from 128 on is cut at Unicode white space: at
    U+00A0 (bytes 194 160) and U+3000 (bytes 227 128 128), not at the
    byte 160 alone, which encodes no rune. *)
Example Fields_of_text_that_is_not_ASCII :
  let bytes := fold_right (fun n s => String (ascii_of_nat n) s) EmptyString in
  strings.Fields ("a" ++ bytes [194; 160]%nat ++ "b") = ["a"; "b"]
  /\ strings.Fields ("a" ++ bytes [227; 128; 128]%nat ++ "b c") = ["a"; "b"; "c"]
  /\ strings.Fields ("a" ++ bytes [195; 169]%nat ++ " b")
     = ["a" ++ bytes [195; 169]%nat; "b"]
  /\ strings.Fields ("a" ++ bytes [160]%nat ++ "b  c")
     = ["a" ++ bytes [160]%nat ++ "b"; "c"].
Proof. repeat split; reflexivity. Qed.

Example Runes_of_a_string :
  let bytes := fold_right (fun n s => String (ascii_of_nat n) s) EmptyString in
  utf8.DecodeRuneInString "a" = (97, 1%nat)
  /\ utf8.DecodeRuneInString (bytes [194; 160]%nat) = (160, 2%nat)
  /\ utf8.DecodeRuneInString (bytes [226; 130; 172]%nat) = (8364, 3%nat)
  /\ utf8.DecodeRuneInString (bytes [240; 159; 152; 128]%nat) = (128512, 4%nat)
  /\ utf8.DecodeRuneInString (bytes [226; 130]%nat) = (utf8.RuneError, 1%nat)
  /\ utf8.DecodeRuneInString (bytes [192; 128]%nat) = (utf8.RuneError, 1%nat)
  /\ utf8.DecodeRuneInString (bytes [237; 160; 128]%nat) = (utf8.RuneError, 1%nat).
Proof. repeat split; reflexivity. Qed.

Example SplitN_of_an_SRV_name :
  strings.SplitN "_sip._tcp.sub.example.com" "." 3
  = ["_sip"; "_tcp"; "sub.example.com"]
  /\ strings.SplitN "_sip._tcp" "." 3 = ["_sip"; "_tcp"]
  /\ strings.SplitN "_sip" "." 3 = ["_sip"].
Proof. repeat split; reflexivity. Qed.

Example TrimSuffix_of_a_name :
  strings.TrimSuffix "test.example.com" ".example.com" = "test"
  /\ strings.TrimSuffix "example.com" ".example.com" = "example.com"
  /\ strings.TrimPrefix "_sip" "_" = "sip".
Proof. repeat split; reflexivity. Qed.

Example ParseUint_of_a_port :
  strconv.ParseUint10 "5060" 16 = inl 5060
  /\ strconv.ParseUint10 "65536" 16 = inr strconv.ErrRange
  /\ strconv.ParseUint10 "+1" 16 = inr strconv.ErrSyntax
  /\ strconv.ParseUint10 EmptyString 16 = inr strconv.ErrSyntax
  /\ strconv.ParseUint10 "25a" 8 = inr strconv.ErrSyntax
  /\ strconv.ParseUint10 "999a" 8 = inr strconv.ErrRange
  /\ strconv.ParseUint10 "18446744073709551615" 64 = inl 18446744073709551615
  /\ strconv.ParseUint10 "18446744073709551616" 64 = inr strconv.ErrRange
  /\ strconv.ParseUint10 "184467440737095516150" 64 = inr strconv.ErrRange.
Proof. repeat split; reflexivity. Qed.

Example String_of_an_address :
  netip.String (netip.Addr4 192 168 1 100) = "192.168.1.100"
  /\ netip.String (netip.Addr6 0 0 0 0 0 0 0 1 EmptyString) = "::1"
  /\ netip.String (netip.Addr6 8193 3512 0 0 0 0 0 1 "eth0") = "2001:db8::1%eth0"
  /\ netip.String (netip.Addr6 1 0 0 2 0 0 0 3 EmptyString) = "1:0:0:2::3"
  /\ netip.String (netip.Addr6 0 0 0 0 0 65535 49320 356 EmptyString)
     = "::ffff:192.168.1.100".
Proof. repeat split; reflexivity. Qed.

(** ** The loops, as list functions *)

Section Loops.
Context {lib : Library}.

Lemma convertRecords_from (records : list libdns.RecordT) zoneName acc :
  fold_left
    (fun newRecords record =>
       (newRecords ++ [libdnsRecordToResourceRecord record zoneName])%list)
    records acc
  = (acc ++ map (fun r => libdnsRecordToResourceRecord r zoneName) records)%list.
Proof.
  revert acc. induction records as [|r rs IH]; intros acc; simpl.
  - by rewrite app_nil_r.
  - rewrite IH. by rewrite <- app_assoc.
Qed.

Lemma convertRecords_map records zoneName :
  convertRecords records zoneName
  = map (fun r => libdnsRecordToResourceRecord r zoneName) records.
Proof. unfold convertRecords. by rewrite convertRecords_from. Qed.

Lemma keep_loop {A} (keep : A -> bool) (l acc : list A) :
  fold_left (fun kept x => if keep x then (kept ++ [x])%list else kept) l acc
  = (acc ++ List.filter keep l)%list.
Proof.
  revert acc. induction l as [|x l IH]; intros acc; simpl.
  - by rewrite app_nil_r.
  - rewrite IH. destruct (keep x); [|done]. by rewrite <- app_assoc.
Qed.

Lemma lookupBool_insert (m : gmap string bool) k k' :
  lookupBool (<[k := true]> m) k' = String.eqb k' k || lookupBool m k'.
Proof.
  unfold lookupBool. destruct (String.eqb_spec k' k) as [->|Hne].
  - by rewrite lookup_insert_eq.
  - rewrite lookup_insert_ne; [done|congruence].
Qed.

Lemma recordsToReplace_from newRecords zoneName (m : gmap string bool) k :
  lookupBool
    (fold_left
       (fun m rr =>
          let key := key2 (rr_Type rr) (rr_Name rr) in
          let m := <[key := true]> m in
          let shortName := strings.TrimSuffix (rr_Name rr) ("." ++ zoneName) in
          let shortKey := key2 (rr_Type rr) shortName in
          <[shortKey := true]> m)
       newRecords m) k
  = lookupBool m k
    || existsb
         (fun new =>
            String.eqb k (key2 (rr_Type new) (rr_Name new))
            || String.eqb k (key2 (rr_Type new) (shortName (rr_Name new) zoneName)))
         newRecords.
Proof.
  revert m. induction newRecords as [|new rest IH]; intros m; simpl.
  - by rewrite orb_false_r.
  - rewrite IH, !lookupBool_insert. unfold shortName.
    repeat match goal with |- context [String.eqb ?a ?b] =>
      destruct (String.eqb a b) end;
    destruct (lookupBool m k); simpl; try reflexivity.
Qed.

Lemma recordsToReplace_lookup newRecords zoneName k :
  lookupBool (recordsToReplace newRecords zoneName) k
  = existsb
      (fun new =>
         String.eqb k (key2 (rr_Type new) (rr_Name new))
         || String.eqb k (key2 (rr_Type new) (shortName (rr_Name new) zoneName)))
      newRecords.
Proof. unfold recordsToReplace. by rewrite recordsToReplace_from. Qed.

Lemma recordsToDelete_first records zoneName (m : gmap string bool) k :
  lookupBool
    (fold_left
       (fun m record =>
          let rr := libdnsRecordToResourceRecord record zoneName in
          <[key3 (rr_Type rr) (rr_Name rr) (rr_Value rr) := true]> m)
       records m) k
  = lookupBool m k
    || existsb
         (fun record =>
            let rr := libdnsRecordToResourceRecord record zoneName in
            String.eqb k (key3 (rr_Type rr) (rr_Name rr) (rr_Value rr)))
         records.
Proof.
  revert m. induction records as [|r rest IH]; intros m; simpl.
  - by rewrite orb_false_r.
  - rewrite IH, lookupBool_insert.
    destruct (String.eqb _ _), (lookupBool m k); reflexivity.
Qed.

Lemma recordsToDelete_second records zoneName (m : gmap string bool) k :
  lookupBool
    (fold_left
       (fun m record =>
          let rr := libdnsRecordToResourceRecord record zoneName in
          let shortName := strings.TrimSuffix (rr_Name rr) ("." ++ zoneName) in
          <[key3 (rr_Type rr) shortName (rr_Value rr) := true]> m)
       records m) k
  = lookupBool m k
    || existsb
         (fun record =>
            let rr := libdnsRecordToResourceRecord record zoneName in
            String.eqb k (key3 (rr_Type rr) (shortName (rr_Name rr) zoneName)
                               (rr_Value rr)))
         records.
Proof.
  revert m. induction records as [|r rest IH]; intros m; simpl.
  - by rewrite orb_false_r.
  - rewrite IH, lookupBool_insert. unfold shortName.
    destruct (String.eqb _ _), (lookupBool m k); reflexivity.
Qed.

Lemma recordsToDelete_lookup records zoneName k :
  lookupBool (recordsToDelete records zoneName) k
  = existsb
      (fun record =>
         let rr := libdnsRecordToResourceRecord record zoneName in
         String.eqb k (key3 (rr_Type rr) (rr_Name rr) (rr_Value rr))
         || String.eqb k (key3 (rr_Type rr) (shortName (rr_Name rr) zoneName)
                               (rr_Value rr)))
      records.
Proof.
  unfold recordsToDelete.
  rewrite recordsToDelete_second, recordsToDelete_first.
  unfold lookupBool at 1. rewrite lookup_empty. simpl.
  induction records as [|r rest IH]; simpl; [done|].
  rewrite <- IH.
  repeat match goal with |- context [String.eqb ?a ?b] =>
    destruct (String.eqb a b) end; simpl; rewrite ?orb_true_r; try reflexivity.
  all: by destruct (existsb _ rest).
Qed.

End Loops.

(** ** Keys and the pairs they stand for *)

Lemma key2_inj t n t' n' :
  noColon t = true -> noColon t' = true ->
  key2 t n = key2 t' n' -> t = t' /\ n = n'.
Proof.
  unfold key2. revert t'.
  induction t as [|c t IH]; intros [|c' t'] Ht Ht' Heq; simpl in *.
  - by inversion Heq.
  - inversion Heq; subst. done.
  - inversion Heq; subst. done.
  - inversion Heq as [[Hc Heq']]. subst c'.
    apply andb_true_iff in Ht as [_ Ht]. apply andb_true_iff in Ht' as [_ Ht'].
    destruct (IH t' Ht Ht' Heq') as [-> ->]. done.
Qed.

Lemma key2_eqb t n t' n' :
  noColon t = true -> noColon t' = true ->
  String.eqb (key2 t n) (key2 t' n') = String.eqb t t' && String.eqb n n'.
Proof.
  intros Ht Ht'.
  destruct (String.eqb_spec (key2 t n) (key2 t' n')) as [Heq|Hne].
  - destruct (key2_inj _ _ _ _ Ht Ht' Heq) as [-> ->].
    by rewrite !String.eqb_refl.
  - destruct (String.eqb_spec t t') as [->|]; [|done].
    destruct (String.eqb_spec n n') as [->|]; done.
Qed.

Lemma key3_eqb t n v t' n' v' :
  noColon t = true -> noColon t' = true ->
  noColon n = true -> noColon n' = true ->
  String.eqb (key3 t n v) (key3 t' n' v')
  = String.eqb t t' && String.eqb n n' && String.eqb v v'.
Proof.
  intros Ht Ht' Hn Hn'.
  change (key3 t n v) with (key2 t (key2 n v)).
  change (key3 t' n' v') with (key2 t' (key2 n' v')).
  rewrite key2_eqb, key2_eqb by done. by rewrite andb_assoc.
Qed.

Lemma noColon_substring s k :
  noColon s = true -> noColon (String.substring 0 k s) = true.
Proof.
  revert k. induction s as [|c s IH]; intros [|k] Hs; simpl in *; try done.
  apply andb_true_iff in Hs as [Hc Hs]. rewrite Hc. simpl. by apply IH.
Qed.

Lemma noColon_shortName name zoneName :
  noColon name = true -> noColon (shortName name zoneName) = true.
Proof.
  intros Hn. unfold shortName, strings.TrimSuffix, strings.slice.
  destruct (strings.HasSuffix _ _); [|done]. by apply noColon_substring.
Qed.

Lemma existsb_ext_in {A} (f g : A -> bool) (l : list A) :
  (forall x, In x l -> f x = g x) -> existsb f l = existsb g l.
Proof.
  induction l as [|x l IH]; intros Hfg; simpl; [done|].
  rewrite (Hfg x) by (by left). rewrite IH; [done|].
  intros y Hy. apply Hfg. by right.
Qed.

Lemma filter_keeps_all {A} (f : A -> bool) (l : list A) :
  (forall x, In x l -> f x = true) -> List.filter f l = l.
Proof.
  induction l as [|x l IH]; intros Hf; simpl; [done|].
  rewrite (Hf x) by (by left). f_equal. apply IH.
  intros y Hy. apply Hf. by right.
Qed.

Lemma existsb_over_map {A B} (f : B -> bool) (g : A -> B) (l : list A) :
  existsb f (map g l) = existsb (fun x => f (g x)) l.
Proof. induction l as [|x l IH]; simpl; [done|]. by rewrite IH. Qed.

Section Matching.
Context {lib : Library}.

(** The encoder only writes the eight types spelled in its cases. *)
Lemma encoded_Type_noColon record zone :
  noColon (rr_Type (libdnsRecordToResourceRecord record zone)) = true.
Proof. destruct record; reflexivity. Qed.

Lemma replace_key_is_pair zoneName newRecords rr :
  Forall (fun new => noColon (rr_Type new) = true) newRecords ->
  noColon (rr_Type rr) = true ->
  lookupBool (recordsToReplace newRecords zoneName)
             (key2 (rr_Type rr) (rr_Name rr))
  = replacedBy zoneName newRecords rr.
Proof.
  intros Hnew Hrr. rewrite recordsToReplace_lookup. unfold replacedBy.
  apply existsb_ext_in. intros new Hin.
  rewrite Forall_forall in Hnew. apply list_elem_of_In in Hin.
  specialize (Hnew new Hin).
  rewrite !key2_eqb by done. by rewrite andb_orb_distrib_r.
Qed.

Lemma delete_key_is_triple zoneName records rr :
  Forall (fun r => noColon (rr_Name (libdnsRecordToResourceRecord r zoneName)) = true)
         records ->
  noColon (rr_Type rr) = true -> noColon (rr_Name rr) = true ->
  lookupBool (recordsToDelete records zoneName)
             (key3 (rr_Type rr) (rr_Name rr) (rr_Value rr))
  = deletedBy zoneName
      (map (fun r => libdnsRecordToResourceRecord r zoneName) records) rr.
Proof.
  intros Hrec Ht Hn. rewrite recordsToDelete_lookup. unfold deletedBy.
  rewrite existsb_over_map. apply existsb_ext_in. intros r Hin.
  rewrite Forall_forall in Hrec. apply list_elem_of_In in Hin.
  specialize (Hrec r Hin). simpl.
  rewrite !key3_eqb by auto using encoded_Type_noColon, noColon_shortName.
  repeat match goal with |- context [String.eqb ?a ?b] =>
    destruct (String.eqb a b) end; reflexivity.
Qed.

End Matching.

(** ** The steps of an operation *)

Section Operations.
Context {lib : Library} {tr : Transport}.

Lemma AppendRecords_mutating zone records st :
  AppendRecords zone records st
  = mutating addRecords "failed to add records to zone " zone records st.
Proof. reflexivity. Qed.

Lemma SetRecords_mutating zone records st :
  SetRecords zone records st
  = mutating setRecords "failed to set records in zone " zone records st.
Proof. reflexivity. Qed.

Lemma DeleteRecords_mutating zone records st :
  DeleteRecords zone records st
  = mutating deleteRecords "failed to delete records from zone " zone records st.
Proof. reflexivity. Qed.

Lemma mutating_run core what zone records st p0 :
  ensureInitialized (prov st) = (None, p0) ->
  zone <> EmptyString -> records <> [] ->
  mutating core what zone records st
  = (match fst (core zone records (withProvider st p0)) with
     | Some err => ([], Some (what ++ zone ++ ": " ++ err))
     | None => (records, None)
     end, snd (core zone records (withProvider st p0))).
Proof.
  intros Hinit Hzone Hrecords. unfold mutating. rewrite Hinit.
  destruct (String.eqb_spec zone EmptyString) as [|_]; [done|].
  destruct records as [|r rs]; [done|]. simpl.
  by destruct (core zone (r :: rs) (withProvider st p0)) as [[err|] st'].
Qed.

Lemma setZone_net zoneName zoneData st :
  canPut st zoneName ->
  net (snd (setZone zoneName zoneData st))
  = (net st ++ [putRequest st zoneName zoneData])%list.
Proof.
  intros Hput. unfold setZone. rewrite Hput. unfold sendAPIRequest.
  by destruct (roundTrip _ _ _) as [zones [err|]].
Qed.

Lemma addRecords_net zoneName records st zoneData st1 :
  getZone zoneName st = ((zoneData, None), st1) ->
  canPut st1 zoneName ->
  net (snd (addRecords zoneName records st))
  = (net st1
     ++ [putRequest st1 zoneName
           (set_ResourceRecords zoneData
              (zone_ResourceRecords zoneData ++ encode zoneName records))])%list.
Proof.
  intros Hget Hput. unfold addRecords. rewrite Hget.
  by rewrite setZone_net, convertRecords_map.
Qed.

Lemma setRecords_net zoneName records st zoneData st1 :
  getZone zoneName st = ((zoneData, None), st1) ->
  canPut st1 zoneName ->
  Forall (fun rr => noColon (rr_Type rr) = true) (zone_ResourceRecords zoneData) ->
  net (snd (setRecords zoneName records st))
  = (net st1
     ++ [putRequest st1 zoneName
           (set_ResourceRecords zoneData
              (List.filter
                 (fun rr => negb (replacedBy zoneName (encode zoneName records) rr))
                 (zone_ResourceRecords zoneData)
               ++ encode zoneName records))])%list.
Proof.
  intros Hget Hput Hrows. unfold setRecords. rewrite Hget.
  rewrite setZone_net by done.
  rewrite (keep_loop
             (fun rr => negb (lookupBool
                                (recordsToReplace (convertRecords records zoneName) zoneName)
                                (key2 (rr_Type rr) (rr_Name rr))))).
  rewrite convertRecords_map. fold (encode zoneName records).
  rewrite app_nil_l. do 5 f_equal.
  apply filter_ext_in. intros rr Hin. f_equal.
  apply replace_key_is_pair.
  - apply Forall_forall. intros new Hnew.
    apply list_elem_of_In, in_map_iff in Hnew as (r & <- & _).
    apply encoded_Type_noColon.
  - rewrite Forall_forall in Hrows. by apply Hrows, list_elem_of_In.
Qed.

Lemma deleteRecords_net zoneName records st zoneData st1 :
  getZone zoneName st = ((zoneData, None), st1) ->
  canPut st1 zoneName ->
  Forall (fun rr => noColon (rr_Type rr) = true /\ noColon (rr_Name rr) = true)
         (zone_ResourceRecords zoneData) ->
  Forall (fun new => noColon (rr_Name new) = true) (encode zoneName records) ->
  net (snd (deleteRecords zoneName records st))
  = (net st1
     ++ [putRequest st1 zoneName
           (set_ResourceRecords zoneData
              (List.filter
                 (fun rr => negb (deletedBy zoneName (encode zoneName records) rr))
                 (zone_ResourceRecords zoneData)))])%list.
Proof.
  intros Hget Hput Hrows Hnew. unfold deleteRecords. rewrite Hget.
  rewrite setZone_net by done.
  rewrite (keep_loop
             (fun rr => negb (lookupBool (recordsToDelete records zoneName)
                                (key3 (rr_Type rr) (rr_Name rr) (rr_Value rr))))).
  rewrite app_nil_l. do 4 f_equal.
  apply filter_ext_in. intros rr Hin. f_equal.
  rewrite Forall_forall in Hrows.
  destruct (Hrows rr) as [Ht Hn]; [by apply list_elem_of_In|].
  apply delete_key_is_triple; [|done..].
  apply Forall_forall. intros r Hr. rewrite Forall_forall in Hnew.
  apply Hnew, list_elem_of_In.
  apply (in_map (fun r => libdnsRecordToResourceRecord r zoneName)).
  by apply list_elem_of_In.
Qed.

End Operations.

(** ** Append, Set, Delete: the document written back *)

(** C3. AppendRecords writes back one document whose rows are the
    existing rows, unchanged and in their original order, followed by the
    encoded caller rows in the order the caller gave them. Nothing is
    de-duplicated: the document written holds as many rows as there were
    rows plus caller records. *)
Theorem AppendRecords_concatenates {lib : Library} {tr : Transport}
    zone records st p0 zoneData st1 :
  ensureInitialized (prov st) = (None, p0) ->
  zone <> EmptyString ->
  records <> [] ->
  getZone zone (withProvider st p0) = ((zoneData, None), st1) ->
  canPut st1 zone ->
  exists written,
    writes (net (snd (AppendRecords zone records st)))
    = (writes (net st1) ++ [written])%list
    /\ zone_ResourceRecords written
       = (zone_ResourceRecords zoneData
          ++ map (fun record => libdnsRecordToResourceRecord record zone) records)%list
    /\ length (zone_ResourceRecords written)
       = (length (zone_ResourceRecords zoneData) + length records)%nat.
Proof.
  intros Hinit Hzone Hrecords Hget Hput.
  exists (cleanZone
            (set_ResourceRecords zoneData
               (zone_ResourceRecords zoneData ++ encode zone records))).
  split; [|split].
  - rewrite AppendRecords_mutating, (mutating_run _ _ _ _ _ p0) by done. simpl.
    rewrite (addRecords_net _ _ _ zoneData st1) by done.
    unfold writes. by rewrite omap_app.
  - reflexivity.
  - simpl. unfold encode. by rewrite length_app, length_map.
Qed.

Lemma AppendRecords_concatenates_witness :
  let tr := Sample.service Sample.exampleURL
              (Sample.exampleZone [Sample.row "test" "TXT" "old"]) false in
  let record := libdns.TXT "test" (60 * Second) "challenge" in
  map zone_ResourceRecords
      (writes (net (snd (AppendRecords (lib := Sample.library) (tr := tr)
                           "example.com" [record; record] Sample.fresh))))
  = [[{| rr_Name := "test"; rr_TTL := 300; rr_Type := "TXT";
         rr_Value := "old"; rr_Pref := 0; rr_Raw := EmptyString |};
      {| rr_Name := "test.example.com"; rr_TTL := 60; rr_Type := "TXT";
         rr_Value := "challenge"; rr_Pref := 0; rr_Raw := EmptyString |};
      {| rr_Name := "test.example.com"; rr_TTL := 60; rr_Type := "TXT";
         rr_Value := "challenge"; rr_Pref := 0; rr_Raw := EmptyString |}]].
Proof.
  intros tr record.
  destruct (AppendRecords_concatenates (lib := Sample.library) (tr := tr)
              "example.com" [record; record] Sample.fresh Sample.ready
              (Sample.exampleZone [Sample.row "test" "TXT" "old"])
              (snd (getZone (tr := tr) "example.com"
                      (withProvider Sample.fresh Sample.ready))))
    as (written & Hwrites & Hrows & _).
  - vm_compute. reflexivity.
  - discriminate.
  - discriminate.
  - vm_compute. reflexivity.
  - intros body. reflexivity.
  - rewrite Hwrites, List.map_app. simpl. rewrite Hrows. vm_compute. reflexivity.
Defined.

(** Appending the same record in two calls: the second call fetches the
    document the first one wrote and writes it back with one more row. *)
Example AppendRecords_twice :
  let tr := Sample.service Sample.exampleURL
              (Sample.exampleZone [Sample.row "test" "TXT" "old"]) false in
  let record := libdns.TXT "test" (60 * Second) "challenge" in
  let encoded := {| rr_Name := "test.example.com"; rr_TTL := 60; rr_Type := "TXT";
                    rr_Value := "challenge"; rr_Pref := 0; rr_Raw := EmptyString |} in
  let once := snd (AppendRecords (lib := Sample.library) (tr := tr)
                     "example.com" [record] Sample.fresh) in
  let twice := snd (AppendRecords (lib := Sample.library) (tr := tr)
                      "example.com" [record] once) in
  map zone_ResourceRecords (writes (net twice))
  = [[Sample.row "test" "TXT" "old"; encoded];
     [Sample.row "test" "TXT" "old"; encoded; encoded]].
Proof. vm_compute. reflexivity. Qed.

(** C1. A TXT record set at the apex of [example.com], named ["@"]. Its
    encoded name is [example.com], whose zone-relative spelling is
    ["@"]; trimming the suffix [.example.com] leaves [example.com], so
    both keys registered are [TXT:example.com]. The row stored under
    ["@"] is not replaced: the document written holds the old row and
    the new one. *)
Theorem SetRecords_keeps_the_apex_row :
  let existing :=
    [{| rr_Name := "@"; rr_TTL := 300; rr_Type := "TXT"; rr_Value := "old";
        rr_Pref := 0; rr_Raw := EmptyString |}] in
  let tr := Sample.service Sample.exampleURL (Sample.exampleZone existing) false in
  let record := libdns.TXT "@" (300 * Second) "new" in
  let new := libdnsRecordToResourceRecord (lib := Sample.library)
               record "example.com" in
  rr_Name new = "example.com"
  /\ Sample.RelativeName (rr_Name new) "example.com" = "@"
  /\ strings.TrimSuffix (rr_Name new) ("." ++ "example.com") = "example.com"
  /\ map zone_ResourceRecords
         (writes (net (snd (SetRecords (lib := Sample.library) (tr := tr)
                              "example.com" [record] Sample.fresh))))
     = [[{| rr_Name := "@"; rr_TTL := 300; rr_Type := "TXT"; rr_Value := "old";
            rr_Pref := 0; rr_Raw := EmptyString |};
         {| rr_Name := "example.com"; rr_TTL := 300; rr_Type := "TXT";
            rr_Value := "new"; rr_Pref := 0; rr_Raw := EmptyString |}]].
Proof. vm_compute. repeat split; reflexivity. Qed.

(** C2. The TXT row stored under ["@"] in [example.com] is read by
    GetRecords as the record named ["@"]. DeleteRecords of that record
    encodes it under the name [example.com] and registers
    [TXT:example.com:v=spf1 -all] twice, the zone-relative spelling ["@"]
    never: the row is written back, not removed. *)
Theorem DeleteRecords_keeps_the_apex_row :
  let existing :=
    [{| rr_Name := "@"; rr_TTL := 300; rr_Type := "TXT";
        rr_Value := "v=spf1 -all"; rr_Pref := 0; rr_Raw := EmptyString |}] in
  let tr := Sample.service Sample.exampleURL (Sample.exampleZone existing) false in
  let record := libdns.TXT "@" (300 * Second) "v=spf1 -all" in
  let new := libdnsRecordToResourceRecord (lib := Sample.library)
               record "example.com" in
  fst (GetRecords (lib := Sample.library) (tr := tr) "example.com" Sample.fresh)
  = ([record], None)
  /\ rr_Name new = "example.com"
  /\ Sample.RelativeName (rr_Name new) "example.com" = "@"
  /\ strings.TrimSuffix (rr_Name new) ("." ++ "example.com") = "example.com"
  /\ fst (DeleteRecords (lib := Sample.library) (tr := tr)
            "example.com" [record] Sample.fresh)
     = ([record], None)
  /\ map zone_ResourceRecords
         (writes (net (snd (DeleteRecords (lib := Sample.library) (tr := tr)
                              "example.com" [record] Sample.fresh))))
     = [[{| rr_Name := "@"; rr_TTL := 300; rr_Type := "TXT";
            rr_Value := "v=spf1 -all"; rr_Pref := 0; rr_Raw := EmptyString |}]].
Proof. vm_compute. repeat split; reflexivity. Qed.

(** ** The codec *)

(** What the Address case writes, for every address: Type ["A"] and the
    text form of the address. *)
Lemma Address_encoding {lib : Library} name ttl ip zone :
  libdnsRecordToResourceRecord (libdns.Address name ttl ip) zone
  = {| rr_Name := AbsoluteName name zone; rr_TTL := Z.quot ttl Second;
       rr_Type := "A"; rr_Value := netip.String ip;
       rr_Pref := 0; rr_Raw := EmptyString |}.
Proof. reflexivity. Qed.

(** C4. The address 2001:db8::1 is an IPv6 address; its record is
    encoded with Type ["A"], not ["AAAA"], and with the canonical text
    of the address as Value: the Type is not taken from the family. *)
Theorem Address_IPv6_encoded_as_A {lib : Library} :
  let ip := netip.Addr6 8193 3512 0 0 0 0 0 1 EmptyString in
  let rr := libdnsRecordToResourceRecord
              (libdns.Address "host" (300 * Second) ip) "example.com" in
  netip.Is6 ip = true
  /\ rr_Type rr = "A"
  /\ rr_Value rr = "2001:db8::1".
Proof. repeat split; reflexivity. Qed.

(** C5. The SRV row named [_sip._tcp.sub.example.com] in zone
    [example.com] decodes to Service [sip] and Transport [tcp], but to
    the Name [sub.example.com], which still carries the zone; the row
    named [_sip._tcp] decodes to the Name [@]. *)
Theorem SRV_decoded_name_keeps_zone {lib : Library} :
  libdnsRecord
    {| rr_Name := "_sip._tcp.sub.example.com"; rr_TTL := 300; rr_Type := "SRV";
       rr_Value := "10 5060 sip.example.com"; rr_Pref := 1; rr_Raw := EmptyString |}
    "example.com"
  = (libdns.SRV "sip" "tcp" "sub.example.com" (300 * Second) 1 10 5060
                "sip.example.com", None)
  /\ libdnsRecord
       {| rr_Name := "_sip._tcp"; rr_TTL := 300; rr_Type := "SRV";
          rr_Value := "10 5060 sip.example.com"; rr_Pref := 1; rr_Raw := EmptyString |}
       "example.com"
     = (libdns.SRV "sip" "tcp" "@" (300 * Second) 1 10 5060
                   "sip.example.com", None).
Proof. split; reflexivity. Qed.

(** The row the encoder writes for an SRV record does not decode to the
    record it came from: the name comes back with the zone. *)
Example SRV_round_trip :
  libdnsRecord (lib := Sample.library)
    (libdnsRecordToResourceRecord (lib := Sample.library)
       (libdns.SRV "sip" "tcp" "sub" (300 * Second) 1 10 5060 "sip.example.com")
       "example.com")
    "example.com"
  = (libdns.SRV "sip" "tcp" "sub.example.com" (300 * Second) 1 10 5060
                "sip.example.com", None).
Proof. reflexivity. Qed.

(** The cases that name their type in the decoder, SRV apart, give the
    record the name [libdns.RelativeName] computes. *)
Lemma decoded_name_is_relative {lib : Library} r zone record :
  In (rr_Type r) ["A"; "AAAA"; "CAA"; "CNAME"; "MX"; "NS"; "TXT"] ->
  libdnsRecord r zone = (record, None) ->
  libdns.Name record = RelativeName (rr_Name r) zone.
Proof.
  intros Hty. unfold libdnsRecord.
  repeat destruct Hty as [<- | Hty]; try destruct Hty; simpl;
    repeat case_match; by intros [= <-].
Qed.

(** The other types take their name from [libdns.RelativeName]. *)
Example TXT_decoded_name_is_relative :
  libdnsRecord (lib := Sample.library)
    (Sample.row "test.example.com" "TXT" "v") "example.com"
  = (libdns.TXT "test" (300 * Second) "v", None).
Proof. reflexivity. Qed.

(** C6. The [ServiceBinding] record of the provider's own test
    [TestServiceBindingSupport] and a generic [RR] of type LOC are
    encoded as the fixed row Name ["unknown"], TTL 0, Type ["UNKNOWN"],
    Value ["unknown"], whatever the library and the zone. AppendRecords of
    the two returns them without error, and the document written holds
    the placeholder row twice. *)
Theorem unrecognized_records_written_as_placeholder :
  let binding := libdns.ServiceBinding "test" (300 * Second) "https" 0 1
                   "example.net" {[ "alpn" := ["h2"; "h3"] ]} in
  let generic := libdns.RR "host" (300 * Second) "LOC"
                   "52 22 23.000 N 4 53 32.000 E -2.00m" in
  let placeholder := {| rr_Name := "unknown"; rr_TTL := 0; rr_Type := "UNKNOWN";
                        rr_Value := "unknown"; rr_Pref := 0;
                        rr_Raw := EmptyString |} in
  let existing :=
    [{| rr_Name := "www"; rr_TTL := 300; rr_Type := "A"; rr_Value := "192.0.2.1";
        rr_Pref := 0; rr_Raw := EmptyString |}] in
  let tr := Sample.service Sample.exampleURL (Sample.exampleZone existing) false in
  let out := AppendRecords (lib := Sample.library) (tr := tr)
               "example.com" [binding; generic] Sample.fresh in
  (forall (lib : Library) zone,
     libdnsRecordToResourceRecord binding zone = placeholder
     /\ libdnsRecordToResourceRecord generic zone = placeholder)
  /\ fst out = ([binding; generic], None)
  /\ map zone_ResourceRecords (writes (net (snd out)))
     = [existing ++ [placeholder; placeholder]]%list.
Proof.
  intros binding generic placeholder existing tr out.
  split; [|split].
  - intros lib zone. split; reflexivity.
  - reflexivity.
  - reflexivity.
Qed.

(** ** Fetch, write and the cache *)

Lemma writes_after_get reqs url :
  writes (reqs ++ [{| req_Method := "GET"; req_URL := url; req_Body := None |}])
  = writes reqs.
Proof. unfold writes. rewrite omap_app. simpl. by rewrite app_nil_r. Qed.

Lemma writes_after_put reqs url zone :
  writes (reqs ++ [{| req_Method := "PUT"; req_URL := url; req_Body := Some zone |}])
  = (writes reqs ++ [zone])%list.
Proof. unfold writes. by rewrite omap_app. Qed.

Section Cache.
Context {lib : Library} {tr : Transport}.

(** A fetch hands no write to the transport. *)
Lemma getZone_writes zoneName st :
  writes (net (snd (getZone zoneName st))) = writes (net st).
Proof.
  unfold getZone. destruct (p_zones (prov st) !! zoneName); [done|].
  destruct (NewRequestWithContext _ _ _); [done|].
  unfold sendAPIRequest.
  destruct (roundTrip _ _ _) as [[|zone zones] [err|]]; simpl;
    apply writes_after_get.
Qed.

(** A fetch keeps what the cache holds. *)
Lemma getZone_keeps zoneName st k cached :
  p_zones (prov st) !! k = Some cached ->
  p_zones (prov (snd (getZone zoneName st))) !! k = Some cached.
Proof.
  intros Hk. unfold getZone.
  destruct (p_zones (prov st) !! zoneName) eqn:Hz; [done|].
  destruct (NewRequestWithContext _ _ _); [done|].
  unfold sendAPIRequest.
  destruct (roundTrip _ _ _) as [[|zone zones] [err|]]; simpl; try done.
  rewrite lookup_insert_ne; [done|]. intros ->. congruence.
Qed.

(** A fetch that succeeds leaves the document in the cache. *)
Lemma getZone_caches zoneName st zoneData st1 :
  getZone zoneName st = ((zoneData, None), st1) ->
  p_zones (prov st1) !! zoneName = Some zoneData.
Proof.
  unfold getZone.
  destruct (p_zones (prov st) !! zoneName) eqn:Hz.
  { intros [= <- <-]. done. }
  destruct (NewRequestWithContext _ _ _); [done|].
  unfold sendAPIRequest.
  destruct (roundTrip _ _ _) as [[|zone zones] [err|]]; simpl; try done.
  intros [= <- <-]. simpl. apply lookup_insert_eq.
Qed.

(** A write that fails leaves the cache as it was. *)
Lemma setZone_failure zoneName zoneData st err :
  fst (setZone zoneName zoneData st) = Some err ->
  p_zones (prov (snd (setZone zoneName zoneData st))) = p_zones (prov st).
Proof.
  unfold setZone. destruct (NewRequestWithContext _ _ _); [done|].
  unfold sendAPIRequest. by destruct (roundTrip _ _ _) as [zones [e|]].
Qed.

(** A write that succeeds was handed to the transport, which reported
    no error, and only then is the entry deleted. *)
Lemma setZone_success zoneName zoneData st :
  fst (setZone zoneName zoneData st) = None ->
  snd (roundTrip (net st)
         (p_Username (prov st), p_Password (prov st), p_Context (prov st))
         (putRequest st zoneName zoneData)) = None
  /\ net (snd (setZone zoneName zoneData st))
     = (net st ++ [putRequest st zoneName zoneData])%list
  /\ p_zones (prov (snd (setZone zoneName zoneData st)))
     = delete zoneName (p_zones (prov st)).
Proof.
  unfold setZone. destruct (NewRequestWithContext _ _ _); [done|].
  unfold sendAPIRequest, putRequest.
  by destruct (roundTrip _ _ _) as [zones [e|]].
Qed.

(** A write adds at most its own document to the writes. *)
Lemma setZone_writes zoneName zoneData st :
  writes (net (snd (setZone zoneName zoneData st))) = writes (net st)
  \/ writes (net (snd (setZone zoneName zoneData st)))
     = (writes (net st) ++ [cleanZone zoneData])%list.
Proof.
  unfold setZone. destruct (NewRequestWithContext _ _ _); [by left|].
  unfold sendAPIRequest. right.
  destruct (roundTrip _ _ _) as [zones [e|]]; simpl; apply writes_after_put.
Qed.

Lemma addRecords_shape : isFetchThenWrite addRecords.
Proof.
  eexists (fun zoneName records zoneData => set_ResourceRecords zoneData _).
  intros zoneName records st. unfold addRecords, fetchThenWrite.
  destruct (getZone zoneName st) as [[zoneData [err|]] st1]; reflexivity.
Qed.

Lemma setRecords_shape : isFetchThenWrite setRecords.
Proof.
  eexists (fun zoneName records zoneData => set_ResourceRecords zoneData _).
  intros zoneName records st. unfold setRecords, fetchThenWrite.
  destruct (getZone zoneName st) as [[zoneData [err|]] st1]; reflexivity.
Qed.

Lemma deleteRecords_shape : isFetchThenWrite deleteRecords.
Proof.
  eexists (fun zoneName records zoneData => set_ResourceRecords zoneData _).
  intros zoneName records st. unfold deleteRecords, fetchThenWrite.
  destruct (getZone zoneName st) as [[zoneData [err|]] st1]; reflexivity.
Qed.

End Cache.

(** ** The four operations *)

Lemma ensureInitialized_zones p :
  p_zones (snd (ensureInitialized p)) = p_zones p.
Proof.
  unfold ensureInitialized, set_initialized, set_Context, set_Endpoint.
  destruct p as [user pass ctx ep zs init]; simpl.
  destruct init; [done|].
  destruct (String.eqb ep EmptyString); simpl;
    destruct (String.eqb ctx EmptyString); simpl;
    destruct (String.eqb user EmptyString); simpl; try reflexivity;
    destruct (String.eqb pass EmptyString); reflexivity.
Qed.

Lemma ensureInitialized_error p msg :
  fst (ensureInitialized p) = Some msg ->
  msg = "username is required" \/ msg = "password is required".
Proof.
  unfold ensureInitialized, set_initialized, set_Context, set_Endpoint.
  destruct p as [user pass ctx ep zs init]; simpl.
  destruct init; [done|].
  destruct (String.eqb ep EmptyString); simpl;
    destruct (String.eqb ctx EmptyString); simpl;
    destruct (String.eqb user EmptyString); simpl; try (intros [= <-]; by left);
    destruct (String.eqb pass EmptyString); simpl; intros [= <-]; by right.
Qed.

Section Public.
Context {lib : Library} {tr : Transport}.

Lemma mutating_ext core core' what zone records st :
  (forall z r s, core z r s = core' z r s) ->
  mutating core what zone records st = mutating core' what zone records st.
Proof.
  intros Hcore. unfold mutating.
  destruct (ensureInitialized (prov st)) as [[err|] p]; [done|].
  destruct (String.eqb zone EmptyString); [done|].
  destruct (length records =? 0)%nat; [done|]. by rewrite Hcore.
Qed.

Lemma mutatingOperations_shape what Op :
  In (what, Op) mutatingOperations ->
  exists change, forall zone records st,
    Op zone records st = mutating (fetchThenWrite change) what zone records st.
Proof.
  intros [[= <- <-]|[[= <- <-]|[[= <- <-]|[]]]].
  - destruct addRecords_shape as [change Hshape]. exists change.
    intros. rewrite AppendRecords_mutating. by apply mutating_ext.
  - destruct setRecords_shape as [change Hshape]. exists change.
    intros. rewrite SetRecords_mutating. by apply mutating_ext.
  - destruct deleteRecords_shape as [change Hshape]. exists change.
    intros. rewrite DeleteRecords_mutating. by apply mutating_ext.
Qed.

(** What the loop of [GetRecords] returns after [records]. *)
Lemma convertRows_all rows zone records :
  Forall (fun rr => snd (libdnsRecord rr zone) = None) rows ->
  convertRows rows zone records
  = ((records ++ map (fun rr => fst (libdnsRecord rr zone)) rows)%list, None).
Proof.
  revert records. induction rows as [|rr rows IH]; intros records Hall; simpl.
  - by rewrite app_nil_r.
  - apply Forall_cons in Hall as [Hrr Hall].
    destruct (libdnsRecord rr zone) as [record [err|]]; [done|].
    rewrite IH by done. by rewrite <- app_assoc.
Qed.

Lemma convertRows_first_failure before rr after zone records err :
  Forall (fun rr => snd (libdnsRecord rr zone) = None) before ->
  snd (libdnsRecord rr zone) = Some err ->
  convertRows (before ++ rr :: after) zone records
  = ([], Some ("failed to convert resource record " ++ rr_Name rr ++ ": " ++ err)).
Proof.
  revert records. induction before as [|b before IH]; intros records Hall Hrr; simpl.
  - destruct (libdnsRecord rr zone) as [record [e|]]; simpl in Hrr; [|done].
    by injection Hrr as ->.
  - apply Forall_cons in Hall as [Hb Hall].
    destruct (libdnsRecord b zone) as [record [e|]]; [done|]. by apply IH.
Qed.

Lemma GetRecords_writes zone st :
  writes (net (snd (GetRecords zone st))) = writes (net st).
Proof.
  unfold GetRecords.
  destruct (ensureInitialized (prov st)) as [[err|] p]; [done|].
  destruct (String.eqb zone EmptyString); [done|].
  pose proof (getZone_writes zone (withProvider st p)) as Hw.
  destruct (getZone zone (withProvider st p)) as [[zoneData [err|]] st1];
    simpl in *; done.
Qed.

End Public.

Lemma decodes_all_or_first_failure {lib : Library} zone rows :
  Forall (fun rr => snd (libdnsRecord rr zone) = None) rows
  \/ exists before rr after err,
       rows = (before ++ rr :: after)%list
       /\ Forall (fun rr => snd (libdnsRecord rr zone) = None) before
       /\ snd (libdnsRecord rr zone) = Some err.
Proof.
  induction rows as [|rr rows IH]; [by left|].
  destruct (snd (libdnsRecord rr zone)) as [err|] eqn:Hrr.
  - right. by exists [], rr, rows, err.
  - destruct IH as [Hall|(before & bad & after & err & -> & Hbefore & Hbad)].
    + left. by constructor.
    + right. exists (rr :: before), bad, after, err. repeat split; try done.
      by constructor.
Qed.

(** C7. GetRecords decodes every row of the document, in order; the
    first row that fails to decode fails the whole call with a
    conversion error and no record is returned, so a bad row is never
    skipped; one of the two always applies. No document is written. *)
Theorem GetRecords_all_or_nothing {lib : Library} {tr : Transport}
    zone st p0 zoneData st1 :
  ensureInitialized (prov st) = (None, p0) ->
  zone <> EmptyString ->
  getZone zone (withProvider st p0) = ((zoneData, None), st1) ->
  let rows := zone_ResourceRecords zoneData in
  let decodes := fun rr => snd (libdnsRecord rr zone) = None in
  let out := GetRecords zone st in
  (Forall decodes rows ->
   fst out = (map (fun rr => fst (libdnsRecord rr zone)) rows, None))
  /\ (forall before rr after err,
        rows = (before ++ rr :: after)%list ->
        Forall decodes before ->
        snd (libdnsRecord rr zone) = Some err ->
        fst out = ([], Some ("failed to convert resource record " ++ rr_Name rr
                             ++ ": " ++ err)))
  /\ (Forall decodes rows
      \/ exists before rr after err,
           rows = (before ++ rr :: after)%list
           /\ Forall decodes before
           /\ snd (libdnsRecord rr zone) = Some err)
  /\ writes (net (snd out)) = writes (net st).
Proof.
  intros Hinit Hzone Hget rows decodes out.
  assert (Hout : fst out = convertRows rows zone []).
  { unfold out, GetRecords. rewrite Hinit.
    destruct (String.eqb_spec zone EmptyString) as [|_]; [done|].
    by rewrite Hget. }
  repeat split.
  - intros Hall. rewrite Hout. by rewrite convertRows_all.
  - intros before rr after err Hrows Hbefore Hrr. rewrite Hout, Hrows.
    by apply convertRows_first_failure.
  - apply decodes_all_or_first_failure.
  - apply GetRecords_writes.
Qed.

Lemma GetRecords_all_or_nothing_witness :
  let good := Sample.service Sample.exampleURL
                (Sample.exampleZone
                   [Sample.row "test" "TXT" "v"; Sample.row "www" "A" "192.0.2.1"])
                false in
  let bad := Sample.service Sample.exampleURL
               (Sample.exampleZone
                  [Sample.row "test" "TXT" "v";
                   Sample.row "ca" "CAA" "0 issue";
                   Sample.row "www" "A" "192.0.2.1"])
               false in
  fst (GetRecords (lib := Sample.library) (tr := good) "example.com" Sample.fresh)
  = ([libdns.TXT "test" (300 * Second) "v";
      libdns.Address "www" (300 * Second) (netip.Addr4 192 0 2 1)], None)
  /\ fst (GetRecords (lib := Sample.library) (tr := bad) "example.com" Sample.fresh)
     = ([], Some ("failed to convert resource record ca: malformed CAA value; "
                  ++ "expected 3 fields in the form 'flags tag "
                  ++ dquote ++ "value" ++ dquote ++ "'")).
Proof.
  intros good bad. split.
  - edestruct (GetRecords_all_or_nothing (lib := Sample.library) (tr := good)
                 "example.com" Sample.fresh Sample.ready) as (Hall & _).
    + vm_compute. reflexivity.
    + discriminate.
    + vm_compute. reflexivity.
    + rewrite Hall; [reflexivity|]. repeat constructor.
  - edestruct (GetRecords_all_or_nothing (lib := Sample.library) (tr := bad)
                 "example.com" Sample.fresh Sample.ready) as (_ & Hfail & _).
    + vm_compute. reflexivity.
    + discriminate.
    + vm_compute. reflexivity.
    + rewrite (Hfail [Sample.row "test" "TXT" "v"] (Sample.row "ca" "CAA" "0 issue")
                 [Sample.row "www" "A" "192.0.2.1"]
                 ("malformed CAA value; expected 3 fields in the form 'flags tag "
                  ++ dquote ++ "value" ++ dquote ++ "'")).
      * reflexivity.
      * reflexivity.
      * repeat constructor.
      * reflexivity.
Defined.

(** C8. For append, set and delete: when the fetch of the current
    document fails, the operation fails with the fetch error, wrapped,
    and hands no write to the transport. Whenever the operation fails,
    every document the cache held is still there; the entry of the zone
    is gone only after a write that the transport reported successful. *)
Theorem fetch_failure_and_cache {lib : Library} {tr : Transport}
    what Op zone records st :
  In (what, Op) mutatingOperations ->
  let out := Op zone records st in
  (forall p0 zoneData err st1,
      ensureInitialized (prov st) = (None, p0) ->
      zone <> EmptyString ->
      records <> [] ->
      getZone zone (withProvider st p0) = ((zoneData, Some err), st1) ->
      fst out = ([], Some (what ++ zone ++ ": failed to get zone " ++ zone
                           ++ ": " ++ err))
      /\ writes (net (snd out)) = writes (net st))
  /\ (forall msg name cached,
        snd (fst out) = Some msg ->
        p_zones (prov st) !! name = Some cached ->
        p_zones (prov (snd out)) !! name = Some cached)
  /\ (snd (fst out) = None ->
      p_zones (prov (snd out)) !! zone = None
      /\ exists sent req credentials,
           net (snd out) = (sent ++ [req])%list
           /\ req_Method req = "PUT"
           /\ snd (roundTrip sent credentials req) = None).
Proof.
  intros Hop out.
  destruct (mutatingOperations_shape what Op Hop) as [change Hshape].
  unfold out. rewrite Hshape. clear Hshape Hop out. unfold mutating.
  pose proof (ensureInitialized_zones (prov st)) as Hzones.
  destruct (ensureInitialized (prov st)) as [[e|] p]; simpl in Hzones.
  { split; [|split].
    - by intros p0 zoneData err st1 [=].
    - intros msg name cached _. simpl. by rewrite Hzones.
    - done. }
  destruct (String.eqb_spec zone EmptyString) as [Hz|Hz].
  { split; [|split].
    - by intros p0 zoneData err st1 _ Hne.
    - intros msg name cached _. simpl. by rewrite Hzones.
    - done. }
  destruct records as [|r records]; simpl.
  { split; [|split].
    - by intros p0 zoneData err st1 _ _ Hne.
    - intros msg name cached _. simpl. by rewrite Hzones.
    - done. }
  unfold fetchThenWrite.
  pose proof (getZone_writes zone (withProvider st p)) as Hwrites.
  pose proof (getZone_keeps zone (withProvider st p)) as Hkeeps.
  destruct (getZone zone (withProvider st p)) as [[zoneData [err|]] st1] eqn:Hget;
    simpl in *.
  { split; [|split].
    - intros p0 zoneData' err' st1' [= <-] _ _ Hget'.
      rewrite Hget in Hget'. injection Hget' as _ <- _. done.
    - intros msg name cached _ Hname. apply Hkeeps. by rewrite Hzones.
    - done. }
  pose proof (setZone_failure zone (change zone (r :: records) zoneData) st1) as Hfail.
  pose proof (setZone_success zone (change zone (r :: records) zoneData) st1) as Hok.
  destruct (setZone zone (change zone (r :: records) zoneData) st1)
    as [[err|] st2]; simpl in *.
  - split; [|split].
    + intros p0 zoneData' err' st1' [= <-] _ _ Hget'.
      rewrite Hget in Hget'. discriminate Hget'.
    + intros msg name cached _ Hname. rewrite (Hfail err) by done.
      apply Hkeeps. by rewrite Hzones.
    + done.
  - destruct Hok as (Hsent & Hnet & Hcache); [done|]. split; [|split].
    + intros p0 zoneData' err' st1' [= <-] _ _ Hget'.
      rewrite Hget in Hget'. discriminate Hget'.
    + done.
    + intros _. split; [rewrite Hcache; apply lookup_delete_eq|].
      eexists _, _, _. split; [exact Hnet|]. split; [done|exact Hsent].
Qed.

Lemma fetch_failure_and_cache_witness :
  let record := libdns.TXT "test" (300 * Second) "new" in
  let document := Sample.exampleZone [Sample.row "test" "TXT" "old"] in
  let absent := Sample.service "https://api.autodns.com/v1/zone/example.org"
                  document false in
  let rejecting := Sample.service Sample.exampleURL document true in
  let failed := SetRecords (lib := Sample.library) (tr := absent)
                  "example.com" [record] Sample.fresh in
  let refused := AppendRecords (lib := Sample.library) (tr := rejecting)
                   "example.com" [record] (Sample.cached document) in
  (fst failed
   = ([], Some ("failed to set records in zone example.com: "
                ++ "failed to get zone example.com: "
                ++ "failed to get zone example.com: "
                ++ "HTTP 404: E0205 - Zone does not exist"))
   /\ writes (net (snd failed)) = [])
  /\ p_zones (prov (snd refused)) !! "example.com" = Some document.
Proof.
  intros record document absent rejecting failed refused. split.
  - edestruct (fetch_failure_and_cache (lib := Sample.library) (tr := absent)
                 "failed to set records in zone "
                 (SetRecords (lib := Sample.library) (tr := absent))
                 "example.com" [record] Sample.fresh) as (Hfetch & _).
    + right. left. reflexivity.
    + apply (Hfetch Sample.ready Zone_zero
               ("failed to get zone example.com: "
                ++ "HTTP 404: E0205 - Zone does not exist")
               (snd (getZone (tr := absent) "example.com"
                       (withProvider Sample.fresh Sample.ready)))).
      * vm_compute. reflexivity.
      * discriminate.
      * discriminate.
      * vm_compute. reflexivity.
  - edestruct (fetch_failure_and_cache (lib := Sample.library) (tr := rejecting)
                 "failed to add records to zone "
                 (AppendRecords (lib := Sample.library) (tr := rejecting))
                 "example.com" [record] (Sample.cached document))
      as (_ & Hkept & _).
    + left. reflexivity.
    + apply (Hkept ("failed to add records to zone example.com: "
                    ++ "failed to update zone example.com: "
                    ++ "HTTP 400: E0205 - Zone could not be updated")).
      * vm_compute. reflexivity.
      * vm_compute. reflexivity.
Defined.

Section Validation.
Context {lib : Library} {tr : Transport}.

Lemma expectedError_validation st msg :
  ValidationError msg -> ValidationError (expectedError st msg).
Proof.
  intros Hmsg. unfold expectedError.
  pose proof (ensureInitialized_error (prov st)) as Herr.
  destruct (fst (ensureInitialized (prov st))) as [err|]; [|done].
  unfold ValidationError. simpl.
  destruct (Herr err eq_refl) as [-> | ->]; auto.
Qed.

Lemma GetRecords_rejects st :
  rejects (GetRecords EmptyString st) st (expectedError st "zone name is required").
Proof.
  unfold rejects. split; [|split; [|split]].
  - unfold GetRecords, expectedError.
    by destruct (ensureInitialized (prov st)) as [[err|] p].
  - apply expectedError_validation. unfold ValidationError. simpl. auto.
  - unfold GetRecords.
    by destruct (ensureInitialized (prov st)) as [[err|] p].
  - unfold GetRecords. pose proof (ensureInitialized_zones (prov st)) as Hzones.
    by destruct (ensureInitialized (prov st)) as [[err|] p].
Qed.

Lemma mutating_rejects_zone core what records st :
  rejects (mutating core what EmptyString records st) st
          (expectedError st "zone name is required").
Proof.
  unfold rejects. split; [|split; [|split]].
  - unfold mutating, expectedError.
    by destruct (ensureInitialized (prov st)) as [[err|] p].
  - apply expectedError_validation. unfold ValidationError. simpl. auto.
  - unfold mutating.
    by destruct (ensureInitialized (prov st)) as [[err|] p].
  - unfold mutating. pose proof (ensureInitialized_zones (prov st)) as Hzones.
    by destruct (ensureInitialized (prov st)) as [[err|] p].
Qed.

Lemma mutating_rejects_records core what zone st :
  rejects (mutating core what zone [] st) st
          (expectedError st (if String.eqb zone EmptyString
                             then "zone name is required"
                             else "at least one record is required")).
Proof.
  unfold rejects. split; [|split; [|split]].
  - unfold mutating, expectedError.
    destruct (ensureInitialized (prov st)) as [[err|] p]; [done|].
    by destruct (String.eqb zone EmptyString).
  - apply expectedError_validation. unfold ValidationError.
    destruct (String.eqb zone EmptyString); simpl; auto.
  - unfold mutating.
    destruct (ensureInitialized (prov st)) as [[err|] p]; [done|].
    by destruct (String.eqb zone EmptyString).
  - unfold mutating. pose proof (ensureInitialized_zones (prov st)) as Hzones.
    destruct (ensureInitialized (prov st)) as [[err|] p]; [done|].
    by destruct (String.eqb zone EmptyString).
Qed.

End Validation.

(** C9. With an empty zone name each of the four operations returns at
    once with a validation error: the error of the credential check
    when that fails, else ["zone name is required"]. With an empty list
    of records each mutating operation returns at once with a validation
    error: as before, or ["at least one record is required"] when the
    zone name is not empty. No request is handed to the transport and
    the cache is untouched. *)
Theorem validation_fails_fast {lib : Library} {tr : Transport} st zone records :
  rejects (GetRecords EmptyString st) st (expectedError st "zone name is required")
  /\ Forall
       (fun operation =>
          rejects (snd operation EmptyString records st) st
                  (expectedError st "zone name is required")
          /\ rejects (snd operation zone [] st) st
                     (expectedError st
                        (if String.eqb zone EmptyString
                         then "zone name is required"
                         else "at least one record is required")))
       mutatingOperations.
Proof.
  split; [apply GetRecords_rejects|].
  unfold mutatingOperations.
  repeat (apply List.Forall_cons;
          [simpl;
           rewrite ?AppendRecords_mutating, ?SetRecords_mutating,
             ?DeleteRecords_mutating;
           split; [apply mutating_rejects_zone | apply mutating_rejects_records]|]).
  apply List.Forall_nil.
Qed.

(** With credentials in place the two errors are those of the zone name
    and of the list of records. *)
Example validation_of_a_configured_provider :
  let tr := Sample.service Sample.exampleURL (Sample.exampleZone []) false in
  let record := libdns.TXT "test" (300 * Second) "test" in
  fst (GetRecords (lib := Sample.library) (tr := tr) EmptyString Sample.fresh)
  = ([], Some "zone name is required")
  /\ fst (DeleteRecords (lib := Sample.library) (tr := tr)
            EmptyString [record] Sample.fresh)
     = ([], Some "zone name is required")
  /\ fst (SetRecords (lib := Sample.library) (tr := tr)
            "example.com" [] Sample.fresh)
     = ([], Some "at least one record is required")
  /\ fst (AppendRecords (lib := Sample.library) (tr := tr)
            "example.com" [record] Sample.anonymous)
     = ([], Some "username is required").
Proof. vm_compute. repeat split; reflexivity. Qed.

(** C10. When AppendRecords, SetRecords or DeleteRecords succeeds, the
    records it returns are the caller's records, the same list in the
    same order; nothing is read back from the provider. *)
Theorem mutating_returns_input {lib : Library} {tr : Transport}
    what Op zone records st returned st' :
  In (what, Op) mutatingOperations ->
  Op zone records st = ((returned, None), st') ->
  returned = records.
Proof.
  intros Hop.
  destruct (mutatingOperations_shape what Op Hop) as [change Hshape].
  rewrite Hshape. unfold mutating.
  destruct (ensureInitialized (prov st)) as [[err|] p]; [done|].
  destruct (String.eqb zone EmptyString); [done|].
  destruct (length records =? 0)%nat; [done|].
  destruct (fetchThenWrite change zone records (withProvider st p))
    as [[err|] st2]; [done|].
  by intros [= <- _].
Qed.

Lemma mutating_returns_input_witness :
  let tr := Sample.service Sample.exampleURL
              (Sample.exampleZone [Sample.row "test" "TXT" "old"]) false in
  let records := [libdns.TXT "test" (300 * Second) "new";
                  libdns.CNAME "www" (300 * Second) "example.net"] in
  fst (fst (SetRecords (lib := Sample.library) (tr := tr)
              "example.com" records Sample.fresh))
  = records.
Proof.
  intros tr records.
  eapply (mutating_returns_input (lib := Sample.library) (tr := tr)
            "failed to set records in zone "
            (SetRecords (lib := Sample.library) (tr := tr))
            "example.com" records Sample.fresh).
  - right. left. reflexivity.
  - vm_compute. reflexivity.
Defined.

(** * Further properties of the provider *)

(** ** Initialisation *)

Lemma ensureInitialized_success p p' :
  ensureInitialized p = (None, p') -> p_initialized p' = true.
Proof.
  unfold ensureInitialized.
  destruct (p_initialized p) eqn:Hinit; [by intros [= <-]|].
  set (q := if String.eqb (p_Context _) _ then _ else _).
  destruct (String.eqb (p_Username q) EmptyString); [done|].
  destruct (String.eqb (p_Password q) EmptyString); [done|].
  by intros [= <-].
Qed.

Lemma ensureInitialized_failure p msg p' :
  ensureInitialized p = (Some msg, p') ->
  p_initialized p' = false
  /\ String.eqb (p_Endpoint p') EmptyString = false
  /\ String.eqb (p_Context p') EmptyString = false
  /\ (if String.eqb (p_Username p') EmptyString
      then msg = "username is required"
      else String.eqb (p_Password p') EmptyString = true
           /\ msg = "password is required").
Proof.
  unfold ensureInitialized.
  destruct (p_initialized p) eqn:Hinit; [done|].
  set (q := if String.eqb (p_Context _) _ then _ else _).
  assert (Hq : p_initialized q = false
               /\ String.eqb (p_Endpoint q) EmptyString = false
               /\ String.eqb (p_Context q) EmptyString = false).
  { unfold q, set_Context, set_Endpoint.
    destruct p as [user pass ctx ep zs init]; simpl in *.
    destruct (String.eqb ep EmptyString) eqn:Hep; simpl;
      destruct (String.eqb ctx EmptyString) eqn:Hctx; simpl; auto. }
  clearbody q. destruct Hq as (Hi & He & Hc).
  destruct (String.eqb (p_Username q) EmptyString) eqn:Hu.
  { intros [= <- <-]. by rewrite Hu. }
  destruct (String.eqb (p_Password q) EmptyString) eqn:Hp; [|done].
  intros [= <- <-]. by rewrite Hu.
Qed.

(** X1. Initialising twice is initialising once: a second call returns
    the error of the first, if any, and leaves the provider as the first
    call left it. *)
Theorem ensureInitialized_idempotent p :
  ensureInitialized (snd (ensureInitialized p)) = ensureInitialized p.
Proof.
  destruct (ensureInitialized p) as [[msg|] p'] eqn:Hfirst; unfold snd.
  - apply ensureInitialized_failure in Hfirst as (Hi & He & Hc & Hmsg).
    unfold ensureInitialized. rewrite Hi, He, Hc.
    destruct (String.eqb (p_Username p') EmptyString); [by subst|].
    destruct Hmsg as [-> ->]. done.
  - apply ensureInitialized_success in Hfirst.
    unfold ensureInitialized. by rewrite Hfirst.
Qed.

(** ** What an operation does to the provider *)

Section Provider.
Context {lib : Library} {tr : Transport}.

Lemma getZone_settings zoneName st :
  settings (prov (snd (getZone zoneName st))) = settings (prov st).
Proof.
  unfold getZone. destruct (p_zones (prov st) !! zoneName); [done|].
  destruct (NewRequestWithContext _ _ _); [done|].
  unfold sendAPIRequest.
  by destruct (roundTrip _ _ _) as [[|zone zones] [err|]].
Qed.

Lemma setZone_settings zoneName zoneData st :
  settings (prov (snd (setZone zoneName zoneData st))) = settings (prov st).
Proof.
  unfold setZone. destruct (NewRequestWithContext _ _ _); [done|].
  unfold sendAPIRequest. by destruct (roundTrip _ _ _) as [zones [err|]].
Qed.

Lemma fetchThenWrite_settings change zoneName records st :
  settings (prov (snd (fetchThenWrite change zoneName records st)))
  = settings (prov st).
Proof.
  unfold fetchThenWrite.
  pose proof (getZone_settings zoneName st) as Hget.
  destruct (getZone zoneName st) as [[zoneData [err|]] st1]; [done|].
  by rewrite setZone_settings.
Qed.

Lemma GetRecords_settings zone st :
  settings (prov (snd (GetRecords zone st)))
  = settings (snd (ensureInitialized (prov st))).
Proof.
  unfold GetRecords.
  destruct (ensureInitialized (prov st)) as [[err|] p]; [done|].
  destruct (String.eqb zone EmptyString); [done|].
  pose proof (getZone_settings zone (withProvider st p)) as Hget.
  by destruct (getZone zone (withProvider st p)) as [[zoneData [err|]] st1].
Qed.

Lemma mutating_settings change what zone records st :
  settings (prov (snd (mutating (fetchThenWrite change) what zone records st)))
  = settings (snd (ensureInitialized (prov st))).
Proof.
  unfold mutating.
  destruct (ensureInitialized (prov st)) as [[err|] p]; [done|].
  destruct (String.eqb zone EmptyString); [done|].
  destruct (length records =? 0)%nat; [done|].
  pose proof (fetchThenWrite_settings change zone records (withProvider st p)) as Hcore.
  by destruct (fetchThenWrite change zone records (withProvider st p)) as [[err|] st2].
Qed.

End Provider.

(** X2. No operation changes the user name, the password, the context,
    the endpoint or the initialised flag of the provider beyond what
    its initialisation does: after a call the provider differs from the
    initialised one in its cache only. *)
Theorem operations_keep_settings {lib : Library} {tr : Transport}
    zone records st :
  settings (prov (snd (GetRecords zone st)))
  = settings (snd (ensureInitialized (prov st)))
  /\ Forall
       (fun operation =>
          settings (prov (snd (snd operation zone records st)))
          = settings (snd (ensureInitialized (prov st))))
       mutatingOperations.
Proof.
  split; [apply GetRecords_settings|].
  apply Forall_forall. intros [what Op] Hop. apply list_elem_of_In in Hop.
  destruct (mutatingOperations_shape what Op Hop) as [change ->].
  apply mutating_settings.
Qed.

(** ** The cache across calls *)

Section CacheAcrossCalls.
Context {lib : Library} {tr : Transport}.

Lemma withProvider_prov st : withProvider st (prov st) = st.
Proof. by destruct st. Qed.

Lemma initialized_stays p :
  p_initialized p = true -> ensureInitialized p = (None, p).
Proof. intros Hinit. unfold ensureInitialized. by rewrite Hinit. Qed.

Lemma getZone_hit zoneName st zoneData :
  p_zones (prov st) !! zoneName = Some zoneData ->
  getZone zoneName st = ((zoneData, None), st).
Proof. intros Hhit. unfold getZone. by rewrite Hhit. Qed.

Lemma getZone_initialized zoneName st :
  p_initialized (prov (snd (getZone zoneName st))) = p_initialized (prov st).
Proof.
  pose proof (getZone_settings zoneName st) as Hsettings.
  unfold settings in Hsettings. by injection Hsettings.
Qed.

Lemma getZone_other zoneName st name :
  name <> zoneName ->
  p_zones (prov (snd (getZone zoneName st))) !! name = p_zones (prov st) !! name.
Proof.
  intros Hne. unfold getZone.
  destruct (p_zones (prov st) !! zoneName); [done|].
  destruct (NewRequestWithContext _ _ _); [done|].
  unfold sendAPIRequest.
  destruct (roundTrip _ _ _) as [[|zone zones] [err|]]; simpl; try done.
  by rewrite lookup_insert_ne.
Qed.

Lemma setZone_other zoneName zoneData st name :
  name <> zoneName ->
  p_zones (prov (snd (setZone zoneName zoneData st))) !! name
  = p_zones (prov st) !! name.
Proof.
  intros Hne. unfold setZone. destruct (NewRequestWithContext _ _ _); [done|].
  unfold sendAPIRequest.
  destruct (roundTrip _ _ _) as [zones [err|]]; simpl; try done.
  by rewrite lookup_delete_ne.
Qed.

Lemma fetchThenWrite_other change zoneName records st name :
  name <> zoneName ->
  p_zones (prov (snd (fetchThenWrite change zoneName records st))) !! name
  = p_zones (prov st) !! name.
Proof.
  intros Hne. unfold fetchThenWrite.
  pose proof (getZone_other zoneName st name Hne) as Hget.
  destruct (getZone zoneName st) as [[zoneData [err|]] st1]; [done|].
  by rewrite setZone_other.
Qed.

Lemma GetRecords_other zone st name :
  name <> zone ->
  p_zones (prov (snd (GetRecords zone st))) !! name = p_zones (prov st) !! name.
Proof.
  intros Hne. unfold GetRecords.
  pose proof (ensureInitialized_zones (prov st)) as Hzones.
  destruct (ensureInitialized (prov st)) as [[err|] p]; simpl in *;
    [by rewrite Hzones|].
  destruct (String.eqb zone EmptyString); simpl; [by rewrite Hzones|].
  pose proof (getZone_other zone (withProvider st p) name Hne) as Hget.
  destruct (getZone zone (withProvider st p)) as [[zoneData [err|]] st1];
    simpl in *; by rewrite Hget, Hzones.
Qed.

Lemma mutating_other change what zone records st name :
  name <> zone ->
  p_zones (prov (snd (mutating (fetchThenWrite change) what zone records st)))
    !! name
  = p_zones (prov st) !! name.
Proof.
  intros Hne. unfold mutating.
  pose proof (ensureInitialized_zones (prov st)) as Hzones.
  destruct (ensureInitialized (prov st)) as [[err|] p]; simpl in *;
    [by rewrite Hzones|].
  destruct (String.eqb zone EmptyString); simpl; [by rewrite Hzones|].
  destruct (length records =? 0)%nat; simpl; [by rewrite Hzones|].
  pose proof (fetchThenWrite_other change zone records (withProvider st p) name Hne)
    as Hcore.
  destruct (fetchThenWrite change zone records (withProvider st p)) as [[err|] st2];
    simpl in *; by rewrite Hcore, Hzones.
Qed.

End CacheAcrossCalls.

(** X3. A GetRecords that succeeded, called again on the provider it
    left, returns the same records and leaves everything as it is: the
    second call is answered from the cache and hands no request to the
    transport. *)
Theorem GetRecords_again {lib : Library} {tr : Transport} zone st records st' :
  GetRecords zone st = ((records, None), st') ->
  GetRecords zone st' = ((records, None), st').
Proof.
  unfold GetRecords at 1.
  destruct (ensureInitialized (prov st)) as [[err|] p] eqn:Hinit; [done|].
  destruct (String.eqb zone EmptyString) eqn:Hzone; [done|].
  pose proof (getZone_initialized zone (withProvider st p)) as Hflag.
  destruct (getZone zone (withProvider st p)) as [[zoneData [err|]] st1] eqn:Hget;
    [done|].
  intros [= Hrows <-]. simpl in Hflag.
  apply ensureInitialized_success in Hinit. rewrite Hinit in Hflag.
  unfold GetRecords. rewrite (initialized_stays _ Hflag), Hzone.
  rewrite withProvider_prov.
  rewrite (getZone_hit zone st1 zoneData) by (by eapply getZone_caches).
  by rewrite Hrows.
Qed.

Lemma GetRecords_again_witness :
  let tr := Sample.service Sample.exampleURL
              (Sample.exampleZone [Sample.row "test" "TXT" "v"]) false in
  let first := GetRecords (lib := Sample.library) (tr := tr)
                 "example.com" Sample.fresh in
  GetRecords (lib := Sample.library) (tr := tr) "example.com" (snd first)
  = (([libdns.TXT "test" (300 * Second) "v"], None), snd first)
  /\ length (net (snd first)) = 1%nat.
Proof.
  intros tr first. split; [|reflexivity].
  apply (GetRecords_again (lib := Sample.library) (tr := tr)
           "example.com" Sample.fresh).
  vm_compute. reflexivity.
Defined.

(** X4. An operation on one zone leaves the cached documents of every
    other zone as they are. *)
Theorem other_zones_stay_cached {lib : Library} {tr : Transport}
    zone records st name :
  name <> zone ->
  p_zones (prov (snd (GetRecords zone st))) !! name = p_zones (prov st) !! name
  /\ Forall
       (fun operation =>
          p_zones (prov (snd (snd operation zone records st))) !! name
          = p_zones (prov st) !! name)
       mutatingOperations.
Proof.
  intros Hne. split; [by apply GetRecords_other|].
  apply Forall_forall. intros [what Op] Hop. apply list_elem_of_In in Hop.
  destruct (mutatingOperations_shape what Op Hop) as [change ->].
  by apply mutating_other.
Qed.

Lemma other_zones_stay_cached_witness :
  let document := Sample.exampleZone [Sample.row "test" "TXT" "old"] in
  let tr := Sample.service "https://api.autodns.com/v1/zone/example.org"
              (Sample.exampleZone []) false in
  let record := libdns.TXT "test" (300 * Second) "new" in
  let out := SetRecords (lib := Sample.library) (tr := tr)
               "example.org" [record] (Sample.cached document) in
  fst out = ([record], None)
  /\ p_zones (prov (snd out)) !! "example.com" = Some document.
Proof.
  intros document tr record out. split; [vm_compute; reflexivity|].
  destruct (other_zones_stay_cached (lib := Sample.library) (tr := tr)
              "example.org" [record] (Sample.cached document) "example.com")
    as [_ Hall]; [discriminate|].
  apply List.Forall_forall
    with (x := ("failed to set records in zone ",
                SetRecords (lib := Sample.library) (tr := tr))) in Hall;
    [|right; left; reflexivity].
  simpl in Hall. unfold out. rewrite Hall. vm_compute. reflexivity.
Defined.

Section Requests.
Context {lib : Library} {tr : Transport}.

Lemma getZone_requests zoneName st :
  net (snd (getZone zoneName st)) = net st
  \/ net (snd (getZone zoneName st))
     = (net st ++ [getRequest (prov st) zoneName])%list.
Proof.
  unfold getZone. destruct (p_zones (prov st) !! zoneName); [by left|].
  destruct (NewRequestWithContext _ _ _); [by left|].
  unfold sendAPIRequest. right.
  by destruct (roundTrip _ _ _) as [[|zone zones] [err|]].
Qed.

Lemma setZone_requests zoneName zoneData st :
  net (snd (setZone zoneName zoneData st)) = net st
  \/ net (snd (setZone zoneName zoneData st))
     = (net st ++ [putRequest st zoneName zoneData])%list.
Proof.
  unfold setZone. destruct (NewRequestWithContext _ _ _); [by left|].
  unfold sendAPIRequest. right.
  by destruct (roundTrip _ _ _) as [zones [err|]].
Qed.

Lemma getZone_endpoint zoneName st :
  p_Endpoint (prov (snd (getZone zoneName st))) = p_Endpoint (prov st).
Proof.
  pose proof (getZone_settings zoneName st) as Hsettings.
  unfold settings in Hsettings. by injection Hsettings.
Qed.

Lemma fetchThenWrite_requests change zoneName records st :
  exists reads puts,
    net (snd (fetchThenWrite change zoneName records st))
    = (net st ++ reads ++ puts)%list
    /\ (reads = [] \/ reads = [getRequest (prov st) zoneName])
    /\ (puts = []
        \/ exists document,
             puts = [{| req_Method := "PUT";
                        req_URL := zoneURL (prov st) zoneName;
                        req_Body := Some document |}]).
Proof.
  unfold fetchThenWrite.
  pose proof (getZone_requests zoneName st) as Hget.
  pose proof (getZone_endpoint zoneName st) as Hendpoint.
  destruct (getZone zoneName st) as [[zoneData [err|]] st1]; simpl in *.
  { destruct Hget as [-> | ->].
    - exists [], []. rewrite app_nil_r. auto.
    - exists [getRequest (prov st) zoneName], []. rewrite app_nil_r. auto. }
  destruct (setZone_requests zoneName (change zoneName records zoneData) st1)
    as [-> | ->].
  - destruct Hget as [-> | ->].
    + exists [], []. rewrite app_nil_r. auto.
    + exists [getRequest (prov st) zoneName], []. rewrite app_nil_r. auto.
  - unfold putRequest. rewrite Hendpoint. fold (zoneURL (prov st) zoneName).
    destruct Hget as [-> | ->].
    + eexists [], [_]. split; [reflexivity|]. split; [by left|]. right. by eexists.
    + eexists [_], [_]. rewrite <- app_assoc. split; [reflexivity|].
      split; [by right|]. right. by eexists.
Qed.

End Requests.

(** X5. One call hands at most two requests to the transport, both for
    the URL of its zone: GetRecords at most one read, and AppendRecords,
    SetRecords and DeleteRecords at most one read followed by at most
    one write. *)
Theorem requests_of_one_call {lib : Library} {tr : Transport} zone records st :
  let p := snd (ensureInitialized (prov st)) in
  (net (snd (GetRecords zone st)) = net st
   \/ net (snd (GetRecords zone st)) = (net st ++ [getRequest p zone])%list)
  /\ Forall
       (fun operation =>
          exists reads puts,
            net (snd (snd operation zone records st))
            = (net st ++ reads ++ puts)%list
            /\ (reads = [] \/ reads = [getRequest p zone])
            /\ (puts = []
                \/ exists document,
                     puts = [{| req_Method := "PUT";
                                req_URL := zoneURL p zone;
                                req_Body := Some document |}]))
       mutatingOperations.
Proof.
  intros p. unfold p. split.
  - unfold GetRecords.
    destruct (ensureInitialized (prov st)) as [[err|] p0]; [by left|].
    destruct (String.eqb zone EmptyString); [by left|].
    pose proof (getZone_requests zone (withProvider st p0)) as Hget.
    by destruct (getZone zone (withProvider st p0)) as [[zoneData [err|]] st1].
  - apply Forall_forall. intros [what Op] Hop. apply list_elem_of_In in Hop.
    destruct (mutatingOperations_shape what Op Hop) as [change ->].
    unfold mutating.
    destruct (ensureInitialized (prov st)) as [[err|] p0]; simpl.
    { exists [], []. rewrite app_nil_r. auto. }
    destruct (String.eqb zone EmptyString); simpl.
    { exists [], []. rewrite app_nil_r. auto. }
    destruct (length records =? 0)%nat; simpl.
    { exists [], []. rewrite app_nil_r. auto. }
    destruct (fetchThenWrite_requests change zone records (withProvider st p0))
      as (reads & puts & Hnet & Hreads & Hputs).
    exists reads, puts.
    by destruct (fetchThenWrite change zone records (withProvider st p0))
      as [[err|] st2].
Qed.

Section AfterAWrite.
Context {lib : Library} {tr : Transport}.

Lemma setZone_initialized zoneName zoneData st :
  p_initialized (prov (snd (setZone zoneName zoneData st)))
  = p_initialized (prov st).
Proof.
  pose proof (setZone_settings zoneName zoneData st) as Hsettings.
  unfold settings in Hsettings. by injection Hsettings.
Qed.

Lemma setZone_failure_keeps zoneName zoneData st err name cached :
  fst (setZone zoneName zoneData st) = Some err ->
  p_zones (prov st) !! name = Some cached ->
  p_zones (prov (snd (setZone zoneName zoneData st))) !! name = Some cached.
Proof. intros Herr Hname. by rewrite (setZone_failure _ _ _ err). Qed.

Lemma getZone_miss zoneName st :
  p_zones (prov st) !! zoneName = None ->
  NewRequestWithContext "GET" (zoneURL (prov st) zoneName) None = None ->
  net (snd (getZone zoneName st))
  = (net st ++ [getRequest (prov st) zoneName])%list.
Proof.
  intros Hmiss Hbuild. unfold getZone. rewrite Hmiss.
  unfold zoneURL in Hbuild. rewrite Hbuild. unfold sendAPIRequest.
  by destruct (roundTrip _ _ _) as [[|zone zones] [err|]].
Qed.

Lemma GetRecords_initialized zone st :
  p_initialized (prov st) = true ->
  zone <> EmptyString ->
  GetRecords zone st
  = (match fst (getZone zone st) with
     | (_, Some err) => ([], Some ("failed to get zone " ++ zone ++ ": " ++ err))
     | (zoneData, None) => convertRows (zone_ResourceRecords zoneData) zone []
     end, snd (getZone zone st)).
Proof.
  intros Hinit Hzone. unfold GetRecords.
  rewrite (initialized_stays _ Hinit), withProvider_prov.
  destruct (String.eqb_spec zone EmptyString) as [|_]; [done|].
  by destruct (getZone zone st) as [[zoneData [err|]] st1].
Qed.

End AfterAWrite.

(** X6. When AppendRecords, SetRecords or DeleteRecords has fetched the
    document and then fails, the document fetched is the one the cache
    answers with: a GetRecords that follows decodes its rows and hands
    no request to the transport. *)
Theorem failed_write_leaves_fetched_document {lib : Library} {tr : Transport}
    what Op zone records st p0 zoneData st1 msg :
  In (what, Op) mutatingOperations ->
  ensureInitialized (prov st) = (None, p0) ->
  zone <> EmptyString ->
  records <> [] ->
  getZone zone (withProvider st p0) = ((zoneData, None), st1) ->
  snd (fst (Op zone records st)) = Some msg ->
  let st' := snd (Op zone records st) in
  GetRecords zone st' = (convertRows (zone_ResourceRecords zoneData) zone [], st').
Proof.
  intros Hop Hinit Hzone Hrecords Hget Hfail st'. unfold st' in *. clear st'.
  destruct (mutatingOperations_shape what Op Hop) as [change Hshape].
  rewrite Hshape in *. rewrite (mutating_run _ _ _ _ _ p0) in * by done.
  simpl in *. unfold fetchThenWrite in *. rewrite Hget in *.
  pose proof (getZone_caches _ _ _ _ Hget) as Hcached.
  pose proof (getZone_initialized zone (withProvider st p0)) as Hflag.
  rewrite Hget in Hflag. simpl in Hflag.
  rewrite (ensureInitialized_success _ _ Hinit) in Hflag.
  pose proof (setZone_initialized zone (change zone records zoneData) st1) as Hflag'.
  pose proof (setZone_failure_keeps zone (change zone records zoneData) st1) as Hkeeps.
  destruct (setZone zone (change zone records zoneData) st1) as [[err|] st2];
    simpl in *; [|done].
  rewrite GetRecords_initialized by congruence.
  by rewrite (getZone_hit zone st2 zoneData) by (by eapply Hkeeps).
Qed.

Lemma failed_write_leaves_fetched_document_witness :
  let document := Sample.exampleZone [Sample.row "test" "TXT" "old"] in
  let tr := Sample.service Sample.exampleURL document true in
  let record := libdns.TXT "test" (300 * Second) "new" in
  let failed := snd (SetRecords (lib := Sample.library) (tr := tr)
                       "example.com" [record] Sample.fresh) in
  GetRecords (lib := Sample.library) (tr := tr) "example.com" failed
  = (([libdns.TXT "test" (300 * Second) "old"], None), failed).
Proof.
  intros document tr record failed.
  unfold failed.
  rewrite (failed_write_leaves_fetched_document (lib := Sample.library) (tr := tr)
             "failed to set records in zone "
             (SetRecords (lib := Sample.library) (tr := tr))
             "example.com" [record] Sample.fresh Sample.ready document
             (snd (getZone (tr := tr) "example.com"
                     (withProvider Sample.fresh Sample.ready)))
             ("failed to set records in zone example.com: "
              ++ "failed to update zone example.com: "
              ++ "HTTP 400: E0205 - Zone could not be updated")).
  - vm_compute. reflexivity.
  - right. left. reflexivity.
  - vm_compute. reflexivity.
  - discriminate.
  - discriminate.
  - vm_compute. reflexivity.
  - vm_compute. reflexivity.
Defined.

(** X7. When AppendRecords, SetRecords or DeleteRecords succeeds, the
    zone is no longer cached: a GetRecords that follows hands one read of
    the zone to the transport (when that request can be built). *)
Theorem successful_write_is_followed_by_a_fetch {lib : Library} {tr : Transport}
    what Op zone records st :
  In (what, Op) mutatingOperations ->
  snd (fst (Op zone records st)) = None ->
  let st' := snd (Op zone records st) in
  NewRequestWithContext "GET" (zoneURL (prov st') zone) None = None ->
  net (snd (GetRecords zone st')) = (net st' ++ [getRequest (prov st') zone])%list.
Proof.
  intros Hop Hok st'. unfold st' in *. clear st'.
  destruct (mutatingOperations_shape what Op Hop) as [change Hshape].
  rewrite Hshape in *. clear Hshape. unfold mutating in *.
  destruct (ensureInitialized (prov st)) as [[err|] p0] eqn:Hinit; [done|].
  destruct (String.eqb_spec zone EmptyString) as [|Hzone]; [done|].
  destruct (length records =? 0)%nat; [done|].
  unfold fetchThenWrite in *.
  pose proof (getZone_initialized zone (withProvider st p0)) as Hflag.
  destruct (getZone zone (withProvider st p0)) as [[zoneData [err|]] st1];
    [done|].
  simpl in Hflag. rewrite (ensureInitialized_success _ _ Hinit) in Hflag.
  pose proof (setZone_initialized zone (change zone records zoneData) st1) as Hflag'.
  pose proof (setZone_success zone (change zone records zoneData) st1) as Hsuccess.
  destruct (setZone zone (change zone records zoneData) st1) as [[err|] st2];
    simpl in *; [done|].
  destruct Hsuccess as (_ & _ & Hcache); [done|].
  intros Hbuild. rewrite GetRecords_initialized by congruence. simpl.
  apply getZone_miss; [|done]. rewrite Hcache. apply lookup_delete_eq.
Qed.

Lemma successful_write_is_followed_by_a_fetch_witness :
  let tr := Sample.service Sample.exampleURL
              (Sample.exampleZone [Sample.row "test" "TXT" "old"]) false in
  let record := libdns.TXT "test" (300 * Second) "new" in
  let written := snd (SetRecords (lib := Sample.library) (tr := tr)
                        "example.com" [record] Sample.fresh) in
  let read := GetRecords (lib := Sample.library) (tr := tr) "example.com" written in
  length (net written) = 2%nat
  /\ net (snd read)
     = (net written
        ++ [{| req_Method := "GET"; req_URL := Sample.exampleURL;
               req_Body := None |}])%list
  /\ fst read = ([libdns.TXT "test" (300 * Second) "new"], None).
Proof.
  intros tr record written read. split; [reflexivity|]. split.
  - unfold read, written.
    rewrite (successful_write_is_followed_by_a_fetch
               (lib := Sample.library) (tr := tr)
               "failed to set records in zone "
               (SetRecords (lib := Sample.library) (tr := tr))
               "example.com" [record] Sample.fresh).
    + vm_compute. reflexivity.
    + right. left. reflexivity.
    + vm_compute. reflexivity.
    + reflexivity.
  - vm_compute. reflexivity.
Defined.

(** ** The rows written, call after call *)

Section RowsWritten.
Context {lib : Library} {tr : Transport}.

Lemma setRecords_rows zoneName records st zoneData st1 :
  getZone zoneName st = ((zoneData, None), st1) ->
  canPut st1 zoneName ->
  net (snd (setRecords zoneName records st))
  = (net st1
     ++ [putRequest st1 zoneName
           (set_ResourceRecords zoneData
              (List.filter (keptBySet zoneName records)
                           (zone_ResourceRecords zoneData)
               ++ encode zoneName records))])%list.
Proof.
  intros Hget Hput. unfold setRecords. rewrite Hget.
  rewrite setZone_net by done.
  rewrite (keep_loop
             (fun rr => negb (lookupBool
                                (recordsToReplace (convertRecords records zoneName)
                                                  zoneName)
                                (key2 (rr_Type rr) (rr_Name rr))))).
  unfold encode. by rewrite <- convertRecords_map.
Qed.

Lemma deleteRecords_rows zoneName records st zoneData st1 :
  getZone zoneName st = ((zoneData, None), st1) ->
  canPut st1 zoneName ->
  net (snd (deleteRecords zoneName records st))
  = (net st1
     ++ [putRequest st1 zoneName
           (set_ResourceRecords zoneData
              (List.filter (keptByDelete zoneName records)
                           (zone_ResourceRecords zoneData)))])%list.
Proof.
  intros Hget Hput. unfold deleteRecords. rewrite Hget.
  rewrite setZone_net by done.
  by rewrite (keep_loop
                (fun rr => negb (lookupBool (recordsToDelete records zoneName)
                                   (key3 (rr_Type rr) (rr_Name rr) (rr_Value rr))))).
Qed.

Lemma writes_put st1 zoneName zoneData :
  writes (net st1 ++ [putRequest st1 zoneName zoneData])
  = (writes (net st1) ++ [cleanZone zoneData])%list.
Proof. apply writes_after_put. Qed.

Lemma AppendRecords_rows zone records st zoneData st1 :
  zone <> EmptyString -> records <> [] ->
  fetched zone st zoneData st1 ->
  writes (net (snd (AppendRecords zone records st)))
  = (writes (net st1)
     ++ [cleanZone (set_ResourceRecords zoneData
                      (zone_ResourceRecords zoneData ++ encode zone records))])%list.
Proof.
  intros Hzone Hrecords (p0 & Hinit & Hget & Hput).
  rewrite AppendRecords_mutating, (mutating_run _ _ _ _ _ p0) by done. simpl.
  by rewrite (addRecords_net _ _ _ zoneData st1), writes_put.
Qed.

Lemma SetRecords_rows zone records st zoneData st1 :
  zone <> EmptyString -> records <> [] ->
  fetched zone st zoneData st1 ->
  writes (net (snd (SetRecords zone records st)))
  = (writes (net st1)
     ++ [cleanZone (set_ResourceRecords zoneData
                      (List.filter (keptBySet zone records)
                                   (zone_ResourceRecords zoneData)
                       ++ encode zone records))])%list.
Proof.
  intros Hzone Hrecords (p0 & Hinit & Hget & Hput).
  rewrite SetRecords_mutating, (mutating_run _ _ _ _ _ p0) by done. simpl.
  by rewrite (setRecords_rows _ _ _ zoneData st1), writes_put.
Qed.

Lemma DeleteRecords_rows zone records st zoneData st1 :
  zone <> EmptyString -> records <> [] ->
  fetched zone st zoneData st1 ->
  writes (net (snd (DeleteRecords zone records st)))
  = (writes (net st1)
     ++ [cleanZone (set_ResourceRecords zoneData
                      (List.filter (keptByDelete zone records)
                                   (zone_ResourceRecords zoneData)))])%list.
Proof.
  intros Hzone Hrecords (p0 & Hinit & Hget & Hput).
  rewrite DeleteRecords_mutating, (mutating_run _ _ _ _ _ p0) by done. simpl.
  by rewrite (deleteRecords_rows _ _ _ zoneData st1), writes_put.
Qed.

(** A row the caller's records encode to is one [setRecords] replaces. *)
Lemma encoded_row_not_keptBySet zone records new :
  In new (encode zone records) -> keptBySet zone records new = false.
Proof.
  intros Hin. unfold keptBySet. apply negb_false_iff.
  rewrite recordsToReplace_lookup, convertRecords_map.
  apply existsb_exists. exists new. split; [done|].
  by rewrite String.eqb_refl.
Qed.

(** A row the caller's records encode to is one [deleteRecords] removes. *)
Lemma encoded_row_not_keptByDelete zone records new :
  In new (encode zone records) -> keptByDelete zone records new = false.
Proof.
  intros Hin. unfold keptByDelete. apply negb_false_iff.
  rewrite recordsToDelete_lookup.
  apply in_map_iff in Hin as (r & <- & Hr).
  apply existsb_exists. exists r. split; [done|]. simpl.
  by rewrite String.eqb_refl.
Qed.

Lemma filter_none {A} (f : A -> bool) (l : list A) :
  (forall x, In x l -> f x = false) -> List.filter f l = [].
Proof.
  induction l as [|x l IH]; intros Hf; simpl; [done|].
  rewrite (Hf x) by (by left). apply IH. intros y Hy. apply Hf. by right.
Qed.

Lemma filter_twice {A} (f : A -> bool) (l : list A) :
  List.filter f (List.filter f l) = List.filter f l.
Proof.
  apply filter_keeps_all. intros x Hx. by apply filter_In in Hx as [_ Hx].
Qed.

Lemma cleanZone_rows zoneData rows rows' :
  cleanZone (set_ResourceRecords (cleanZone (set_ResourceRecords zoneData rows)) rows')
  = cleanZone (set_ResourceRecords zoneData rows').
Proof. reflexivity. Qed.

End RowsWritten.

(** X8. Appending [first] and then, on the document that call wrote,
    [second], writes the document that appending [first ++ second] in
    one call writes. *)
Theorem AppendRecords_in_two_calls {lib : Library} {tr : Transport}
    zone first second st zoneData st1 written st' st1' :
  zone <> EmptyString ->
  first <> [] ->
  second <> [] ->
  fetched zone st zoneData st1 ->
  writes (net (snd (AppendRecords zone first st)))
  = (writes (net st1) ++ [written])%list ->
  fetched zone st' written st1' ->
  exists final,
    writes (net (snd (AppendRecords zone second st')))
    = (writes (net st1') ++ [final])%list
    /\ writes (net (snd (AppendRecords zone (first ++ second) st)))
       = (writes (net st1) ++ [final])%list.
Proof.
  intros Hzone Hfirst Hsecond Hfetched Hwritten Hfetched'.
  rewrite (AppendRecords_rows _ _ _ zoneData st1) in Hwritten by done.
  apply app_inj_tail in Hwritten as [_ <-].
  eexists. split.
  - by rewrite (AppendRecords_rows _ _ _ _ st1' Hzone Hsecond Hfetched').
  - rewrite (AppendRecords_rows _ _ _ zoneData st1);
      [|done|by destruct first|done].
    unfold encode. rewrite map_app, app_assoc. reflexivity.
Qed.

Lemma AppendRecords_in_two_calls_witness :
  let tr := Sample.service Sample.exampleURL
              (Sample.exampleZone [Sample.row "test" "TXT" "old"]) false in
  let a := libdns.TXT "a" (300 * Second) "1" in
  let b := libdns.CNAME "b" (300 * Second) "example.net" in
  let once := snd (AppendRecords (lib := Sample.library) (tr := tr)
                     "example.com" [a] Sample.fresh) in
  exists final,
    writes (net (snd (AppendRecords (lib := Sample.library) (tr := tr)
                        "example.com" [b] once)))
    = (writes (net once) ++ [final])%list
    /\ writes (net (snd (AppendRecords (lib := Sample.library) (tr := tr)
                           "example.com" [a; b] Sample.fresh)))
       = [final].
Proof.
  intros tr a b once.
  destruct (AppendRecords_in_two_calls (lib := Sample.library) (tr := tr)
              "example.com" [a] [b] Sample.fresh
              (Sample.exampleZone [Sample.row "test" "TXT" "old"])
              (snd (getZone (tr := tr) "example.com"
                      (withProvider Sample.fresh Sample.ready)))
              (cleanZone (Sample.exampleZone
                 [Sample.row "test" "TXT" "old";
                  Sample.row "a.example.com" "TXT" "1"]))
              once
              (snd (getZone (tr := tr) "example.com" once)))
    as (final & Hsecond & Hboth).
  - discriminate.
  - discriminate.
  - discriminate.
  - exists Sample.ready. split; [vm_compute; reflexivity|].
    split; [vm_compute; reflexivity|]. intros body. reflexivity.
  - vm_compute. reflexivity.
  - exists (prov once). split; [vm_compute; reflexivity|].
    split; [vm_compute; reflexivity|]. intros body. reflexivity.
  - exists final. split; [exact Hsecond|exact Hboth].
Defined.

(** X9. SetRecords is idempotent: called again with the same records on
    the document it wrote, it writes that document again. *)
Theorem SetRecords_idempotent {lib : Library} {tr : Transport}
    zone records st zoneData st1 written st' st1' :
  zone <> EmptyString ->
  records <> [] ->
  fetched zone st zoneData st1 ->
  writes (net (snd (SetRecords zone records st)))
  = (writes (net st1) ++ [written])%list ->
  fetched zone st' written st1' ->
  writes (net (snd (SetRecords zone records st')))
  = (writes (net st1') ++ [written])%list.
Proof.
  intros Hzone Hrecords Hfetched Hwritten Hfetched'.
  rewrite (SetRecords_rows _ _ _ zoneData st1) in Hwritten by done.
  apply app_inj_tail in Hwritten as [_ <-].
  rewrite (SetRecords_rows _ _ _ _ st1' Hzone Hrecords Hfetched'), cleanZone_rows.
  do 3 f_equal. simpl. rewrite List.filter_app, filter_twice.
  rewrite (filter_none (keptBySet zone records) (encode zone records))
    by apply encoded_row_not_keptBySet.
  by rewrite app_nil_r.
Qed.

Lemma SetRecords_idempotent_witness :
  let tr := Sample.service Sample.exampleURL
              (Sample.exampleZone
                 [Sample.row "test" "TXT" "old"; Sample.row "www" "A" "192.0.2.1"])
              false in
  let record := libdns.TXT "test" (300 * Second) "new" in
  let once := snd (SetRecords (lib := Sample.library) (tr := tr)
                     "example.com" [record] Sample.fresh) in
  let document := cleanZone (Sample.exampleZone
                    [Sample.row "www" "A" "192.0.2.1";
                     Sample.row "test.example.com" "TXT" "new"]) in
  writes (net once) = [document]
  /\ writes (net (snd (SetRecords (lib := Sample.library) (tr := tr)
                         "example.com" [record] once)))
     = [document; document].
Proof.
  intros tr record once document. split; [vm_compute; reflexivity|].
  rewrite (SetRecords_idempotent (lib := Sample.library) (tr := tr)
             "example.com" [record] Sample.fresh
             (Sample.exampleZone
                [Sample.row "test" "TXT" "old"; Sample.row "www" "A" "192.0.2.1"])
             (snd (getZone (tr := tr) "example.com"
                     (withProvider Sample.fresh Sample.ready)))
             document once
             (snd (getZone (tr := tr) "example.com" once))).
  - vm_compute. reflexivity.
  - discriminate.
  - discriminate.
  - exists Sample.ready. split; [vm_compute; reflexivity|].
    split; [vm_compute; reflexivity|]. intros body. reflexivity.
  - vm_compute. reflexivity.
  - exists (prov once). split; [vm_compute; reflexivity|].
    split; [vm_compute; reflexivity|]. intros body. reflexivity.
Defined.

(** X10. DeleteRecords is idempotent: called again with the same
    records on the document it wrote, it writes that document again. *)
Theorem DeleteRecords_idempotent {lib : Library} {tr : Transport}
    zone records st zoneData st1 written st' st1' :
  zone <> EmptyString ->
  records <> [] ->
  fetched zone st zoneData st1 ->
  writes (net (snd (DeleteRecords zone records st)))
  = (writes (net st1) ++ [written])%list ->
  fetched zone st' written st1' ->
  writes (net (snd (DeleteRecords zone records st')))
  = (writes (net st1') ++ [written])%list.
Proof.
  intros Hzone Hrecords Hfetched Hwritten Hfetched'.
  rewrite (DeleteRecords_rows _ _ _ zoneData st1) in Hwritten by done.
  apply app_inj_tail in Hwritten as [_ <-].
  rewrite (DeleteRecords_rows _ _ _ _ st1' Hzone Hrecords Hfetched'), cleanZone_rows.
  simpl. by rewrite filter_twice.
Qed.

Lemma DeleteRecords_idempotent_witness :
  let tr := Sample.service Sample.exampleURL
              (Sample.exampleZone
                 [Sample.row "test" "TXT" "old"; Sample.row "www" "A" "192.0.2.1"])
              false in
  let record := libdns.TXT "test" (300 * Second) "old" in
  let once := snd (DeleteRecords (lib := Sample.library) (tr := tr)
                     "example.com" [record] Sample.fresh) in
  let document := cleanZone (Sample.exampleZone [Sample.row "www" "A" "192.0.2.1"]) in
  writes (net once) = [document]
  /\ writes (net (snd (DeleteRecords (lib := Sample.library) (tr := tr)
                         "example.com" [record] once)))
     = [document; document].
Proof.
  intros tr record once document. split; [vm_compute; reflexivity|].
  rewrite (DeleteRecords_idempotent (lib := Sample.library) (tr := tr)
             "example.com" [record] Sample.fresh
             (Sample.exampleZone
                [Sample.row "test" "TXT" "old"; Sample.row "www" "A" "192.0.2.1"])
             (snd (getZone (tr := tr) "example.com"
                     (withProvider Sample.fresh Sample.ready)))
             document once
             (snd (getZone (tr := tr) "example.com" once))).
  - vm_compute. reflexivity.
  - discriminate.
  - discriminate.
  - exists Sample.ready. split; [vm_compute; reflexivity|].
    split; [vm_compute; reflexivity|]. intros body. reflexivity.
  - vm_compute. reflexivity.
  - exists (prov once). split; [vm_compute; reflexivity|].
    split; [vm_compute; reflexivity|]. intros body. reflexivity.
Defined.

(** X11. Deleting the records just appended restores the rows: when the
    filter of DeleteRecords keeps every row the zone had, AppendRecords
    followed, on the document it wrote, by DeleteRecords of the same
    records writes a document whose rows are the rows the zone had
    before. *)
Theorem AppendRecords_then_DeleteRecords {lib : Library} {tr : Transport}
    zone records st zoneData st1 written st' st1' :
  zone <> EmptyString ->
  records <> [] ->
  fetched zone st zoneData st1 ->
  Forall (fun rr => keptByDelete zone records rr = true)
         (zone_ResourceRecords zoneData) ->
  writes (net (snd (AppendRecords zone records st)))
  = (writes (net st1) ++ [written])%list ->
  fetched zone st' written st1' ->
  exists final,
    writes (net (snd (DeleteRecords zone records st')))
    = (writes (net st1') ++ [final])%list
    /\ zone_ResourceRecords final = zone_ResourceRecords zoneData.
Proof.
  intros Hzone Hrecords Hfetched Hkept Hwritten Hfetched'.
  rewrite (AppendRecords_rows _ _ _ zoneData st1) in Hwritten by done.
  apply app_inj_tail in Hwritten as [_ <-].
  rewrite (DeleteRecords_rows _ _ _ _ st1' Hzone Hrecords Hfetched').
  eexists. split; [reflexivity|].
  simpl. rewrite List.filter_app.
  rewrite (filter_none (keptByDelete zone records) (encode zone records))
    by apply encoded_row_not_keptByDelete.
  rewrite app_nil_r. apply filter_keeps_all.
  intros rr Hrr. rewrite Forall_forall in Hkept. by apply Hkept, list_elem_of_In.
Qed.

Lemma AppendRecords_then_DeleteRecords_witness :
  let existing :=
    [{| rr_Name := "test"; rr_TTL := 300; rr_Type := "TXT"; rr_Value := "old";
        rr_Pref := 0; rr_Raw := EmptyString |};
     {| rr_Name := "www"; rr_TTL := 300; rr_Type := "A"; rr_Value := "192.0.2.1";
        rr_Pref := 0; rr_Raw := EmptyString |}] in
  let tr := Sample.service Sample.exampleURL (Sample.exampleZone existing) false in
  let record := libdns.TXT "_acme-challenge" (60 * Second) "token" in
  let appended := snd (AppendRecords (lib := Sample.library) (tr := tr)
                         "example.com" [record] Sample.fresh) in
  map zone_ResourceRecords
      (writes (net (snd (DeleteRecords (lib := Sample.library) (tr := tr)
                           "example.com" [record] appended))))
  = [(existing
      ++ [{| rr_Name := "_acme-challenge.example.com"; rr_TTL := 60;
             rr_Type := "TXT"; rr_Value := "token"; rr_Pref := 0;
             rr_Raw := EmptyString |}])%list;
     existing].
Proof.
  intros existing tr record appended.
  destruct (AppendRecords_then_DeleteRecords (lib := Sample.library) (tr := tr)
              "example.com" [record] Sample.fresh (Sample.exampleZone existing)
              (snd (getZone (tr := tr) "example.com"
                      (withProvider Sample.fresh Sample.ready)))
              (cleanZone (Sample.exampleZone
                 (existing ++ [{| rr_Name := "_acme-challenge.example.com";
                                  rr_TTL := 60; rr_Type := "TXT";
                                  rr_Value := "token"; rr_Pref := 0;
                                  rr_Raw := EmptyString |}])))
              appended
              (snd (getZone (tr := tr) "example.com" appended)))
    as (final & Hwrites & Hrows).
  - discriminate.
  - discriminate.
  - exists Sample.ready. split; [vm_compute; reflexivity|].
    split; [vm_compute; reflexivity|]. intros body. reflexivity.
  - repeat constructor.
  - vm_compute. reflexivity.
  - exists (prov appended). split; [vm_compute; reflexivity|].
    split; [vm_compute; reflexivity|]. intros body. reflexivity.
  - rewrite Hwrites, List.map_app. simpl (map _ [final]). rewrite Hrows.
    vm_compute. reflexivity.
Defined.

Section OtherTypes.
Context {lib : Library}.

Lemma encoded_Type_known record zone :
  In (rr_Type (libdnsRecordToResourceRecord record zone)) encodedTypes.
Proof. destruct record; simpl; auto 10. Qed.

Lemma existsb_none {A} (f : A -> bool) (l : list A) :
  (forall x, In x l -> f x = false) -> existsb f l = false.
Proof.
  induction l as [|x l IH]; intros Hf; simpl; [done|].
  rewrite (Hf x) by (by left). apply IH. intros y Hy. apply Hf. by right.
Qed.

Lemma key2_of_other_type t n t' n' :
  noColon t = true -> noColon t' = true -> t <> t' ->
  String.eqb (key2 t n) (key2 t' n') = false.
Proof.
  intros Ht Ht' Hne. rewrite key2_eqb by done.
  by destruct (String.eqb_spec t t').
Qed.

Lemma other_type_differs zone r rr :
  ~ In (rr_Type rr) encodedTypes ->
  rr_Type rr <> rr_Type (libdnsRecordToResourceRecord r zone).
Proof. intros Hother Heq. apply Hother. rewrite Heq. apply encoded_Type_known. Qed.

Lemma other_type_keptBySet zone records rr :
  noColon (rr_Type rr) = true ->
  ~ In (rr_Type rr) encodedTypes ->
  keptBySet zone records rr = true.
Proof.
  intros Hcolon Hother. unfold keptBySet. apply negb_true_iff.
  rewrite recordsToReplace_lookup, convertRecords_map.
  apply existsb_none. intros new Hnew.
  apply in_map_iff in Hnew as (r & <- & _).
  by rewrite !(key2_of_other_type (rr_Type rr) _
                 (rr_Type (libdnsRecordToResourceRecord r zone)))
    by auto using encoded_Type_noColon, other_type_differs.
Qed.

Lemma other_type_keptByDelete zone records rr :
  noColon (rr_Type rr) = true ->
  ~ In (rr_Type rr) encodedTypes ->
  keptByDelete zone records rr = true.
Proof.
  intros Hcolon Hother. unfold keptByDelete. apply negb_true_iff.
  rewrite recordsToDelete_lookup.
  apply existsb_none. intros r _. simpl.
  change (key3 ?t ?n ?v) with (key2 t (key2 n v)).
  by rewrite !(key2_of_other_type (rr_Type rr) _
                 (rr_Type (libdnsRecordToResourceRecord r zone)))
    by auto using encoded_Type_noColon, other_type_differs.
Qed.

End OtherTypes.

(** X12. A row whose Type is none of those the encoder writes (and has
    no [":"]), such as an AAAA, HTTPS or PTR row, is matched by no caller
    record: SetRecords and DeleteRecords write it back whatever the
    records they are given. *)
Theorem rows_of_other_types_are_never_removed {lib : Library} {tr : Transport}
    zone records st zoneData st1 rr :
  zone <> EmptyString ->
  records <> [] ->
  fetched zone st zoneData st1 ->
  In rr (zone_ResourceRecords zoneData) ->
  noColon (rr_Type rr) = true ->
  ~ In (rr_Type rr) encodedTypes ->
  (exists written,
      writes (net (snd (SetRecords zone records st)))
      = (writes (net st1) ++ [written])%list
      /\ In rr (zone_ResourceRecords written))
  /\ (exists written,
        writes (net (snd (DeleteRecords zone records st)))
        = (writes (net st1) ++ [written])%list
        /\ In rr (zone_ResourceRecords written)).
Proof.
  intros Hzone Hrecords Hfetched Hin Hcolon Hother. split.
  - eexists. split; [by apply SetRecords_rows|]. simpl.
    apply in_or_app. left. apply filter_In. split; [done|].
    by apply other_type_keptBySet.
  - eexists. split; [by apply DeleteRecords_rows|]. simpl.
    apply filter_In. split; [done|]. by apply other_type_keptByDelete.
Qed.

Lemma rows_of_other_types_are_never_removed_witness :
  let v6 := Sample.row "host.example.com" "AAAA" "2001:db8::1" in
  let tr := Sample.service Sample.exampleURL (Sample.exampleZone [v6]) false in
  let record := libdns.Address "host" (300 * Second)
                  (netip.Addr6 8193 3512 0 0 0 0 0 1 EmptyString) in
  writes (net (snd (SetRecords (lib := Sample.library) (tr := tr)
                      "example.com" [record] Sample.fresh)))
  = [cleanZone (Sample.exampleZone
       [v6; Sample.row "host.example.com" "A" "2001:db8::1"])]
  /\ writes (net (snd (DeleteRecords (lib := Sample.library) (tr := tr)
                         "example.com" [record] Sample.fresh)))
     = [cleanZone (Sample.exampleZone [v6])].
Proof.
  intros v6 tr record.
  destruct (rows_of_other_types_are_never_removed
              (lib := Sample.library) (tr := tr)
              "example.com" [record] Sample.fresh (Sample.exampleZone [v6])
              (snd (getZone (tr := tr) "example.com"
                      (withProvider Sample.fresh Sample.ready)))
              v6)
    as [(set & Hset & _) (del & Hdel & _)].
  - discriminate.
  - discriminate.
  - exists Sample.ready. split; [vm_compute; reflexivity|].
    split; [vm_compute; reflexivity|]. intros body. reflexivity.
  - by left.
  - reflexivity.
  - vm_compute. intuition discriminate.
  - split; vm_compute; reflexivity.
Defined.

(** X13. The document AppendRecords, SetRecords or DeleteRecords writes
    carries the origin, SOA, name servers, www-include flag, virtual
    name server, action and ROID of the document fetched, and zero
    timestamps: only the rows differ. *)
Theorem written_document_keeps_the_zone {lib : Library} {tr : Transport}
    what Op zone records st zoneData st1 :
  In (what, Op) mutatingOperations ->
  zone <> EmptyString ->
  records <> [] ->
  fetched zone st zoneData st1 ->
  exists rows,
    writes (net (snd (Op zone records st)))
    = (writes (net st1)
       ++ [{| zone_Created := 0;
              zone_Updated := 0;
              zone_Origin := zone_Origin zoneData;
              zone_SOA := zone_SOA zoneData;
              zone_NameServers := zone_NameServers zoneData;
              zone_WWWInclude := zone_WWWInclude zoneData;
              zone_VirtualNameServer := zone_VirtualNameServer zoneData;
              zone_Action := zone_Action zoneData;
              zone_ResourceRecords := rows;
              zone_ROID := zone_ROID zoneData |}])%list.
Proof.
  intros [[= <- <-]|[[= <- <-]|[[= <- <-]|[]]]] Hzone Hrecords Hfetched.
  - eexists. by rewrite (AppendRecords_rows _ _ _ zoneData st1).
  - eexists. by rewrite (SetRecords_rows _ _ _ zoneData st1).
  - eexists. by rewrite (DeleteRecords_rows _ _ _ zoneData st1).
Qed.

Lemma written_document_keeps_the_zone_witness :
  let fetched := {| zone_Created := 1702909518; zone_Updated := 1702909518;
                    zone_Origin := "example.com";
                    zone_SOA := Some {| soa_Refresh := 43200; soa_Retry := 7200;
                                        soa_Expire := 1209600; soa_TTL := 86400;
                                        soa_Email := "hostmaster@example.com" |};
                    zone_NameServers := [{| ns_Name := "a.ns14.net"; ns_TTL := 86400;
                                            ns_IPAddresses := [] |}];
                    zone_WWWInclude := true;
                    zone_VirtualNameServer := "a.ns14.net";
                    zone_Action := "COMPLETE";
                    zone_ResourceRecords := [Sample.row "test" "TXT" "old"];
                    zone_ROID := 7 |} in
  let tr := Sample.service Sample.exampleURL fetched false in
  let record := libdns.TXT "test" (300 * Second) "old" in
  writes (net (snd (DeleteRecords (lib := Sample.library) (tr := tr)
                      "example.com" [record] Sample.fresh)))
  = [{| zone_Created := 0; zone_Updated := 0;
        zone_Origin := "example.com";
        zone_SOA := zone_SOA fetched;
        zone_NameServers := zone_NameServers fetched;
        zone_WWWInclude := true;
        zone_VirtualNameServer := "a.ns14.net";
        zone_Action := "COMPLETE";
        zone_ResourceRecords := [];
        zone_ROID := 7 |}].
Proof.
  intros fetched tr record.
  destruct (written_document_keeps_the_zone (lib := Sample.library) (tr := tr)
              "failed to delete records from zone "
              (DeleteRecords (lib := Sample.library) (tr := tr))
              "example.com" [record] Sample.fresh fetched
              (snd (getZone (tr := tr) "example.com"
                      (withProvider Sample.fresh Sample.ready))))
    as [rows Hrows].
  - right. right. left. reflexivity.
  - discriminate.
  - discriminate.
  - exists Sample.ready. split; [vm_compute; reflexivity|].
    split; [vm_compute; reflexivity|]. intros body. reflexivity.
  - vm_compute. reflexivity.
Defined.

(** ** Set and Delete, on pairs and triples *)

(** X22. When no existing row has a [":"] in its Type, the document
    SetRecords writes holds, in their order, the existing rows whose
    (Type, Name) pair is the pair of no encoded caller record, neither
    under its encoded name nor under that name less the suffix
    [.zone], followed by the encoded caller rows in caller order. The
    Value of a row plays no part. *)
Theorem SetRecords_replaces_type_and_name {lib : Library} {tr : Transport}
    zone records st zoneData st1 :
  zone <> EmptyString ->
  records <> [] ->
  fetched zone st zoneData st1 ->
  Forall (fun rr => noColon (rr_Type rr) = true) (zone_ResourceRecords zoneData) ->
  exists written,
    writes (net (snd (SetRecords zone records st)))
    = (writes (net st1) ++ [written])%list
    /\ zone_ResourceRecords written
       = (List.filter
            (fun rr => negb (replacedBy zone (encode zone records) rr))
            (zone_ResourceRecords zoneData)
          ++ encode zone records)%list.
Proof.
  intros Hzone Hrecords (p0 & Hinit & Hget & Hput) Hrows.
  rewrite SetRecords_mutating, (mutating_run _ _ _ _ _ p0) by done. simpl.
  rewrite (setRecords_net _ _ _ zoneData st1) by done.
  rewrite writes_put. eexists. split; reflexivity.
Qed.

Lemma SetRecords_replaces_type_and_name_witness :
  let existing :=
    [Sample.row "test" "TXT" "old";
     Sample.row "www" "A" "192.0.2.1";
     Sample.row "test.example.com" "TXT" "older";
     Sample.row "test" "A" "192.0.2.2"] in
  let tr := Sample.service Sample.exampleURL (Sample.exampleZone existing) false in
  let record := libdns.TXT "test" (900 * Second) "new" in
  map zone_ResourceRecords
      (writes (net (snd (SetRecords (lib := Sample.library) (tr := tr)
                           "example.com" [record] Sample.fresh))))
  = [[{| rr_Name := "www"; rr_TTL := 300; rr_Type := "A";
         rr_Value := "192.0.2.1"; rr_Pref := 0; rr_Raw := EmptyString |};
      {| rr_Name := "test"; rr_TTL := 300; rr_Type := "A";
         rr_Value := "192.0.2.2"; rr_Pref := 0; rr_Raw := EmptyString |};
      {| rr_Name := "test.example.com"; rr_TTL := 900; rr_Type := "TXT";
         rr_Value := "new"; rr_Pref := 0; rr_Raw := EmptyString |}]].
Proof.
  intros existing tr record.
  destruct (SetRecords_replaces_type_and_name (lib := Sample.library) (tr := tr)
              "example.com" [record] Sample.fresh (Sample.exampleZone existing)
              (snd (getZone (tr := tr) "example.com"
                      (withProvider Sample.fresh Sample.ready))))
    as (written & Hwrites & Hrows).
  - discriminate.
  - discriminate.
  - exists Sample.ready. split; [vm_compute; reflexivity|].
    split; [vm_compute; reflexivity|]. intros body. reflexivity.
  - repeat constructor.
  - rewrite Hwrites, List.map_app. simpl (map _ [written]). rewrite Hrows.
    vm_compute. reflexivity.
Defined.

(** The keys are the strings [Type:Name]: a row whose Type has a [":"]
    is removed although its (Type, Name) pair is the pair of no caller
    record, since ["TXT:a" ":" "b"] reads like ["TXT" ":" "a:b"]. *)
Example SetRecords_key_collision :
  let existing := [Sample.row "b" "TXT:a" "kept"] in
  let tr := Sample.service Sample.exampleURL (Sample.exampleZone existing) false in
  let record := libdns.TXT "a:b" (300 * Second) "new" in
  let newRecords := encode (lib := Sample.library) "example.com" [record] in
  List.filter (fun rr => negb (replacedBy "example.com" newRecords rr)) existing
  = existing
  /\ map zone_ResourceRecords
         (writes (net (snd (SetRecords (lib := Sample.library) (tr := tr)
                              "example.com" [record] Sample.fresh))))
     = [[{| rr_Name := "a:b.example.com"; rr_TTL := 300; rr_Type := "TXT";
            rr_Value := "new"; rr_Pref := 0; rr_Raw := EmptyString |}]].
Proof. vm_compute. split; reflexivity. Qed.

(** X23. When no existing row has a [":"] in its Type or Name and no
    encoded caller record has one in its Name, the document
    DeleteRecords writes holds, in their order, the existing rows whose
    (Type, Name, Value) triple is the triple of no encoded caller record,
    neither under its encoded name nor under that name less the suffix
    [.zone]. A row that differs from every caller record in its Value
    is kept, and the rows are written back unchanged when no Value
    matches. *)
Theorem DeleteRecords_removes_exact_triples {lib : Library} {tr : Transport}
    zone records st zoneData st1 :
  zone <> EmptyString ->
  records <> [] ->
  fetched zone st zoneData st1 ->
  Forall (fun rr => noColon (rr_Type rr) = true /\ noColon (rr_Name rr) = true)
         (zone_ResourceRecords zoneData) ->
  Forall (fun new => noColon (rr_Name new) = true) (encode zone records) ->
  exists written,
    writes (net (snd (DeleteRecords zone records st)))
    = (writes (net st1) ++ [written])%list
    /\ zone_ResourceRecords written
       = List.filter
           (fun rr => negb (deletedBy zone (encode zone records) rr))
           (zone_ResourceRecords zoneData)
    /\ (forall rr, In rr (zone_ResourceRecords zoneData) ->
          (forall del, In del (encode zone records) -> rr_Value rr <> rr_Value del) ->
          In rr (zone_ResourceRecords written))
    /\ ((forall rr del, In rr (zone_ResourceRecords zoneData) ->
           In del (encode zone records) -> rr_Value rr <> rr_Value del) ->
        zone_ResourceRecords written = zone_ResourceRecords zoneData).
Proof.
  intros Hzone Hrecords (p0 & Hinit & Hget & Hput) Hrows Hnew.
  assert (Hkeep : forall rr,
             (forall del, In del (encode zone records) ->
                          rr_Value rr <> rr_Value del) ->
             negb (deletedBy zone (encode zone records) rr) = true).
  { intros rr Hval. apply negb_true_iff.
    destruct (deletedBy zone (encode zone records) rr) eqn:Hdel; [|done].
    apply existsb_exists in Hdel as (del & Hin & Hmatch).
    apply andb_true_iff in Hmatch as [_ Hv]. apply String.eqb_eq in Hv.
    by destruct (Hval del Hin). }
  rewrite DeleteRecords_mutating, (mutating_run _ _ _ _ _ p0) by done. simpl.
  rewrite (deleteRecords_net _ _ _ zoneData st1) by done.
  rewrite writes_put. eexists. split; [reflexivity|]. simpl.
  split; [reflexivity|]. split.
  - intros rr Hin Hval. apply filter_In. split; [done|]. by apply Hkeep.
  - intros Hval. apply filter_keeps_all. intros rr Hin.
    apply Hkeep. intros del Hdel. by apply Hval.
Qed.

Lemma DeleteRecords_removes_exact_triples_witness :
  let existing :=
    [Sample.row "test" "TXT" "keep";
     Sample.row "test" "TXT" "gone";
     Sample.row "test.example.com" "TXT" "gone";
     Sample.row "test" "A" "192.0.2.2"] in
  let tr := Sample.service Sample.exampleURL (Sample.exampleZone existing) false in
  let record := libdns.TXT "test" (300 * Second) "gone" in
  map zone_ResourceRecords
      (writes (net (snd (DeleteRecords (lib := Sample.library) (tr := tr)
                           "example.com" [record] Sample.fresh))))
  = [[{| rr_Name := "test"; rr_TTL := 300; rr_Type := "TXT";
         rr_Value := "keep"; rr_Pref := 0; rr_Raw := EmptyString |};
      {| rr_Name := "test"; rr_TTL := 300; rr_Type := "A";
         rr_Value := "192.0.2.2"; rr_Pref := 0; rr_Raw := EmptyString |}]].
Proof.
  intros existing tr record.
  destruct (DeleteRecords_removes_exact_triples
              (lib := Sample.library) (tr := tr)
              "example.com" [record] Sample.fresh (Sample.exampleZone existing)
              (snd (getZone (tr := tr) "example.com"
                      (withProvider Sample.fresh Sample.ready))))
    as (written & Hwrites & Hrows & _).
  - discriminate.
  - discriminate.
  - exists Sample.ready. split; [vm_compute; reflexivity|].
    split; [vm_compute; reflexivity|]. intros body. reflexivity.
  - repeat constructor.
  - repeat constructor.
  - rewrite Hwrites, List.map_app. simpl (map _ [written]). rewrite Hrows.
    vm_compute. reflexivity.
Defined.

(** The keys are the strings [Type:Name:Value]: a [":"] in a name or a
    value moves the boundary between the two, and a row is removed
    although it differs from the caller record in Name and in Value. *)
Example DeleteRecords_key_collision :
  let existing := [Sample.row "mail" "TXT" "ip4:192.0.2.1"] in
  let tr := Sample.service Sample.exampleURL (Sample.exampleZone existing) false in
  let record := libdns.TXT "mail:ip4" (300 * Second) "192.0.2.1" in
  let callerRows := encode (lib := Sample.library) "example.com" [record] in
  List.filter (fun rr => negb (deletedBy "example.com" callerRows rr)) existing
  = existing
  /\ map zone_ResourceRecords
         (writes (net (snd (DeleteRecords (lib := Sample.library) (tr := tr)
                              "example.com" [record] Sample.fresh))))
     = [[]].
Proof. vm_compute. split; reflexivity. Qed.

(** ** Round trips of the codec *)

Lemma int64_small z : - 2 ^ 63 <= z < 2 ^ 63 -> int64 z = z.
Proof. intros Hz. unfold int64. rewrite Z.mod_small; lia. Qed.

Lemma wholeSeconds_range ttl :
  - 2 ^ 63 <= ttl < 2 ^ 63 ->
  - 2 ^ 63 <= wholeSeconds ttl < 2 ^ 63.
Proof.
  intros Httl. unfold wholeSeconds, Second.
  pose proof (Z.quot_rem' ttl 1000000000) as Hqr.
  destruct (Z.le_gt_cases 0 ttl) as [Hpos|Hneg].
  - pose proof (Z.rem_bound_pos ttl 1000000000 Hpos ltac:(lia)). lia.
  - pose proof (Z.rem_bound_pos_neg ttl 1000000000 ltac:(lia) ltac:(lia)). lia.
Qed.

Lemma ttl_round_trip ttl :
  - 2 ^ 63 <= ttl < 2 ^ 63 ->
  int64 (seconds ttl * Second) = wholeSeconds ttl.
Proof. intros Httl. apply int64_small. by apply wholeSeconds_range. Qed.

Lemma wholeSeconds_exact k : wholeSeconds (k * Second) = k * Second.
Proof. unfold wholeSeconds, Second. by rewrite Z.quot_mul. Qed.

(** X14. A TXT, CNAME, NS or MX record that is encoded and decoded again
    comes back with its text or target (and, for MX, its preference), its
    TTL cut to whole seconds, and the name libdns gives it relative to
    the zone. *)
Theorem plain_records_round_trip {lib : Library} name ttl value preference zone :
  - 2 ^ 63 <= ttl < 2 ^ 63 ->
  0 <= preference < 2 ^ 16 ->
  let back := fun record =>
    libdnsRecord (libdnsRecordToResourceRecord record zone) zone in
  let name' := RelativeName (AbsoluteName name zone) zone in
  back (libdns.TXT name ttl value)
  = (libdns.TXT name' (wholeSeconds ttl) value, None)
  /\ back (libdns.CNAME name ttl value)
     = (libdns.CNAME name' (wholeSeconds ttl) value, None)
  /\ back (libdns.NS name ttl value)
     = (libdns.NS name' (wholeSeconds ttl) value, None)
  /\ back (libdns.MX name ttl preference value)
     = (libdns.MX name' (wholeSeconds ttl) preference value, None).
Proof.
  intros Httl Hpref back name'. unfold back, name', libdnsRecord. simpl.
  rewrite (ttl_round_trip ttl Httl).
  unfold uint16. rewrite (Z.mod_small preference) by done. done.
Qed.

Lemma plain_records_round_trip_witness :
  libdnsRecord (lib := Sample.library)
    (libdnsRecordToResourceRecord (lib := Sample.library)
       (libdns.MX "mail" 3600500000000 10 "mx.example.net") "example.com")
    "example.com"
  = (libdns.MX "mail" (3600 * Second) 10 "mx.example.net", None).
Proof.
  destruct (plain_records_round_trip (lib := Sample.library)
              "mail" 3600500000000 "mx.example.net" 10 "example.com")
    as (_ & _ & _ & Hmx).
  - vm_compute. split; [discriminate|reflexivity].
  - vm_compute. split; [discriminate|reflexivity].
  - rewrite Hmx. reflexivity.
Defined.

(** X15. An Address record that is encoded and decoded again comes back
    with its address, whatever the family, when [netip.ParseAddr] reads
    the text [Addr.String] writes: the row of an IPv6 address has Type
    ["A"], which the decoder parses like ["AAAA"]. *)
Theorem Address_round_trip {lib : Library} name ttl ip zone :
  - 2 ^ 63 <= ttl < 2 ^ 63 ->
  ParseAddr (netip.String ip) = (ip, None) ->
  libdnsRecord (libdnsRecordToResourceRecord (libdns.Address name ttl ip) zone) zone
  = (libdns.Address (RelativeName (AbsoluteName name zone) zone)
                    (wholeSeconds ttl) ip, None).
Proof.
  intros Httl Hparse. unfold libdnsRecord. simpl.
  by rewrite Hparse, (ttl_round_trip ttl Httl).
Qed.

Lemma Address_round_trip_witness :
  libdnsRecord (lib := Sample.library)
    (libdnsRecordToResourceRecord (lib := Sample.library)
       (libdns.Address "www" (300 * Second) (netip.Addr4 192 0 2 1)) "example.com")
    "example.com"
  = (libdns.Address "www" (300 * Second) (netip.Addr4 192 0 2 1), None).
Proof.
  rewrite (Address_round_trip (lib := Sample.library)).
  - reflexivity.
  - vm_compute. split; [discriminate|reflexivity].
  - reflexivity.
Defined.

(** ** Strings the codec builds and cuts *)

Lemma str_cons_app x (a b : string) : String x a ++ b = String x (a ++ b).
Proof. reflexivity. Qed.

Lemma str_nil_app (b : string) : EmptyString ++ b = b.
Proof. reflexivity. Qed.

Lemma str_app_assoc (a b c : string) : (a ++ b) ++ c = a ++ (b ++ c).
Proof.
  induction a as [|x a IH]; [done|]. rewrite !str_cons_app. by f_equal.
Qed.

Lemma str_app_empty (a : string) : a ++ EmptyString = a.
Proof. induction a as [|x a IH]; [done|]. rewrite str_cons_app. by f_equal. Qed.

Lemma str_length_app (a b : string) :
  String.length (a ++ b) = (String.length a + String.length b)%nat.
Proof.
  induction a as [|x a IH]; [done|]. rewrite str_cons_app. simpl. by f_equal.
Qed.

Lemma substring_head (w r : string) :
  String.substring 0 (String.length w) (w ++ r) = w.
Proof.
  induction w as [|x w IH]; [by destruct r|].
  rewrite str_cons_app. simpl. by f_equal.
Qed.

Lemma substring_tail (w r : string) :
  String.substring (String.length w) (String.length r) (w ++ r) = r.
Proof.
  induction w as [|x w IH]; [|by rewrite str_cons_app].
  rewrite str_nil_app. simpl.
  induction r as [|y r IHr]; simpl; [done|]. by rewrite IHr.
Qed.

(** Fields of ASCII text *)

Lemma isASCII_app a b : isASCII (a ++ b) = isASCII a && isASCII b.
Proof.
  induction a as [|c a IH]; [done|]. rewrite str_cons_app. simpl.
  by rewrite IH, andb_assoc.
Qed.

Lemma lor_below_RuneSelf a b :
  0 <= a < 128 -> 0 <= b < 128 -> 0 <= Z.lor a b < 128.
Proof.
  intros Ha Hb. split; [apply Z.lor_nonneg; lia|].
  destruct (Z.eq_dec a 0) as [->|Hne]; [rewrite Z.lor_0_l; lia|].
  destruct (Z.eq_dec b 0) as [->|Hne']; [rewrite Z.lor_0_r; lia|].
  assert (0 < Z.lor a b) as Hpos.
  { assert (0 <= Z.lor a b) by (apply Z.lor_nonneg; lia).
    destruct (Z.eq_dec (Z.lor a b) 0) as [Hz|]; [|lia].
    apply Z.lor_eq_0_iff in Hz. lia. }
  change 128 with (2 ^ 7). apply Z.log2_lt_pow2; [done|].
  rewrite Z.log2_lor by lia.
  apply Z.max_lub_lt; apply Z.log2_lt_pow2; change (2 ^ 7) with 128; lia.
Qed.

Lemma setBits_ascii s : isASCII s = true -> 0 <= strings.setBits s < 128.
Proof.
  induction s as [|c s IH]; simpl; [lia|]. intros Hs.
  apply andb_true_iff in Hs as [Hc Hs]. apply Z.ltb_lt in Hc.
  unfold utf8.RuneSelf in Hc.
  apply lor_below_RuneSelf; [|by apply IH]. unfold utf8.byte in *. lia.
Qed.

(** ASCII text takes the ASCII path of [strings.Fields]. *)
Lemma Fields_ascii s :
  isASCII s = true -> strings.Fields s = strings.fieldsFrom s EmptyString.
Proof.
  intros Hs. unfold strings.Fields.
  pose proof (setBits_ascii s Hs) as Hbits.
  destruct (Z.leb_spec utf8.RuneSelf (strings.setBits s)) as [Hle|_]; [|done].
  unfold utf8.RuneSelf in Hle. lia.
Qed.

(** Fields of words *)

Lemma isWord_cons c w :
  isWord (String c w) = true ->
  strings.asciiSpace c = false
  /\ (w = EmptyString \/ isWord w = true).
Proof.
  unfold isWord. simpl. intros Hw.
  apply andb_true_iff in Hw as [Hc Hw]. apply negb_true_iff in Hc.
  split; [done|]. destruct w as [|d w]; [by left|]. by right.
Qed.

Lemma fieldsFrom_word w rest cur :
  isWord w = true ->
  strings.fieldsFrom (w ++ rest) cur = strings.fieldsFrom rest (cur ++ w).
Proof.
  revert cur. induction w as [|c w IH]; intros cur Hw; [done|].
  apply isWord_cons in Hw as [Hc Hw]. rewrite str_cons_app. simpl. rewrite Hc.
  destruct Hw as [-> | Hw].
  - done.
  - rewrite IH by done. by rewrite str_app_assoc.
Qed.

Lemma fieldsFrom_space w rest :
  isWord w = true ->
  strings.fieldsFrom (String " " rest) w = w :: strings.fieldsFrom rest EmptyString.
Proof. intros Hw. simpl. by destruct w. Qed.

Lemma Fields_three a b c :
  isASCII a = true -> isASCII b = true -> isASCII c = true ->
  isWord a = true -> isWord b = true -> isWord c = true ->
  strings.Fields (a ++ " " ++ b ++ " " ++ c) = [a; b; c].
Proof.
  intros Ha' Hb' Hc' Ha Hb Hc.
  rewrite Fields_ascii by (by rewrite !isASCII_app, Ha', Hb', Hc').
  rewrite fieldsFrom_word by done. rewrite str_nil_app.
  change (" " ++ b ++ " " ++ c) with (String " " (b ++ String " " c)).
  rewrite fieldsFrom_space by done. f_equal.
  rewrite fieldsFrom_word by done. rewrite str_nil_app.
  rewrite fieldsFrom_space by done. f_equal.
  replace c with (c ++ EmptyString) at 1 by apply str_app_empty.
  rewrite fieldsFrom_word by done. rewrite str_nil_app. simpl. by destruct c.
Qed.

(** Numbers and their decimal text *)

Lemma holdsFrom_spec f n z k :
  holdsFrom f n z = true -> z <= k < z + Z.of_nat n -> f k = true.
Proof.
  revert z. induction n as [|n IH]; intros z Hall Hk; [lia|].
  simpl in Hall. apply andb_true_iff in Hall as [Hz Hall].
  destruct (Z.eq_dec k z) as [->|Hne]; [done|].
  apply (IH (z + 1)); [done|lia].
Qed.

Lemma uint16_text n :
  0 <= n < 65536 ->
  strconv.ParseUint10 (strconv.Itoa n) 16 = inl n
  /\ isWord (strconv.Itoa n) = true
  /\ isASCII (strconv.Itoa n) = true.
Proof.
  intros Hn.
  assert (Hall :
    holdsFrom
      (fun k =>
         match strconv.ParseUint10 (strconv.Itoa k) 16 with
         | inl v => (v =? k) && isWord (strconv.Itoa k) && isASCII (strconv.Itoa k)
         | inr _ => false
         end)
      (Z.to_nat 65536) 0 = true) by (vm_compute; reflexivity).
  apply holdsFrom_spec with (k := n) in Hall; [|lia].
  destruct (strconv.ParseUint10 (strconv.Itoa n) 16) as [v|err]; [|done].
  apply andb_true_iff in Hall as [Hall Ha].
  apply andb_true_iff in Hall as [Hv Hw]. apply Z.eqb_eq in Hv. by subst.
Qed.

Lemma uint8_text n :
  0 <= n < 256 ->
  strconv.ParseUint10 (strconv.Itoa n) 8 = inl n
  /\ isWord (strconv.Itoa n) = true
  /\ isASCII (strconv.Itoa n) = true.
Proof.
  intros Hn.
  assert (Hall :
    holdsFrom
      (fun k =>
         match strconv.ParseUint10 (strconv.Itoa k) 8 with
         | inl v => (v =? k) && isWord (strconv.Itoa k) && isASCII (strconv.Itoa k)
         | inr _ => false
         end)
      (Z.to_nat 256) 0 = true) by (vm_compute; reflexivity).
  apply holdsFrom_spec with (k := n) in Hall; [|lia].
  destruct (strconv.ParseUint10 (strconv.Itoa n) 8) as [v|err]; [|done].
  apply andb_true_iff in Hall as [Hall Ha].
  apply andb_true_iff in Hall as [Hv Hw]. apply Z.eqb_eq in Hv. by subst.
Qed.

(** The parts of an SRV name *)

Lemma substring_all (s : string) : String.substring 0 (String.length s) s = s.
Proof. induction s as [|c s IH]; simpl; [done|]. by rewrite IH. Qed.

Lemma index_at_head sep c s :
  String.index 0 sep (String c s)
  = if String.prefix sep (String c s) then Some O
    else match String.index 0 sep s with
         | Some n => Some (S n)
         | None => None
         end.
Proof. reflexivity. Qed.

Lemma prefix_dot c s :
  String.prefix "." (String c s) = if ascii_dec "." c then true else false.
Proof.
  change (String.prefix "." (String c s))
    with (if ascii_dec "." c then String.prefix EmptyString s else false).
  destruct (ascii_dec "." c); [|done]. by destruct s.
Qed.

Lemma index_dot w rest :
  noDot w = true ->
  String.index 0 "." (w ++ "." ++ rest) = Some (String.length w).
Proof.
  induction w as [|c w IH]; intros Hw.
  - rewrite str_nil_app. change ("." ++ rest) with (String "." rest).
    rewrite index_at_head, prefix_dot.
    by destruct (ascii_dec "." ".").
  - simpl in Hw. apply andb_true_iff in Hw as [Hc Hw].
    rewrite str_cons_app, index_at_head, (IH Hw), prefix_dot.
    destruct (ascii_dec "." c) as [<-|_]; [|done].
    by rewrite Ascii.eqb_refl in Hc.
Qed.

Lemma splitLoop_dot k w rest :
  noDot w = true ->
  strings.splitLoop (S k) (w ++ "." ++ rest) "."
  = w :: strings.splitLoop k rest ".".
Proof.
  intros Hw. simpl. unfold strings.Index. rewrite (index_dot w rest Hw).
  unfold strings.slice, strings.len. rewrite Nat.sub_0_r, substring_head.
  f_equal. f_equal.
  rewrite <- str_app_assoc.
  assert (Hlen : String.length (w ++ ".") = (String.length w + 1)%nat)
    by (by rewrite str_length_app).
  simpl (String.length "."). rewrite <- Hlen, (str_length_app (w ++ ".") rest).
  replace (String.length (w ++ ".") + String.length rest
           - String.length (w ++ "."))%nat
    with (String.length rest) by lia.
  apply substring_tail.
Qed.

Lemma TrimPrefix_underscore s : strings.TrimPrefix ("_" ++ s) "_" = s.
Proof.
  change ("_" ++ s) with (String "_" s).
  unfold strings.TrimPrefix, strings.HasPrefix, strings.slice, strings.len.
  simpl. replace (String.substring 0 0 s) with EmptyString by (by destruct s).
  simpl. rewrite Nat.sub_0_r. apply substring_all.
Qed.

Lemma SRV_name_parts service transport rest :
  noDot service = true -> noDot transport = true ->
  strings.SplitN ("_" ++ service ++ "._" ++ transport ++ "." ++ rest) "." 3
  = ["_" ++ service; "_" ++ transport; rest].
Proof.
  intros Hs Ht. unfold strings.SplitN.
  change ("_" ++ service ++ "._" ++ transport ++ "." ++ rest)
    with (String "_" (service ++ String "." (String "_" (transport ++ String "." rest)))).
  change (String "_" (service ++ String "." (String "_" (transport ++ String "." rest))))
    with (("_" ++ service) ++ "." ++ (("_" ++ transport) ++ "." ++ rest)).
  rewrite splitLoop_dot by done. rewrite splitLoop_dot by done. done.
Qed.

(** X16. An SRV record that is encoded and decoded again comes back with
    its service, transport, priority, weight, port and target, but under
    the absolute name the encoder gave it, not the name it had (service
    and transport without a dot, a target of ASCII bytes that is not
    empty and has no white space). *)
Theorem SRV_comes_back_with_the_absolute_name {lib : Library}
    service transport name ttl priority weight port target zone :
  noDot service = true ->
  noDot transport = true ->
  - 2 ^ 63 <= ttl < 2 ^ 63 ->
  0 <= priority < 65536 ->
  0 <= weight < 65536 ->
  0 <= port < 65536 ->
  isASCII target = true ->
  isWord target = true ->
  libdnsRecord
    (libdnsRecordToResourceRecord
       (libdns.SRV service transport name ttl priority weight port target) zone)
    zone
  = (libdns.SRV service transport (AbsoluteName name zone) (wholeSeconds ttl)
                priority weight port target, None).
Proof.
  intros Hs Ht Httl Hprio Hweight Hport Hascii Htarget.
  destruct (uint16_text weight Hweight) as (Hw & Hww & Hwa).
  destruct (uint16_text port Hport) as (Hp & Hpw & Hpa).
  unfold libdnsRecord, libdnsRecordToResourceRecord.
  cbn [rr_Type rr_Value rr_Name rr_TTL rr_Pref].
  change (String.eqb "SRV" "A") with false.
  change (String.eqb "SRV" "AAAA") with false.
  change (String.eqb "SRV" "CAA") with false.
  change (String.eqb "SRV" "CNAME") with false.
  change (String.eqb "SRV" "MX") with false.
  change (String.eqb "SRV" "NS") with false.
  change (String.eqb "SRV" "SRV") with true.
  cbn [orb].
  rewrite (Fields_three _ _ _ Hwa Hpa Hascii Hww Hpw Htarget).
  cbn [length Nat.eqb negb nth].
  rewrite Hw, Hp, (SRV_name_parts _ _ _ Hs Ht).
  cbn [length Nat.ltb Nat.leb Nat.eqb nth].
  rewrite !TrimPrefix_underscore.
  unfold uint16. rewrite !Z.mod_small by (change (2 ^ 16) with 65536; lia).
  by rewrite (ttl_round_trip ttl Httl).
Qed.


Lemma noSpace_app a b : noSpace (a ++ b) = noSpace a && noSpace b.
Proof.
  induction a as [|c a IH]; [done|]. rewrite str_cons_app. simpl.
  by rewrite IH, andb_assoc.
Qed.

Lemma quoted_isWord value :
  noSpace value = true -> isWord (dquote ++ value ++ dquote) = true.
Proof.
  intros Hv. unfold isWord.
  change (dquote ++ value ++ dquote) with (String (ascii_of_nat 34) (value ++ dquote)).
  simpl. by rewrite noSpace_app, Hv.
Qed.

Lemma quoted_isASCII value :
  isASCII value = true -> isASCII (dquote ++ value ++ dquote) = true.
Proof. intros Hv. by rewrite !isASCII_app, Hv. Qed.

Lemma TrimRight1_quote x q :
  strings.TrimRight1 (x ++ String q EmptyString) q = strings.TrimRight1 x q.
Proof.
  induction x as [|a x IH].
  - rewrite str_nil_app. simpl. by rewrite Ascii.eqb_refl.
  - rewrite str_cons_app. simpl. by rewrite IH.
Qed.

Lemma TrimLeft1_quote v q :
  strings.TrimLeft1 (v ++ String q EmptyString) q
  = match strings.TrimLeft1 v q with
    | EmptyString => EmptyString
    | x => x ++ String q EmptyString
    end.
Proof.
  induction v as [|a v IH].
  - rewrite str_nil_app. simpl. by rewrite Ascii.eqb_refl.
  - rewrite str_cons_app. simpl. destruct (Ascii.eqb a q); [done|].
    by rewrite str_cons_app.
Qed.

Lemma Trim1_quoted value :
  strings.Trim1 (dquote ++ value ++ dquote) (ascii_of_nat 34)
  = strings.Trim1 value (ascii_of_nat 34).
Proof.
  unfold strings.Trim1.
  change (dquote ++ value ++ dquote)
    with (String (ascii_of_nat 34) (value ++ String (ascii_of_nat 34) EmptyString)).
  change (strings.TrimLeft1 (String (ascii_of_nat 34) ?s) (ascii_of_nat 34))
    with (strings.TrimLeft1 s (ascii_of_nat 34)).
  rewrite TrimLeft1_quote.
  destruct (strings.TrimLeft1 value (ascii_of_nat 34)) as [|a x] eqn:Hleft; [done|].
  apply TrimRight1_quote.
Qed.

Lemma Fields_two_then a b rest :
  isASCII a = true -> isASCII b = true -> isASCII rest = true ->
  isWord a = true -> isWord b = true ->
  strings.Fields (a ++ " " ++ b ++ " " ++ rest)
  = a :: b :: strings.fieldsFrom rest EmptyString.
Proof.
  intros Ha' Hb' Hrest Ha Hb.
  rewrite Fields_ascii by (by rewrite !isASCII_app, Ha', Hb', Hrest).
  rewrite fieldsFrom_word by done. rewrite str_nil_app.
  change (" " ++ b ++ " " ++ rest) with (String " " (b ++ String " " rest)).
  rewrite fieldsFrom_space by done. f_equal.
  rewrite fieldsFrom_word by done. rewrite str_nil_app.
  by rewrite fieldsFrom_space.
Qed.

Lemma fieldsFrom_before_quote t cur :
  (1 <= length (strings.fieldsFrom (t ++ dquote) cur))%nat.
Proof.
  revert cur. induction t as [|c t IH]; intros cur.
  - rewrite str_nil_app. unfold dquote. simpl.
    destruct (cur ++ _) eqn:Hcur; [by destruct cur|simpl; lia].
  - rewrite str_cons_app. simpl. destruct (strings.asciiSpace c); [|apply IH].
    destruct cur; [apply IH|simpl; lia].
Qed.

Lemma fieldsFrom_with_space v cur :
  noSpace v = false -> cur <> EmptyString ->
  (2 <= length (strings.fieldsFrom (v ++ dquote) cur))%nat.
Proof.
  revert cur. induction v as [|c v IH]; intros cur Hv Hcur; [done|].
  rewrite str_cons_app. simpl in *.
  destruct (strings.asciiSpace c); simpl in *.
  - destruct cur; [done|]. simpl.
    pose proof (fieldsFrom_before_quote v EmptyString). lia.
  - apply IH; [done|]. by destruct cur.
Qed.

(** X17. A CAA record of ASCII text whose tag is not empty and has no
    white space and whose value has no white space, encoded and decoded
    again, comes back with its flags, its tag and its value less the
    double quotes at its ends. *)
Theorem CAA_round_trip {lib : Library} name ttl flags tag value zone :
  - 2 ^ 63 <= ttl < 2 ^ 63 ->
  0 <= flags < 256 ->
  isASCII tag = true ->
  isWord tag = true ->
  isASCII value = true ->
  noSpace value = true ->
  libdnsRecord
    (libdnsRecordToResourceRecord (libdns.CAA name ttl flags tag value) zone) zone
  = (libdns.CAA (RelativeName (AbsoluteName name zone) zone) (wholeSeconds ttl)
                flags tag (strings.Trim1 value (ascii_of_nat 34)), None).
Proof.
  intros Httl Hflags Htag' Htag Hvalue' Hvalue.
  destruct (uint8_text flags Hflags) as (Hf & Hfw & Hfa).
  unfold libdnsRecord, libdnsRecordToResourceRecord.
  cbn [rr_Type rr_Value rr_Name rr_TTL rr_Pref].
  change (String.eqb "CAA" "A") with false.
  change (String.eqb "CAA" "AAAA") with false.
  change (String.eqb "CAA" "CAA") with true.
  cbn [orb].
  rewrite (Fields_three _ _ _ Hfa Htag' (quoted_isASCII value Hvalue')
             Hfw Htag (quoted_isWord value Hvalue)).
  cbn [length Nat.eqb negb nth].
  rewrite Hf, Trim1_quoted.
  unfold uint8. rewrite Z.mod_small by (change (2 ^ 8) with 256; lia).
  by rewrite (ttl_round_trip ttl Httl).
Qed.

(** X18. A CAA record of ASCII text whose tag is not empty and has no
    white space and whose value holds white space is encoded to a row
    the decoder rejects as malformed: the row value is cut into more
    than three fields. *)
Theorem CAA_with_white_space_is_not_read_back {lib : Library}
    name ttl flags tag value zone :
  0 <= flags < 256 ->
  isASCII tag = true ->
  isWord tag = true ->
  isASCII value = true ->
  noSpace value = false ->
  libdnsRecord
    (libdnsRecordToResourceRecord (libdns.CAA name ttl flags tag value) zone) zone
  = (libdns.CAA EmptyString 0 0 EmptyString EmptyString,
     Some ("malformed CAA value; expected 3 fields in the form 'flags tag "
           ++ dquote ++ "value" ++ dquote ++ "'")).
Proof.
  intros Hflags Htag' Htag Hvalue' Hvalue.
  destruct (uint8_text flags Hflags) as (_ & Hfw & Hfa).
  unfold libdnsRecord, libdnsRecordToResourceRecord.
  cbn [rr_Type rr_Value rr_Name rr_TTL rr_Pref].
  change (String.eqb "CAA" "A") with false.
  change (String.eqb "CAA" "AAAA") with false.
  change (String.eqb "CAA" "CAA") with true.
  cbn [orb].
  rewrite (Fields_two_then _ _ _ Hfa Htag' (quoted_isASCII value Hvalue') Hfw Htag).
  change (dquote ++ value ++ dquote)
    with (String (ascii_of_nat 34) (value ++ dquote)).
  change (strings.fieldsFrom (String (ascii_of_nat 34) (value ++ dquote)) EmptyString)
    with (strings.fieldsFrom (value ++ dquote) dquote).
  pose proof (fieldsFrom_with_space value dquote Hvalue ltac:(done)) as Hlen.
  destruct (strings.fieldsFrom (value ++ dquote) dquote) as [|x [|y more]];
    simpl in Hlen; try lia.
  reflexivity.
Qed.

Lemma SRV_comes_back_with_the_absolute_name_witness :
  libdnsRecord (lib := Sample.library)
    (libdnsRecordToResourceRecord (lib := Sample.library)
       (libdns.SRV "xmpp-client" "tcp" "chat" (3600 * Second) 5 0 5222
                   "xmpp.example.net") "example.com")
    "example.com"
  = (libdns.SRV "xmpp-client" "tcp" "chat.example.com" (3600 * Second) 5 0 5222
                "xmpp.example.net", None).
Proof.
  rewrite (SRV_comes_back_with_the_absolute_name (lib := Sample.library)).
  - reflexivity.
  - reflexivity.
  - reflexivity.
  - vm_compute. split; [discriminate|reflexivity].
  - lia.
  - lia.
  - lia.
  - reflexivity.
  - reflexivity.
Defined.

Lemma CAA_round_trip_witness :
  libdnsRecord (lib := Sample.library)
    (libdnsRecordToResourceRecord (lib := Sample.library)
       (libdns.CAA "@" (3600 * Second) 128 "issue" "letsencrypt.org") "example.com")
    "example.com"
  = (libdns.CAA "@" (3600 * Second) 128 "issue" "letsencrypt.org", None).
Proof.
  rewrite (CAA_round_trip (lib := Sample.library)).
  - reflexivity.
  - vm_compute. split; [discriminate|reflexivity].
  - lia.
  - reflexivity.
  - reflexivity.
  - reflexivity.
  - reflexivity.
Defined.

Lemma CAA_with_white_space_is_not_read_back_witness :
  snd (libdnsRecord (lib := Sample.library)
         (libdnsRecordToResourceRecord (lib := Sample.library)
            (libdns.CAA "@" (3600 * Second) 0 "issue"
                        "letsencrypt.org; validationmethods=dns-01")
            "example.com")
         "example.com")
  = Some ("malformed CAA value; expected 3 fields in the form 'flags tag "
          ++ dquote ++ "value" ++ dquote ++ "'").
Proof.
  rewrite (CAA_with_white_space_is_not_read_back (lib := Sample.library)).
  - reflexivity.
  - lia.
  - reflexivity.
  - reflexivity.
  - reflexivity.
  - reflexivity.
Defined.

(** ** The replies [sendAPIRequest] reads *)

Example base64_of_credentials :
  Wire.base64 "Aladdin:open sesame" = "QWxhZGRpbjpvcGVuIHNlc2FtZQ=="
  /\ Wire.base64 "user:pass" = "dXNlcjpwYXNz"
  /\ Wire.base64 "a:b12" = "YTpiMTI=".
Proof. repeat split; reflexivity. Qed.

Section Replies.
Context {lib : Library} {http : HTTPClient}.

Lemma setHeaders_default p :
  setHeaders p EmptyString = setHeaders p "application/json".
Proof. reflexivity. Qed.

(** [setZone] over the client: the error of the write. *)
Lemma setZone_over_the_client zoneName zoneData st :
  canPut (tr := httpTransport) st zoneName ->
  fst (setZone (tr := httpTransport) zoneName zoneData st)
  = match snd (sendAPIRequestHTTP (prov st) (net st)
                 (putRequest st zoneName zoneData) "application/json" false) with
    | Some err => Some ("failed to update zone " ++ zoneName ++ ": " ++ err)
    | None => None
    end.
Proof.
  intros Hput. unfold setZone. rewrite Hput. unfold sendAPIRequest. simpl.
  unfold putRequest, sendAPIRequestHTTP, setHeaders. simpl.
  destruct (Do _ _ _) as [resp [err|]]; [done|].
  destruct (resp_ReadError resp); [done|].
  destruct (unmarshalJsonResponse _) as [respData [err|]]; [done|].
  destruct (400 <=? _); [done|].
  destruct (String.eqb _ "ERROR"); [done|].
  by rewrite andb_false_r.
Qed.

(** [getZone] over the client, when the zone is not cached. *)
Lemma getZone_over_the_client zoneName st :
  p_zones (prov st) !! zoneName = None ->
  newRequest "GET" (zoneURL (prov st) zoneName) None = None ->
  getZone (tr := httpTransport) zoneName st
  = let st1 := {| prov := prov st;
                  net := (net st ++ [getRequest (prov st) zoneName])%list |} in
    match sendAPIRequestHTTP (prov st) (net st) (getRequest (prov st) zoneName)
            EmptyString true with
    | (_, _, Some err) =>
        ((Zone_zero, Some ("failed to get zone " ++ zoneName ++ ": " ++ err)), st1)
    | (_, [], None) =>
        ((Zone_zero, Some ("no zones found for " ++ zoneName)), st1)
    | (_, zone :: _, None) =>
        ((zone, None),
         {| prov := set_zones (prov st) (<[zoneName := zone]> (p_zones (prov st)));
            net := net st1 |})
    end.
Proof.
  intros Hmiss Hbuild. unfold getZone. rewrite Hmiss.
  unfold zoneURL in Hbuild. simpl. rewrite Hbuild.
  unfold sendAPIRequest. simpl.
  unfold getRequest, zoneURL, sendAPIRequestHTTP, setHeaders. simpl.
  destruct (Do _ _ _) as [resp [err|]]; [done|].
  destruct (resp_ReadError resp); [done|].
  destruct (unmarshalJsonResponse _) as [respData [err|]].
  - by destruct (unmarshalZones _) as [[|zone zones] [e|]].
  - destruct (400 <=? _); [done|].
    destruct (String.eqb _ "ERROR"); [done|].
    destruct (_ && _); [|done].
    by destruct (unmarshalZones _) as [[|zone zones] [e|]].
Qed.

End Replies.

(** X19. A write whose reply has a body that does not parse as a
    JsonResponse is taken as done, whatever the status code of the
    reply: AppendRecords, SetRecords and DeleteRecords return the records
    without error and the zone is dropped from the cache. *)
Theorem write_answered_without_JsonResponse_succeeds
    {lib : Library} {http : HTTPClient}
    what Op zone records st zoneData st1 resp :
  In (what, Op) (mutatingOperations (tr := httpTransport)) ->
  zone <> EmptyString ->
  records <> [] ->
  fetched (tr := httpTransport) zone st zoneData st1 ->
  (forall written,
     answered (prov st1) (net st1) (putRequest st1 zone written) resp) ->
  snd (unmarshalJsonResponse (resp_Body resp)) <> None ->
  fst (Op zone records st) = (records, None)
  /\ p_zones (prov (snd (Op zone records st))) !! zone = None.
Proof.
  intros Hop Hzone Hrecords (p0 & Hinit & Hget & Hput) Hreply Hjson.
  destruct (mutatingOperations_shape what Op Hop) as [change Hshape].
  rewrite Hshape. rewrite (mutating_run _ _ _ _ _ p0) by done.
  unfold fetchThenWrite. rewrite Hget.
  pose proof (setZone_over_the_client zone (change zone records zoneData) st1 Hput)
    as Herr.
  destruct (Hreply (change zone records zoneData)) as [Hdo Hread].
  unfold sendAPIRequestHTTP in Herr. rewrite Hdo, Hread in Herr.
  destruct (unmarshalJsonResponse _) as [respData [err|]]; [|done].
  simpl in Herr.
  pose proof (setZone_success (tr := httpTransport) zone
                (change zone records zoneData) st1 Herr) as (_ & _ & Hcache).
  destruct (setZone zone (change zone records zoneData) st1) as [e st2].
  simpl in *. subst e. split; [done|].
  rewrite Hcache. apply lookup_delete_eq.
Qed.

(** X20. A write answered with a JsonResponse and a status code of 400
    or more fails: AppendRecords, SetRecords and DeleteRecords return no
    record and the error of the operation, of the zone update and of the
    status, with the code and the text of the response, and the fetched
    document stays cached. *)
Theorem refused_write_reports_the_status
    {lib : Library} {http : HTTPClient}
    what Op zone records st zoneData st1 resp respData :
  In (what, Op) (mutatingOperations (tr := httpTransport)) ->
  zone <> EmptyString ->
  records <> [] ->
  fetched (tr := httpTransport) zone st zoneData st1 ->
  (forall written,
     answered (prov st1) (net st1) (putRequest st1 zone written) resp) ->
  unmarshalJsonResponse (resp_Body resp) = (respData, None) ->
  400 <= resp_StatusCode resp ->
  fst (Op zone records st)
  = ([], Some (what ++ zone ++ ": failed to update zone " ++ zone ++ ": HTTP "
               ++ strconv.Itoa (resp_StatusCode resp) ++ ": "
               ++ status_Code (json_Status respData) ++ " - "
               ++ status_Text (json_Status respData)))
  /\ p_zones (prov (snd (Op zone records st))) !! zone = Some zoneData.
Proof.
  intros Hop Hzone Hrecords (p0 & Hinit & Hget & Hput) Hreply Hjson Hstatus.
  destruct (mutatingOperations_shape what Op Hop) as [change Hshape].
  rewrite Hshape. rewrite (mutating_run _ _ _ _ _ p0) by done.
  unfold fetchThenWrite. rewrite Hget.
  pose proof (setZone_over_the_client zone (change zone records zoneData) st1 Hput)
    as Herr.
  destruct (Hreply (change zone records zoneData)) as [Hdo Hread].
  unfold sendAPIRequestHTTP in Herr. rewrite Hdo, Hread, Hjson in Herr.
  apply Z.leb_le in Hstatus. rewrite Hstatus in Herr. simpl in Herr.
  pose proof (setZone_failure (tr := httpTransport) zone
                (change zone records zoneData) st1 _ Herr) as Hcache.
  destruct (setZone zone (change zone records zoneData) st1) as [e st2].
  simpl in *. subst e. split; [done|].
  rewrite Hcache. by apply (getZone_caches (tr := httpTransport) _ _ _ _ Hget).
Qed.

(** X21. A read of a zone that is not cached, answered below status 400
    with a JsonResponse that is no error and carries no data, makes
    GetRecords fail with the error that no zones were found, and caches
    nothing. *)
Theorem reply_without_zones_is_an_error
    {lib : Library} {http : HTTPClient} zone st p0 resp respData :
  ensureInitialized (prov st) = (None, p0) ->
  zone <> EmptyString ->
  p_zones (prov st) !! zone = None ->
  newRequest "GET" (zoneURL p0 zone) None = None ->
  answered p0 (net st) (getRequest p0 zone) resp ->
  unmarshalJsonResponse (resp_Body resp) = (respData, None) ->
  resp_StatusCode resp < 400 ->
  status_Type (json_Status respData) <> "ERROR" ->
  json_Data respData = EmptyString ->
  fst (GetRecords (tr := httpTransport) zone st)
  = ([], Some ("failed to get zone " ++ zone ++ ": no zones found for " ++ zone))
  /\ p_zones (prov (snd (GetRecords (tr := httpTransport) zone st)))
     = p_zones (prov st).
Proof.
  intros Hinit Hzone Hmiss Hbuild [Hdo Hread] Hjson Hstatus Htype Hdata.
  assert (p_zones p0 = p_zones (prov st)) as Hzones.
  { pose proof (ensureInitialized_zones (prov st)) as H. by rewrite Hinit in H. }
  unfold GetRecords. rewrite Hinit.
  destruct (String.eqb_spec zone EmptyString) as [|_]; [done|].
  rewrite getZone_over_the_client; simpl; try done; [|by rewrite Hzones].
  unfold sendAPIRequestHTTP. rewrite setHeaders_default.
  rewrite Hdo, Hread, Hjson, Hdata.
  apply Z.leb_gt in Hstatus. rewrite Hstatus.
  apply String.eqb_neq in Htype. rewrite Htype. simpl.
  done.
Qed.

Lemma write_answered_without_JsonResponse_succeeds_witness :
  let document := Sample.exampleZone [Sample.row "test" "TXT" "old"] in
  let http := Wire.client document Wire.zoneReply Wire.gatewayReply in
  let record := libdns.TXT "test" (300 * Second) "new" in
  let out := SetRecords (lib := Sample.library) (tr := httpTransport (http := http))
               "example.com" [record] Sample.fresh in
  fst out = ([record], None) /\ p_zones (prov (snd out)) !! "example.com" = None.
Proof.
  intros document http record out. unfold out.
  apply (write_answered_without_JsonResponse_succeeds
           (lib := Sample.library) (http := http)
           "failed to set records in zone "
           (SetRecords (lib := Sample.library) (tr := httpTransport (http := http)))
           "example.com" [record] Sample.fresh document
           (snd (getZone (tr := httpTransport (http := http)) "example.com"
                   (withProvider Sample.fresh Sample.ready)))
           Wire.gatewayReply).
  - right. left. reflexivity.
  - discriminate.
  - discriminate.
  - exists Sample.ready. split; [vm_compute; reflexivity|].
    split; [vm_compute; reflexivity|]. intros body. reflexivity.
  - intros written. split; reflexivity.
  - discriminate.
Defined.

Lemma refused_write_reports_the_status_witness :
  let document := Sample.exampleZone [Sample.row "test" "TXT" "old"] in
  let http := Wire.client document Wire.zoneReply Wire.refusal in
  let record := libdns.TXT "test" (300 * Second) "new" in
  let out := DeleteRecords (lib := Sample.library) (tr := httpTransport (http := http))
               "example.com" [record] Sample.fresh in
  fst out
  = ([], Some ("failed to delete records from zone example.com: "
               ++ "failed to update zone example.com: "
               ++ "HTTP 400: E0205 - Zone could not be updated"))
  /\ p_zones (prov (snd out)) !! "example.com" = Some document.
Proof.
  intros document http record out. unfold out.
  apply (refused_write_reports_the_status
           (lib := Sample.library) (http := http)
           "failed to delete records from zone "
           (DeleteRecords (lib := Sample.library) (tr := httpTransport (http := http)))
           "example.com" [record] Sample.fresh document
           (snd (getZone (tr := httpTransport (http := http)) "example.com"
                   (withProvider Sample.fresh Sample.ready)))
           Wire.refusal
           (fst (unmarshalJsonResponse (HTTPClient := http) "{error}"))).
  - right. right. left. reflexivity.
  - discriminate.
  - discriminate.
  - exists Sample.ready. split; [vm_compute; reflexivity|].
    split; [vm_compute; reflexivity|]. intros body. reflexivity.
  - intros written. split; reflexivity.
  - reflexivity.
  - vm_compute. discriminate.
Defined.

Lemma reply_without_zones_is_an_error_witness :
  let document := Sample.exampleZone [Sample.row "test" "TXT" "old"] in
  let http := Wire.client document Wire.emptyReply Wire.gatewayReply in
  let out := GetRecords (lib := Sample.library) (tr := httpTransport (http := http))
               "example.com" Sample.fresh in
  fst out
  = ([], Some ("failed to get zone example.com: no zones found for example.com"))
  /\ p_zones (prov (snd out)) = p_zones (prov Sample.fresh).
Proof.
  intros document http out. unfold out.
  apply (reply_without_zones_is_an_error
           (lib := Sample.library) (http := http)
           "example.com" Sample.fresh Sample.ready Wire.emptyReply JsonResponse_zero).
  - vm_compute. reflexivity.
  - discriminate.
  - reflexivity.
  - reflexivity.
  - split; reflexivity.
  - reflexivity.
  - vm_compute. reflexivity.
  - discriminate.
  - reflexivity.
Defined.
